(** * Energy BI stack: the ETL cleaning/loading stages and the read-only API

    A shallow embedding of
      - [dags/energy_etl_dag.py]  ([clean_and_transform_data], [load_to_postgres]),
      - [backend/api/models.py]   (the four table models),
      - [backend/api/views.py]    (the four view sets: [get_queryset], [summary]),
    followed by the properties the specification states about them.

    Python [str] values are modelled as [string] (the UTF-8 bytes of the
    text); frames are positional rows under a list of column labels; files
    under [/tmp] and database tables are finite maps keyed by name.

    What the repository calls and does not define is a parameter of the
    development: the Python and pandas built-ins ([PyRuntime]) and the
    PostgreSQL server behind pandas and Django ([Postgres]). *)

From Stdlib Require Import ZArith QArith Qround Lia Bool List Ascii String.
From Stdlib Require Import Sorting.Sorted Sorting.Permutation.
From stdpp Require Import base option list gmap strings pretty.
Import ListNotations.

#[local] Open Scope string_scope.
#[local] Open Scope list_scope.

(* ===================================================================== *)
(** ** Python string primitives *)
(* ===================================================================== *)

Module PyStr.

(** [sub in s] for two [str] values. *)
Fixpoint contains (sub s : string) : bool :=
  if String.prefix sub s then true
  else match s with
       | EmptyString => false
       | String _ t => contains sub t
       end.

(** [s.replace(old, new)] for a non-empty [old] (every call in the source
    passes a non-empty literal): left-to-right, non-overlapping.  [skip]
    counts the characters of a match that are still to be consumed. *)
Fixpoint replace_from (skip : nat) (old new s : string) : string :=
  match s with
  | EmptyString => EmptyString
  | String c t =>
      match skip with
      | S k => replace_from k old new t
      | O =>
          if String.prefix old s
          then String.append new (replace_from (String.length old - 1) old new t)
          else String c (replace_from 0 old new t)
      end
  end.

Definition replace (old new s : string) : string := replace_from 0 old new s.

(** [s.lstrip(c)], [s.rstrip(c)] and [s.strip(c)] for a one-character [c]. *)
Fixpoint lstrip (c : ascii) (s : string) : string :=
  match s with
  | EmptyString => EmptyString
  | String a t => if Ascii.eqb a c then lstrip c t else s
  end.

Fixpoint rstrip (c : ascii) (s : string) : string :=
  match s with
  | EmptyString => EmptyString
  | String a t =>
      match rstrip c t with
      | EmptyString => if Ascii.eqb a c then EmptyString else String a EmptyString
      | t' => String a t'
      end
  end.

Definition strip (c : ascii) (s : string) : string := rstrip c (lstrip c s).

(** The characters of a string, in order. *)
Definition chars (s : string) : list ascii := list_ascii_of_string s.

Definition starts_with_char (c : ascii) (s : string) : bool :=
  match s with
  | String a _ => Ascii.eqb a c
  | EmptyString => false
  end.

Fixpoint ends_with_char (c : ascii) (s : string) : bool :=
  match s with
  | EmptyString => false
  | String a EmptyString => Ascii.eqb a c
  | String _ t => ends_with_char c t
  end.

End PyStr.

(* ===================================================================== *)
(** ** Values and frames *)
(* ===================================================================== *)

(** A value in a frame: a number (an [int64] or a finite [float64], by its
    rational value), a text, a [datetime.date] (by its ordinal), or a missing
    value ([NaN]/[None]). *)
Inductive cell : Type :=
  | CNum (q : Q)
  | CStr (s : string)
  | CDate (d : Z)
  | CNull.

(** Equality of values as [drop_duplicates] sees it: by value, with two
    missing values equal. *)
Definition cell_eqb (a b : cell) : bool :=
  match a, b with
  | CNum p, CNum q => Qeq_bool p q
  | CStr s, CStr t => String.eqb s t
  | CDate d, CDate e => Z.eqb d e
  | CNull, CNull => true
  | _, _ => false
  end.

(** An integer as a value. *)
Definition num (z : Z) : cell := CNum (inject_Z z).

(** A row of a frame: its cells, left to right. *)
Abbreviation row := (list cell).

Fixpoint row_eqb (r s : row) : bool :=
  match r, s with
  | [], [] => true
  | a :: r', b :: s' => cell_eqb a b && row_eqb r' s'
  | _, _ => false
  end.

(** A [DataFrame]: column labels and positional rows. *)
Record frame : Type := Frame { columns : list string; rows : list row }.

(** Every row has one cell per column. *)
Definition frame_wf (f : frame) : Prop :=
  Forall (fun r : row => length r = length (columns f)) (rows f).

(* ===================================================================== *)
(** ** The Python and pandas built-ins *)
(* ===================================================================== *)

(** What the Python and pandas runtime contributes and the repository does
    not define: [text.lower()]; [int(text)] ([None] when it raises
    [ValueError]); the number a text converts to under [pd.to_numeric]
    ([None] when it converts to none); and the text [str] gives a value that
    is not a text. *)
Class PyRuntime : Type := {
  str_lower : string -> string;
  int_of_text : string -> option Z;
  float_of_text : string -> option Q;
  text_of_value : cell -> string
}.

(* ===================================================================== *)
(** ** ETL: column normalisation and entity classification *)
(* ===================================================================== *)

(** The subscript two (U+2082) as its three UTF-8 bytes. *)
Definition subscript_two : string :=
  String (ascii_of_nat 226) (String (ascii_of_nat 130) (String (ascii_of_nat 130) "")).

(** The rewrite applied to every column label, lines 116-126 of the DAG. *)
Definition normalize_column {rt : PyRuntime} (col : string) : string :=
  PyStr.strip "_"
    (PyStr.replace "__" "_"
      (PyStr.replace "-" "_"
        (PyStr.replace " " "_"
          (PyStr.replace " - " "_"
            (PyStr.replace ")" ""
              (PyStr.replace "(" ""
                (PyStr.replace subscript_two "2"
                  (str_lower col)))))))).

(** The fixed list of aggregate-region labels, line 147. *)
Definition aggregates : list string :=
  ["World"; "Africa"; "Asia"; "Europe"; "OECD"; "EU"; "ASEAN"].

(** The lambda of lines 148-150, on the text [str(x)] of the entity. *)
Definition entity_type_of (x : string) : string :=
  if existsb (fun agg => PyStr.contains agg x) aggregates
  then "aggregate" else "country".

(** No character of [s] satisfies [bad]. *)
Definition free_of (bad : ascii -> Prop) (s : string) : Prop :=
  forall c, In c (PyStr.chars s) -> ~ bad c.

(* ===================================================================== *)
(** ** ETL: frame operations *)
(* ===================================================================== *)

(** Position of the first column carrying a label. *)
Fixpoint index_of (name : string) (cols : list string) : option nat :=
  match cols with
  | [] => None
  | c :: cs => if String.eqb name c then Some 0%nat
               else option_map S (index_of name cs)
  end.

(** ['name' in df.columns]. *)
Definition has_column (name : string) (f : frame) : bool :=
  existsb (String.eqb name) (columns f).

(** The cell of row [r] under the column [name] of frame [f]. *)
Definition cell_of (f : frame) (name : string) (r : row) : option cell :=
  match index_of name (columns f) with
  | Some i => r !! i
  | None => None
  end.

(** The values of the column [name], top to bottom. *)
Definition column_values (f : frame) (name : string) : list (option cell) :=
  map (cell_of f name) (rows f).

(** A number or a missing value: what a numeric column holds. *)
Definition number_or_missing (c : cell) : Prop :=
  match c with
  | CNum _ | CNull => True
  | _ => False
  end.

(** [df[name] = g(row)]: an existing column is overwritten in place, a new
    one is appended on the right. *)
Definition set_column (name : string) (g : row -> cell) (f : frame) : frame :=
  match index_of name (columns f) with
  | Some i => Frame (columns f) (map (fun r => <[i := g r]> r) (rows f))
  | None => Frame (columns f ++ [name]) (map (fun r => r ++ [g r]) (rows f))
  end.

(** The row that [set_column] builds from a row. *)
Definition set_row (name : string) (g : row -> cell) (f : frame) (r : row) : row :=
  match index_of name (columns f) with
  | Some i => <[i := g r]> r
  | None => r ++ [g r]
  end.

(** [df[name] = df[name].apply(g)] for a column that exists. *)
Definition map_column (name : string) (g : cell -> cell) (f : frame) : frame :=
  set_column name (fun r => g (default CNull (cell_of f name r))) f.

(** [df.drop_duplicates()]: a row is dropped when an equal row came before. *)
Fixpoint drop_duplicates_from (seen rs : list row) : list row :=
  match rs with
  | [] => []
  | r :: rest =>
      if existsb (row_eqb r) seen then drop_duplicates_from seen rest
      else r :: drop_duplicates_from (r :: seen) rest
  end.

Definition drop_duplicates (f : frame) : frame :=
  Frame (columns f) (drop_duplicates_from [] (rows f)).

(** No row of the list equals an earlier one. *)
Fixpoint distinct_rows (rs : list row) : bool :=
  match rs with
  | [] => true
  | r :: rest => negb (existsb (row_eqb r) rest) && distinct_rows rest
  end.

(* ===================================================================== *)
(** ** ETL: the clean/transform stage, one dataset *)
(* ===================================================================== *)

Section Clean.

Context {rt : PyRuntime}.

(** [str(x)]. *)
Definition py_str (x : cell) : string :=
  match x with
  | CStr s => s
  | other => text_of_value other
  end.

(** [pd.to_numeric(..., errors='coerce')], one value. *)
Definition to_numeric (x : cell) : cell :=
  match x with
  | CNum q => CNum q
  | CStr s => match float_of_text s with
              | Some q => CNum q
              | None => CNull
              end
  | CDate _ => CNull
  | CNull => CNull
  end.

(** [(y >= 1750) & (y <= 2025)]; a comparison with [NaN] is false. *)
Definition year_in_range (y : cell) : bool :=
  match y with
  | CNum q => Qle_bool (1750 # 1) q && Qle_bool q (2025 # 1)
  | _ => false
  end.

(** Lines 116-126: every label rewritten. *)
Definition standardize_columns (df : frame) : frame :=
  Frame (map normalize_column (columns df)) (rows df).

(** Lines 129-130: empty codes become missing. *)
Definition handle_missing_codes (df : frame) : frame :=
  if has_column "code" df
  then map_column "code"
         (fun c => match c with
                   | CStr s => if String.eqb s "" then CNull else c
                   | _ => c
                   end) df
  else df.

(** The frame held after line 133. *)
Definition deduplicated (df : frame) : frame :=
  drop_duplicates (handle_missing_codes (standardize_columns df)).

(** The year of a row after [pd.to_numeric]. *)
Definition coerced_year (df : frame) (r : row) : cell :=
  to_numeric (default CNull (cell_of df "year" r)).

(** Lines 136-138: the year column coerced, rows out of range dropped. *)
Definition validate_years (df : frame) : frame :=
  if has_column "year" df
  then let coerced := map_column "year" to_numeric df in
       Frame (columns coerced)
             (List.filter (fun r => year_in_range (default CNull (cell_of coerced "year" r)))
                     (rows coerced))
  else df.

(** Lines 141-143. *)
Definition add_metadata (key : string) (today : Z) (df : frame) : frame :=
  set_column "last_updated" (fun _ => CDate today)
    (set_column "data_quality_flag" (fun _ => CStr "clean")
      (set_column "data_source" (fun _ => CStr key) df)).

(** Lines 146-150. *)
Definition classify_entities (df : frame) : frame :=
  if has_column "entity" df
  then set_column "entity_type"
         (fun r => CStr (entity_type_of (py_str (default CNull (cell_of df "entity" r))))) df
  else df.

(** The frame the stage holds before it classifies the entities. *)
Definition tagged (key : string) (today : Z) (df : frame) : frame :=
  add_metadata key today (validate_years (deduplicated df)).

(** [df.to_parquet(...)]: writing a frame whose labels repeat raises.  (With
    repeated labels pandas may raise earlier, at [pd.to_numeric] or at
    [apply]; no step removes a repeated label, so the stage fails either
    way.) *)
Definition to_parquet (df : frame) : option frame :=
  if decide (NoDup (columns df)) then Some df else None.

(** The labels the stage assigns itself. *)
Definition assigned_labels : list string :=
  ["data_source"; "data_quality_flag"; "last_updated"; "entity_type"].

(** The body of the loop of [clean_and_transform_data] for the dataset [key],
    with [today] the value of [datetime.now().date()]; [None] when the stage
    raises. *)
Definition clean_dataset (key : string) (today : Z) (df : frame) : option frame :=
  to_parquet (classify_entities (tagged key today df)).

End Clean.

(* ===================================================================== *)
(** ** ETL: the stages over the files and the database *)
(* ===================================================================== *)

(** One entry of the cleaning summary pushed to XCom. *)
Record cleaning_entry : Type := CleaningEntry {
  cleaning_dataset : string;
  original_rows : nat;
  cleaned_rows : nat;
  removed_rows : Z
}.

(** One entry of the load summary. *)
Record load_entry : Type := LoadEntry {
  load_dataset_key : string;
  table_name : string;
  rows_loaded : nat;
  status : string
}.

Definition parquet_path (key : string) : string :=
  String.append "/tmp/" (String.append key ".parquet").

Definition cleaned_parquet_path (key : string) : string :=
  String.append "/tmp/" (String.append key "_cleaned.parquet").

Section Stages.

Context {rt : PyRuntime}.

(** One turn of the loop of [clean_and_transform_data]: the snapshot is
    read, cleaned and written back under the cleaned name. *)
Definition clean_step (today : Z) (key : string) (files : gmap string frame)
  : option (gmap string frame * cleaning_entry) :=
  df ← files !! parquet_path key;
  out ← clean_dataset key today df;
  Some (<[cleaned_parquet_path key := out]> files,
        CleaningEntry key (length (rows df)) (length (rows out))
          (Z.of_nat (length (rows df)) - Z.of_nat (length (rows out)))).

(** [clean_and_transform_data]: the loop over the dataset keys; [today key]
    is the date read while [key] is cleaned. *)
Fixpoint clean_and_transform_data (today : string -> Z) (keys : list string)
    (files : gmap string frame)
  : option (gmap string frame * list cleaning_entry) :=
  match keys with
  | [] => Some (files, [])
  | key :: rest =>
      '(files1, entry) ← clean_step (today key) key files;
      '(files2, entries) ← clean_and_transform_data today rest files1;
      Some (files2, entry :: entries)
  end.

End Stages.

(* ===================================================================== *)
(** ** The PostgreSQL server *)
(* ===================================================================== *)

(** The bytes of the UTF-8 character that starts with the byte [lead]
    ([pg_utf_mblen]). *)
Definition utf8_length (lead : ascii) : nat :=
  let n := nat_of_ascii lead in
  if (n <? 128)%nat then 1%nat
  else if (n <? 192)%nat then 1%nat
  else if (n <? 224)%nat then 2%nat
  else if (n <? 240)%nat then 3%nat
  else if (n <? 248)%nat then 4%nat
  else 1%nat.

(** The whole characters of a text that fit in [room] bytes; [pending]
    counts the bytes still to copy of a character already let in. *)
Fixpoint clip_from (pending room : nat) (s : string) : string :=
  match s with
  | EmptyString => EmptyString
  | String c t =>
      match pending with
      | S k => String c (clip_from k room t)
      | O =>
          let l := utf8_length c in
          if (l <=? room)%nat then String c (clip_from (l - 1) (room - l) t)
          else EmptyString
      end
  end.

(** An identifier as PostgreSQL keeps it: cut to 63 bytes, at a character
    boundary. *)
Definition pg_identifier (name : string) : string := clip_from 0 63 name.

(** What the PostgreSQL server contributes, through pandas ([to_sql],
    [read_sql]) and through the Django ORM (the lookups, the ordering and
    the aggregates of a queryset).

    - [pg_upper] is [UPPER(text)] and [pg_text_le a b] tells that the text
      [a] sorts before or with [b], both under the collation of the database;
    - [order_by le rows] is the rows under [ORDER BY], for keys compared by
      [le]: a rearrangement of the rows that is sorted whenever [le] is an
      order; where two rows tie, the order is the server's;
    - [float8_sum] and [float8_avg] are [SUM] and [AVG] over the values of a
      [double precision] column that are not [NULL], of which there is one
      at least;
    - [to_sql name table db] is the table that [table.to_sql(name, ...,
      if_exists='replace')] leaves under the name, [None] when the call
      raises.  When it goes through, no label of the frame was blank, the
      labels were distinct as identifiers, the table has the labels as
      identifiers and as many rows as the frame, and a column that holds
      numbers only holds the same numbers;
    - [select_count name db] is the answer to [SELECT COUNT( * ) FROM name],
      the name spliced into the statement as it is; [None] when the
      statement raises. *)
Class Postgres : Type := {
  pg_upper : string -> string;
  pg_text_le : string -> string -> bool;
  pg_text_le_total : forall a b, pg_text_le a b = true \/ pg_text_le b a = true;
  pg_text_le_trans :
    forall a b c, pg_text_le a b = true -> pg_text_le b c = true -> pg_text_le a c = true;
  order_by : forall A : Type, (A -> A -> bool) -> list A -> list A;
  order_by_permutation :
    forall (A : Type) (le : A -> A -> bool) (l : list A),
      Permutation (order_by A le l) l;
  order_by_sorted :
    forall (A : Type) (le : A -> A -> bool) (l : list A),
      (forall a b, le a b = true \/ le b a = true) ->
      (forall a b c, le a b = true -> le b c = true -> le a c = true) ->
      StronglySorted (fun a b => le a b = true) (order_by A le l);
  float8_sum : list Q -> Q;
  float8_avg : list Q -> Q;
  to_sql : string -> frame -> gmap string frame -> option frame;
  to_sql_labels :
    forall name table db stored,
      to_sql name table db = Some stored ->
      ~ In "" (columns table)
      /\ NoDup (map pg_identifier (columns table));
  to_sql_stored :
    forall name table db stored,
      to_sql name table db = Some stored ->
      columns stored = map pg_identifier (columns table)
      /\ length (rows stored) = length (rows table);
  to_sql_numbers :
    forall name table db stored (i : nat),
      to_sql name table db = Some stored ->
      (forall r, In r (rows table) -> exists q, r !! i = Some (CNum q)) ->
      map (fun r : row => r !! i) (rows stored) = map (fun r : row => r !! i) (rows table);
  select_count : string -> gmap string frame -> option nat
}.
Arguments order_by {_} {A} _ _.

(* ===================================================================== *)
(** ** ETL: the load stage *)
(* ===================================================================== *)

(** [df.insert(0, 'id', range(1, len(df) + 1))]; raises when the frame has
    an [id] column already. *)
Definition insert_id (df : frame) : option frame :=
  if has_column "id" df then None
  else Some (Frame ("id" :: columns df)
               (zip_with (fun i r => num (Z.of_nat i) :: r)
                  (seq 1 (length (rows df))) (rows df))).

Section Load.

Context {pg : Postgres}.

(** One turn of the loop of [load_to_postgres]: the cleaned snapshot gets its
    [id] column and replaces the table ([if_exists='replace']); the rows are
    then counted in the table.  [None] when a call raises: the stage appends
    a [failed] entry and raises again, so that no summary is pushed. *)
Definition load_step (key : string) (files db : gmap string frame)
  : option (gmap string frame * load_entry) :=
  let table_name := String.append "cleaned_" key in
  df ← files !! cleaned_parquet_path key;
  df' ← insert_id df;
  stored ← to_sql table_name df' db;
  let db' := <[pg_identifier table_name := stored]> db in
  loaded_rows ← select_count table_name db';
  Some (db', LoadEntry key table_name loaded_rows "success").

Fixpoint load_to_postgres (keys : list string) (files db : gmap string frame)
  : option (gmap string frame * list load_entry) :=
  match keys with
  | [] => Some (db, [])
  | key :: rest =>
      '(db1, entry) ← load_step key files db;
      '(db2, entries) ← load_to_postgres rest files db1;
      Some (db2, entry :: entries)
  end.

End Load.

(* ===================================================================== *)
(** ** Aggregates over a column of values *)
(* ===================================================================== *)

Module Agg.

(** The numbers of a column; missing values and other values are skipped,
    as SQL aggregates skip [NULL]. *)
Fixpoint numbers (vals : list cell) : list Q :=
  match vals with
  | [] => []
  | CNum q :: rest => q :: numbers rest
  | _ :: rest => numbers rest
  end.

Definition not_null (c : cell) : bool :=
  match c with CNull => false | _ => true end.

Definition extreme (pick : Q -> Q -> Q) (l : list Q) : cell :=
  match l with
  | [] => CNull
  | q :: rest => CNum (fold_left pick rest q)
  end.

Definition Qmax2 (a b : Q) : Q := if Qle_bool a b then b else a.
Definition Qmin2 (a b : Q) : Q := if Qle_bool a b then a else b.

(** [COUNT(col)] *)
Definition count (vals : list cell) : cell :=
  CNum (inject_Z (Z.of_nat (length (List.filter not_null vals)))).

(** [AVG(col)]: [NULL] over no value. *)
Definition avg {pg : Postgres} (vals : list cell) : cell :=
  match numbers vals with
  | [] => CNull
  | l => CNum (float8_avg l)
  end.

(** [SUM(col)]: [NULL] over no value. *)
Definition sum {pg : Postgres} (vals : list cell) : cell :=
  match numbers vals with
  | [] => CNull
  | l => CNum (float8_sum l)
  end.

Definition max (vals : list cell) : cell := extreme Qmax2 (numbers vals).
Definition min (vals : list cell) : cell := extreme Qmin2 (numbers vals).

End Agg.

(** Count, average, minimum and maximum of a column of a frame. *)
Definition column_stats {pg : Postgres} (f : frame) (col : string)
  : cell * cell * cell * cell :=
  let vals := map (default CNull) (column_values f col) in
  (Agg.count vals, Agg.avg vals, Agg.min vals, Agg.max vals).

(* ===================================================================== *)
(** ** API: the table models ([backend/api/models.py]) *)
(* ===================================================================== *)

(** A declared model field: its attribute name, its database column and the
    value it reads off a record. *)
Record field (R : Type) : Type := Field {
  field_name : string;
  db_column : string;
  field_get : R -> cell
}.
Arguments Field {R} _ _ _.
Arguments field_name {R} _.
Arguments db_column {R} _.
Arguments field_get {R} _ _.

Definition opt_num (q : option Q) : cell :=
  match q with Some v => CNum v | None => CNull end.
Definition opt_text (s : option string) : cell :=
  match s with Some v => CStr v | None => CNull end.

(** What the four models share, and what the view sets use of them;
    [ordering] is the [Meta.ordering]: each name, and whether the order is
    descending (a leading [-]). *)
Class Model (R : Type) : Type := {
  db_table : string;
  fields : list (field R);
  ordering : list (bool * string);
  id : R -> Z;
  entity : R -> string;
  code : R -> option string;
  year : R -> Z;
  entity_type : R -> option string
}.

Module CleanedCo2Emissions.
Record t : Type := Build {
  id : Z;
  entity : string;
  code : option string;
  year : Z;
  annual_co2_emissions : option Q;
  data_source : string;
  data_quality_flag : string;
  last_updated : Z;
  entity_type : option string
}.
Definition fields : list (field t) :=
  [ Field "id" "id" (fun r => num (id r));
    Field "entity" "entity" (fun r => CStr (entity r));
    Field "code" "code" (fun r => opt_text (code r));
    Field "year" "year" (fun r => num (year r));
    Field "annual_co2_emissions" "annual_co2_emissions"
      (fun r => opt_num (annual_co2_emissions r));
    Field "data_source" "data_source" (fun r => CStr (data_source r));
    Field "data_quality_flag" "data_quality_flag" (fun r => CStr (data_quality_flag r));
    Field "last_updated" "last_updated" (fun r => CDate (last_updated r));
    Field "entity_type" "entity_type" (fun r => opt_text (entity_type r)) ].
End CleanedCo2Emissions.

Module CleanedElectricityProduction.
Record t : Type := Build {
  id : Z;
  entity : string;
  code : option string;
  year : Z;
  other_renewables_excluding_bioenergy : option Q;
  electricity_from_bioenergy : option Q;
  electricity_from_solar : option Q;
  electricity_from_wind : option Q;
  electricity_from_hydro : option Q;
  electricity_from_nuclear : option Q;
  electricity_from_oil : option Q;
  electricity_from_gas : option Q;
  electricity_from_coal : option Q;
  data_source : string;
  data_quality_flag : string;
  last_updated : Z;
  entity_type : option string
}.
Definition fields : list (field t) :=
  [ Field "id" "id" (fun r => num (id r));
    Field "entity" "entity" (fun r => CStr (entity r));
    Field "code" "code" (fun r => opt_text (code r));
    Field "year" "year" (fun r => num (year r));
    Field "other_renewables_excluding_bioenergy"
      "other_renewables_excluding_bioenergy_twh_adapted_for_visualizat"
      (fun r => opt_num (other_renewables_excluding_bioenergy r));
    Field "electricity_from_bioenergy"
      "electricity_from_bioenergy_twh_adapted_for_visualization_of_cha"
      (fun r => opt_num (electricity_from_bioenergy r));
    Field "electricity_from_solar"
      "electricity_from_solar_twh_adapted_for_visualization_of_chart_e"
      (fun r => opt_num (electricity_from_solar r));
    Field "electricity_from_wind"
      "electricity_from_wind_twh_adapted_for_visualization_of_chart_el"
      (fun r => opt_num (electricity_from_wind r));
    Field "electricity_from_hydro"
      "electricity_from_hydro_twh_adapted_for_visualization_of_chart_e"
      (fun r => opt_num (electricity_from_hydro r));
    Field "electricity_from_nuclear"
      "electricity_from_nuclear_twh_adapted_for_visualization_of_chart"
      (fun r => opt_num (electricity_from_nuclear r));
    Field "electricity_from_oil"
      "electricity_from_oil_twh_adapted_for_visualization_of_chart_ele"
      (fun r => opt_num (electricity_from_oil r));
    Field "electricity_from_gas"
      "electricity_from_gas_twh_adapted_for_visualization_of_chart_ele"
      (fun r => opt_num (electricity_from_gas r));
    Field "electricity_from_coal"
      "electricity_from_coal_twh_adapted_for_visualization_of_chart_el"
      (fun r => opt_num (electricity_from_coal r));
    Field "data_source" "data_source" (fun r => CStr (data_source r));
    Field "data_quality_flag" "data_quality_flag" (fun r => CStr (data_quality_flag r));
    Field "last_updated" "last_updated" (fun r => CDate (last_updated r));
    Field "entity_type" "entity_type" (fun r => opt_text (entity_type r)) ].
End CleanedElectricityProduction.

Module CleanedEnergyProdCons.
Record t : Type := Build {
  id : Z;
  entity : string;
  code : option string;
  year : Z;
  consumption_based_energy : option Q;
  production_based_energy : option Q;
  data_source : string;
  data_quality_flag : string;
  last_updated : Z;
  entity_type : option string
}.
Definition fields : list (field t) :=
  [ Field "id" "id" (fun r => num (id r));
    Field "entity" "entity" (fun r => CStr (entity r));
    Field "code" "code" (fun r => opt_text (code r));
    Field "year" "year" (fun r => num (year r));
    Field "consumption_based_energy" "consumption_based_energy"
      (fun r => opt_num (consumption_based_energy r));
    Field "production_based_energy" "production_based_energy"
      (fun r => opt_num (production_based_energy r));
    Field "data_source" "data_source" (fun r => CStr (data_source r));
    Field "data_quality_flag" "data_quality_flag" (fun r => CStr (data_quality_flag r));
    Field "last_updated" "last_updated" (fun r => CDate (last_updated r));
    Field "entity_type" "entity_type" (fun r => opt_text (entity_type r)) ].
End CleanedEnergyProdCons.

Module CleanedOilProduction.
Record t : Type := Build {
  id : Z;
  entity : string;
  code : option string;
  year : Z;
  oil_production_twh : option Q;
  data_source : string;
  data_quality_flag : string;
  last_updated : Z;
  entity_type : option string
}.
Definition fields : list (field t) :=
  [ Field "id" "id" (fun r => num (id r));
    Field "entity" "entity" (fun r => CStr (entity r));
    Field "code" "code" (fun r => opt_text (code r));
    Field "year" "year" (fun r => num (year r));
    Field "oil_production_twh" "oil_production_twh"
      (fun r => opt_num (oil_production_twh r));
    Field "data_source" "data_source" (fun r => CStr (data_source r));
    Field "data_quality_flag" "data_quality_flag" (fun r => CStr (data_quality_flag r));
    Field "last_updated" "last_updated" (fun r => CDate (last_updated r));
    Field "entity_type" "entity_type" (fun r => opt_text (entity_type r)) ].
End CleanedOilProduction.

(** The [Meta.ordering] of the four models. *)
Definition co2_meta_ordering : list (bool * string) :=
  [(true, "year"); (true, "annual_co2_emissions")].
Definition electricity_meta_ordering : list (bool * string) :=
  [(true, "year"); (false, "entity")].
Definition energy_meta_ordering : list (bool * string) :=
  [(true, "year"); (false, "entity")].
Definition oil_meta_ordering : list (bool * string) :=
  [(true, "year"); (true, "oil_production_twh")].

#[export] Instance co2_model : Model CleanedCo2Emissions.t := {|
  db_table := "cleaned_co2_emissions";
  fields := CleanedCo2Emissions.fields;
  ordering := co2_meta_ordering;
  id := CleanedCo2Emissions.id;
  entity := CleanedCo2Emissions.entity;
  code := CleanedCo2Emissions.code;
  year := CleanedCo2Emissions.year;
  entity_type := CleanedCo2Emissions.entity_type
|}.

#[export] Instance electricity_model : Model CleanedElectricityProduction.t := {|
  db_table := "cleaned_electricity_production";
  fields := CleanedElectricityProduction.fields;
  ordering := electricity_meta_ordering;
  id := CleanedElectricityProduction.id;
  entity := CleanedElectricityProduction.entity;
  code := CleanedElectricityProduction.code;
  year := CleanedElectricityProduction.year;
  entity_type := CleanedElectricityProduction.entity_type
|}.

#[export] Instance energy_model : Model CleanedEnergyProdCons.t := {|
  db_table := "cleaned_energy_prod_cons";
  fields := CleanedEnergyProdCons.fields;
  ordering := energy_meta_ordering;
  id := CleanedEnergyProdCons.id;
  entity := CleanedEnergyProdCons.entity;
  code := CleanedEnergyProdCons.code;
  year := CleanedEnergyProdCons.year;
  entity_type := CleanedEnergyProdCons.entity_type
|}.

#[export] Instance oil_model : Model CleanedOilProduction.t := {|
  db_table := "cleaned_oil_production";
  fields := CleanedOilProduction.fields;
  ordering := oil_meta_ordering;
  id := CleanedOilProduction.id;
  entity := CleanedOilProduction.entity;
  code := CleanedOilProduction.code;
  year := CleanedOilProduction.year;
  entity_type := CleanedOilProduction.entity_type
|}.

(* ===================================================================== *)
(** ** API: the view sets ([backend/api/views.py]) *)
(* ===================================================================== *)

(** The exceptions a request can end in. *)
Inductive api_error : Type :=
  | ValueError (field_label text : string)
      (* Field '...' expected a number but got '...' *)
  | FieldError (keyword : string).
      (* Cannot resolve keyword '...' into field *)

Inductive result (A : Type) : Type :=
  | Ok (a : A)
  | Raise (e : api_error).
Arguments Ok {A} _.
Arguments Raise {A} _.

Definition bind {A B : Type} (m : result A) (k : A -> result B) : result B :=
  match m with
  | Ok a => k a
  | Raise e => Raise e
  end.

Declare Scope result_scope.
Delimit Scope result_scope with result.
Notation "'let*' x ':=' m 'in' k" := (bind m (fun x => k))
  (at level 10, x name, m at level 100, k at level 200)
  : result_scope.

(** The query string of a request, in the order written. *)
Abbreviation query_params := (list (string * string)).

(** [request.query_params.get(key, None)]: the last value given for [key]. *)
Fixpoint qget (qs : query_params) (key : string) : option string :=
  match qs with
  | [] => None
  | (k, v) :: rest =>
      match qget rest key with
      | Some later => Some later
      | None => if String.eqb key k then Some v else None
      end
  end.

(** The truth value of a parameter in [if param:]: given and not empty. *)
Definition truthy (p : option string) : option string :=
  match p with
  | Some v => if String.eqb v "" then None else Some v
  | None => None
  end.

(** A parameter counts as supplied when it is given with a non-empty value. *)
Definition supplied (query : query_params) (key v : string) : Prop :=
  qget query key = Some v /\ v <> "".

(** The query string with every occurrence of a key left out. *)
Definition without (key : string) (query : query_params) : query_params :=
  List.filter (fun kv => negb (String.eqb key (fst kv))) query.

Section ViewSet.

Context {rt : PyRuntime} {pg : Postgres} {R : Type} `{Model R}.

Open Scope result_scope.

(** The lookups of [get_queryset].  [entity__icontains] is compiled to
    [UPPER(entity) LIKE UPPER('%v%')], the value escaped: the folded value
    is looked for in the folded entity. *)
Definition entity__icontains (v : string) (r : R) : bool :=
  PyStr.contains (pg_upper v) (pg_upper (entity r)).

Definition code__exact (v : string) (r : R) : bool :=
  match code r with
  | Some c => String.eqb c v
  | None => false
  end.

Definition entity_type__exact (v : string) (r : R) : bool :=
  match entity_type r with
  | Some c => String.eqb c v
  | None => false
  end.

Definition year__exact (n : Z) (r : R) : bool := (year r =? n)%Z.
Definition year__gte (n : Z) (r : R) : bool := (n <=? year r)%Z.
Definition year__lte (n : Z) (r : R) : bool := (year r <=? n)%Z.

(** The value of an integer lookup: [int(text)], or the exception. *)
Definition int_value (text : string) : result Z :=
  match int_of_text text with
  | Some n => Ok n
  | None => Raise (ValueError "year" text)
  end.

(** [if param: queryset = queryset.filter(...)]. *)
Definition filter_if (param : option string)
    (lookup : string -> result (R -> bool)) (queryset : list R)
  : result (list R) :=
  match truthy param with
  | Some v => let* keep := lookup v in Ok (List.filter keep queryset)
  | None => Ok queryset
  end.

(** The order of two values under [ORDER BY ... ASC]: a [NULL] comes last.
    (A column holds values of one type; values of two types are told apart
    by type.) *)
Definition cell_le (a b : cell) : bool :=
  match a, b with
  | _, CNull => true
  | CNull, _ => false
  | CNum p, CNum q => Qle_bool p q
  | CStr s, CStr t => pg_text_le s t
  | CDate d, CDate e => (d <=? e)%Z
  | CNum _, _ => true
  | CStr _, CNum _ => false
  | CStr _, CDate _ => true
  | CDate _, _ => false
  end.

(** The value a row is ordered by under a name of [Meta.ordering]. *)
Definition ordering_key (name : string) (r : R) : cell :=
  match List.find (fun f => String.eqb name (field_name f)) fields with
  | Some f => field_get f r
  | None => CNull
  end.

(** [a] may stand before [b] under [ORDER BY] the keys, the first key first;
    a descending key turns the order round ([NULL] first). *)
Fixpoint precedes (keys : list (bool * string)) (a b : R) : bool :=
  match keys with
  | [] => true
  | (descending, name) :: rest =>
      let x := ordering_key name a in
      let y := ordering_key name b in
      let le u v := if descending then cell_le v u else cell_le u v in
      if le x y then (if le y x then precedes rest a b else true) else false
  end.

(** The rows of an evaluated queryset come in the [Meta.ordering]. *)
Definition in_meta_ordering (queryset : list R) : list R :=
  order_by (precedes ordering) queryset.

(** The filters of [get_queryset], the same text in the four view sets,
    over the stored rows. *)
Definition filtered (query : query_params) (table : list R) : result (list R) :=
  let queryset := table in
  let entity := qget query "entity" in
  let code := qget query "code" in
  let year := qget query "year" in
  let entity_type := qget query "entity_type" in
  let year_min := qget query "year_min" in
  let year_max := qget query "year_max" in
  let* queryset := filter_if entity (fun v => Ok (entity__icontains v)) queryset in
  let* queryset := filter_if code (fun v => Ok (code__exact v)) queryset in
  let* queryset :=
    filter_if year (fun v => let* n := int_value v in Ok (year__exact n)) queryset in
  let* queryset := filter_if entity_type (fun v => Ok (entity_type__exact v)) queryset in
  let* queryset :=
    filter_if year_min (fun v => let* n := int_value v in Ok (year__gte n)) queryset in
  let* queryset :=
    filter_if year_max (fun v => let* n := int_value v in Ok (year__lte n)) queryset in
  Ok queryset.

(** [get_queryset], by the rows its queryset gives once evaluated: the
    stored rows that pass the filters, in the [Meta.ordering] that
    [Model.objects.all()] carries. *)
Definition get_queryset (query : query_params) (table : list R) : result (list R) :=
  let* queryset := filtered query table in
  Ok (in_meta_ordering queryset).

(** What a row must satisfy under a query: one condition per supplied
    parameter. *)
Definition satisfies (query : query_params) (r : R) : Prop :=
  (forall v, supplied query "entity" v ->
     exists pre post,
       pg_upper (entity r) = String.append pre (String.append (pg_upper v) post))
  /\ (forall v, supplied query "code" v -> code r = Some v)
  /\ (forall v, supplied query "year" v -> int_of_text v = Some (year r))
  /\ (forall v, supplied query "entity_type" v -> entity_type r = Some v)
  /\ (forall v, supplied query "year_min" v ->
        exists n, int_of_text v = Some n /\ (n <= year r)%Z)
  /\ (forall v, supplied query "year_max" v ->
        exists n, int_of_text v = Some n /\ (year r <= n)%Z).

(** The aggregate functions the summaries use, each over a field name. *)
Inductive aggregate_fn : Type := Count | Avg | Sum | Max | Min.

(** A keyword of a model resolves to the field declared under that name. *)
Definition resolve (keyword : string) : result (field R) :=
  match List.find (fun f => String.eqb keyword (field_name f)) fields with
  | Some f => Ok f
  | None => Raise (FieldError keyword)
  end.

Definition apply_fn (fn : aggregate_fn) (vals : list cell) : cell :=
  match fn with
  | Count => Agg.count vals
  | Avg => Agg.avg vals
  | Sum => Agg.sum vals
  | Max => Agg.max vals
  | Min => Agg.min vals
  end.

(** [queryset.aggregate(alias=Fn('keyword'), ...)]. *)
Fixpoint aggregate (specs : list (string * (aggregate_fn * string)))
    (queryset : list R) : result (list (string * cell)) :=
  match specs with
  | [] => Ok []
  | (alias, (fn, keyword)) :: rest =>
      let* f := resolve keyword in
      let* stats := aggregate rest queryset in
      Ok ((alias, apply_fn fn (map (field_get f) queryset)) :: stats)
  end.

(** The filter backends of the view set ([SearchFilter], [OrderingFilter]),
    which Django REST framework defines and the repository only lists. *)
Variable filter_queryset : query_params -> list R -> list R.

(** The body the four [summary] actions share. *)
Definition summary_of (specs : list (string * (aggregate_fn * string)))
    (query : query_params) (table : list R) : result (list (string * cell)) :=
  let* queryset := get_queryset query table in
  let queryset := filter_queryset query queryset in
  let* stats := aggregate specs queryset in
  Ok stats.

End ViewSet.

Module Co2EmissionsViewSet.
Definition get_queryset {rt : PyRuntime} {pg : Postgres} :=
  @get_queryset rt pg CleanedCo2Emissions.t _.
Definition summary {rt : PyRuntime} {pg : Postgres} filter_queryset :=
  @summary_of rt pg CleanedCo2Emissions.t _ filter_queryset
    [ ("total_records", (Count, "id"));
      ("avg_emissions", (Avg, "annual_co2_emissions"));
      ("max_emissions", (Max, "annual_co2_emissions"));
      ("min_emissions", (Min, "annual_co2_emissions"));
      ("latest_year", (Max, "year"));
      ("earliest_year", (Min, "year")) ].
End Co2EmissionsViewSet.

Module ElectricityProductionViewSet.
Definition get_queryset {rt : PyRuntime} {pg : Postgres} :=
  @get_queryset rt pg CleanedElectricityProduction.t _.
Definition summary_fields : list (string * (aggregate_fn * string)) :=
  [ ("total_records", (Count, "id"));
    ("avg_fossil", (Avg, "electricity_from_fossil_fuels_twh"));
    ("avg_nuclear", (Avg, "electricity_from_nuclear_twh"));
    ("avg_renewables", (Avg, "electricity_from_renewables_twh"));
    ("total_fossil", (Sum, "electricity_from_fossil_fuels_twh"));
    ("total_nuclear", (Sum, "electricity_from_nuclear_twh"));
    ("total_renewables", (Sum, "electricity_from_renewables_twh")) ].
Definition summary {rt : PyRuntime} {pg : Postgres} filter_queryset :=
  @summary_of rt pg CleanedElectricityProduction.t _ filter_queryset summary_fields.
End ElectricityProductionViewSet.

Module EnergyProdConsViewSet.
Definition get_queryset {rt : PyRuntime} {pg : Postgres} :=
  @get_queryset rt pg CleanedEnergyProdCons.t _.
Definition summary_fields : list (string * (aggregate_fn * string)) :=
  [ ("total_records", (Count, "id"));
    ("avg_consumption", (Avg, "primary_energy_consumption_twh"));
    ("max_consumption", (Max, "primary_energy_consumption_twh"));
    ("total_consumption", (Sum, "primary_energy_consumption_twh")) ].
Definition summary {rt : PyRuntime} {pg : Postgres} filter_queryset :=
  @summary_of rt pg CleanedEnergyProdCons.t _ filter_queryset summary_fields.
End EnergyProdConsViewSet.

Module OilProductionViewSet.
Definition get_queryset {rt : PyRuntime} {pg : Postgres} :=
  @get_queryset rt pg CleanedOilProduction.t _.
Definition summary {rt : PyRuntime} {pg : Postgres} filter_queryset :=
  @summary_of rt pg CleanedOilProduction.t _ filter_queryset
    [ ("total_records", (Count, "id"));
      ("avg_production", (Avg, "oil_production_twh"));
      ("max_production", (Max, "oil_production_twh"));
      ("total_production", (Sum, "oil_production_twh")) ].
End OilProductionViewSet.

(* ===================================================================== *)
(** ** Sample data *)
(* ===================================================================== *)

(** A runtime and a database for the samples, which hold ASCII text only.

    The runtime: [lower] folds the letters A to Z; [int_of_text] reads an
    ASCII integer literal as [int] does (blanks around, an optional sign,
    digits with single underscores between them); texts convert to numbers
    as plain decimal literals do (an optional sign, digits, an optional
    point and digits), where pandas reads further forms, which no sample
    uses; [str] of a missing value is [nan], and a number or a date, which
    no sample classifies, prints as the digits of its integer part or
    ordinal.

    The database: [upper] folds the letters a to z; texts are ordered byte
    by byte; [ORDER BY] keeps tied rows in the order they are stored in;
    sums and averages are exact, as those of [double precision] values are
    when, as in the samples, every partial sum and the quotient are such
    values themselves; [to_sql] goes through for every frame without a blank
    label whose labels are distinct as identifiers, and the rows of a
    table are counted under its name as an identifier. *)
Module Sample.

Definition lower_ascii (c : ascii) : ascii :=
  let n := nat_of_ascii c in
  if (65 <=? n)%nat && (n <=? 90)%nat then ascii_of_nat (n + 32) else c.

Fixpoint lower (s : string) : string :=
  match s with
  | EmptyString => EmptyString
  | String c t => String (lower_ascii c) (lower t)
  end.

Definition upper_ascii (c : ascii) : ascii :=
  let n := nat_of_ascii c in
  if (97 <=? n)%nat && (n <=? 122)%nat then ascii_of_nat (n - 32) else c.

Fixpoint upper (s : string) : string :=
  match s with
  | EmptyString => EmptyString
  | String c t => String (upper_ascii c) (upper t)
  end.

(** The blanks [int] skips around an ASCII text: tab to carriage return, and
    the space. *)
Definition is_space (c : ascii) : bool :=
  let n := nat_of_ascii c in
  ((9 <=? n)%nat && (n <=? 13)%nat) || (n =? 32)%nat.

Fixpoint lstrip_space (s : string) : string :=
  match s with
  | EmptyString => EmptyString
  | String a t => if is_space a then lstrip_space t else s
  end.

Fixpoint rstrip_space (s : string) : string :=
  match s with
  | EmptyString => EmptyString
  | String a t =>
      match rstrip_space t with
      | EmptyString => if is_space a then EmptyString else String a EmptyString
      | t' => String a t'
      end
  end.

Definition digit (c : ascii) : option Z :=
  let n := nat_of_ascii c in
  if (48 <=? n)%nat && (n <=? 57)%nat then Some (Z.of_nat (n - 48)) else None.

(** Digits after the first one: [after_digit] tells whether the character
    before was a digit (an underscore must stand between two digits). *)
Fixpoint digits (acc : Z) (after_digit : bool) (s : string) : option Z :=
  match s with
  | EmptyString => if after_digit then Some acc else None
  | String c t =>
      match digit c with
      | Some d => digits (10 * acc + d) true t
      | None =>
          if Ascii.eqb c "_" && after_digit then digits acc false t else None
      end
  end.

Definition unsigned (s : string) : option Z :=
  match s with
  | EmptyString => None
  | String c t =>
      match digit c with
      | Some d => digits d true t
      | None => None
      end
  end.

Definition integer_of_text (text : string) : option Z :=
  match rstrip_space (lstrip_space text) with
  | String "-" t => option_map Z.opp (unsigned t)
  | String "+" t => unsigned t
  | s => unsigned s
  end.

Fixpoint read_digits (acc : Z) (n : nat) (s : string) : option (Z * nat) :=
  match s with
  | EmptyString => Some (acc, n)
  | String c t =>
      match digit c with
      | Some d => read_digits (10 * acc + d) (S n) t
      | None => None
      end
  end.

(** The text before the first point, and the text after it. *)
Fixpoint split_point (s : string) : string * string :=
  match s with
  | EmptyString => (EmptyString, EmptyString)
  | String c t =>
      if Ascii.eqb c "." then (EmptyString, t)
      else let '(a, b) := split_point t in (String c a, b)
  end.

Definition unsigned_decimal (s : string) : option Q :=
  let '(whole, fraction) := split_point s in
  match read_digits 0 0 whole, read_digits 0 0 fraction with
  | Some (w, nw), Some (f, nf) =>
      if (nw + nf =? 0)%nat then None
      else Some (Qred ((w * 10 ^ Z.of_nat nf + f) # Z.to_pos (10 ^ Z.of_nat nf)))
  | _, _ => None
  end.

Definition decimal_of_text (s : string) : option Q :=
  match s with
  | String "-" t => option_map Qopp (unsigned_decimal t)
  | String "+" t => unsigned_decimal t
  | _ => unsigned_decimal s
  end.

Definition text_of (c : cell) : string :=
  match c with
  | CStr s => s
  | CNum q => pretty (Qfloor q)
  | CDate d => pretty d
  | CNull => "nan"
  end.

Definition runtime : PyRuntime :=
  {| str_lower := lower;
     int_of_text := integer_of_text;
     float_of_text := decimal_of_text;
     text_of_value := text_of |}.

(** Texts byte by byte. *)
Fixpoint bytes_le (s t : string) : bool :=
  match s, t with
  | EmptyString, _ => true
  | String _ _, EmptyString => false
  | String a s', String b t' =>
      if (nat_of_ascii a <? nat_of_ascii b)%nat then true
      else if (nat_of_ascii a =? nat_of_ascii b)%nat then bytes_le s' t'
      else false
  end.

(** Sorting by insertion: a row goes before the first row it may precede. *)
Fixpoint insert_row {A : Type} (le : A -> A -> bool) (x : A) (l : list A) : list A :=
  match l with
  | [] => [x]
  | y :: rest => if le x y then x :: l else y :: insert_row le x rest
  end.

Definition sorted_rows (A : Type) (le : A -> A -> bool) (l : list A) : list A :=
  fold_right (insert_row le) [] l.

Definition exact_sum (l : list Q) : Q := Qred (fold_right Qplus (0 # 1) l).

Definition exact_avg (l : list Q) : Q :=
  Qred (fold_right Qplus (0 # 1) l / inject_Z (Z.of_nat (length l))).

Definition write_table (name : string) (table : frame) (db : gmap string frame)
  : option frame :=
  if existsb (String.eqb "") (columns table) then None
  else if decide (NoDup (map pg_identifier (columns table)))
       then Some (Frame (map pg_identifier (columns table)) (rows table))
       else None.

Definition count_rows (name : string) (db : gmap string frame) : option nat :=
  option_map (fun table => length (rows table)) (db !! pg_identifier name).

Lemma bytes_le_total (a b : string) : bytes_le a b = true \/ bytes_le b a = true.
Proof.
  revert b. induction a as [|x a IH]; intros [|y b]; simpl; auto.
  destruct (Nat.ltb_spec (nat_of_ascii x) (nat_of_ascii y)) as [H1|H1]; [now left|].
  destruct (Nat.ltb_spec (nat_of_ascii y) (nat_of_ascii x)) as [H2|H2]; [now right|].
  assert (E : nat_of_ascii x = nat_of_ascii y) by lia.
  rewrite E, Nat.eqb_refl. apply IH.
Qed.

Lemma bytes_le_trans (a b c : string) :
  bytes_le a b = true -> bytes_le b c = true -> bytes_le a c = true.
Proof.
  revert b c. induction a as [|x a IH]; intros [|y b] [|z c]; simpl; auto;
    try discriminate.
  destruct (Nat.ltb_spec (nat_of_ascii x) (nat_of_ascii y)) as [H1|H1];
    destruct (Nat.ltb_spec (nat_of_ascii y) (nat_of_ascii z)) as [H2|H2];
    destruct (Nat.ltb_spec (nat_of_ascii x) (nat_of_ascii z)) as [H3|H3];
    try reflexivity; try lia;
    destruct (Nat.eqb_spec (nat_of_ascii x) (nat_of_ascii y)) as [E1|E1];
    destruct (Nat.eqb_spec (nat_of_ascii y) (nat_of_ascii z)) as [E2|E2];
    destruct (Nat.eqb_spec (nat_of_ascii x) (nat_of_ascii z)) as [E3|E3];
    try discriminate; try lia.
  apply IH.
Qed.

Lemma insert_row_permutation {A : Type} (le : A -> A -> bool) (x : A) (l : list A) :
  Permutation (insert_row le x l) (x :: l).
Proof.
  induction l as [|y l IH]; simpl; [reflexivity|].
  destruct (le x y); [reflexivity|].
  rewrite IH. apply perm_swap.
Qed.

Lemma sorted_rows_permutation (A : Type) (le : A -> A -> bool) (l : list A) :
  Permutation (sorted_rows A le l) l.
Proof.
  induction l as [|x l IH]; simpl; [reflexivity|].
  rewrite insert_row_permutation. now constructor.
Qed.

Lemma insert_row_Forall {A : Type} (le : A -> A -> bool) (P : A -> Prop)
    (x : A) (l : list A) :
  P x -> List.Forall P l -> List.Forall P (insert_row le x l).
Proof.
  intros Hx Hl. induction Hl as [|y l Hy Hl IH]; simpl.
  - now constructor.
  - destruct (le x y); repeat constructor; auto.
Qed.

Lemma insert_row_sorted {A : Type} (le : A -> A -> bool) (x : A) (l : list A) :
  (forall a b, le a b = true \/ le b a = true) ->
  (forall a b c, le a b = true -> le b c = true -> le a c = true) ->
  StronglySorted (fun a b => le a b = true) l ->
  StronglySorted (fun a b => le a b = true) (insert_row le x l).
Proof.
  intros Htotal Htrans Hl. induction Hl as [|y l Hl IH Hy]; simpl.
  - repeat constructor.
  - destruct (le x y) eqn:E.
    + constructor; [now constructor|].
      constructor; [exact E|].
      revert Hy. apply List.Forall_impl. intros z Hz. now apply Htrans with y.
    + constructor; [exact IH|].
      apply insert_row_Forall; [|exact Hy].
      destruct (Htotal x y) as [H|H]; [congruence | exact H].
Qed.

Lemma sorted_rows_sorted (A : Type) (le : A -> A -> bool) (l : list A) :
  (forall a b, le a b = true \/ le b a = true) ->
  (forall a b c, le a b = true -> le b c = true -> le a c = true) ->
  StronglySorted (fun a b => le a b = true) (sorted_rows A le l).
Proof.
  intros Htotal Htrans. induction l as [|x l IH]; simpl; [constructor|].
  now apply insert_row_sorted.
Qed.

Lemma write_table_labels (name : string) (table : frame) (db : gmap string frame)
    (stored : frame) :
  write_table name table db = Some stored ->
  ~ In "" (columns table) /\ NoDup (map pg_identifier (columns table)).
Proof.
  unfold write_table.
  destruct (existsb (String.eqb "") (columns table)) eqn:E; [discriminate|].
  destruct (decide (NoDup (map pg_identifier (columns table)))) as [Hn|]; [|discriminate].
  intros _. split; [|exact Hn].
  intros Hin. assert (existsb (String.eqb "") (columns table) = true); [|congruence].
  apply existsb_exists. exists "". split; [exact Hin | reflexivity].
Qed.

Lemma write_table_stored (name : string) (table : frame) (db : gmap string frame)
    (stored : frame) :
  write_table name table db = Some stored ->
  columns stored = map pg_identifier (columns table)
  /\ rows stored = rows table.
Proof.
  unfold write_table.
  destruct (existsb (String.eqb "") (columns table)); [discriminate|].
  destruct (decide (NoDup (map pg_identifier (columns table)))); [|discriminate].
  intros [= <-]. split; reflexivity.
Qed.

Definition postgres : Postgres.
Proof.
  refine {| pg_upper := upper;
            pg_text_le := bytes_le;
            pg_text_le_total := bytes_le_total;
            pg_text_le_trans := bytes_le_trans;
            order_by := sorted_rows;
            order_by_permutation := sorted_rows_permutation;
            order_by_sorted := sorted_rows_sorted;
            float8_sum := exact_sum;
            float8_avg := exact_avg;
            to_sql := write_table;
            to_sql_labels := write_table_labels;
            select_count := count_rows |}.
  - intros name table db stored Hw.
    destruct (write_table_stored name table db stored Hw) as [Hc Hr].
    split; [exact Hc | now rewrite Hr].
  - intros name table db stored i Hw _.
    destruct (write_table_stored name table db stored Hw) as [_ Hr].
    now rewrite Hr.
Defined.

(** 2025-11-19 as a proleptic ordinal. *)
Definition today : Z := 739574.

(** A snapshot shaped like the CO2 file: a repeated row, an aggregate
    entity with an empty code, and years outside the range. *)
Definition co2_snapshot : frame :=
  Frame [ "Entity"; "Code"; "Year";
          String.append "Annual CO" (String.append subscript_two " emissions") ]
        [ [CStr "France"; CStr "FRA"; num 2020; CNum (3005 # 10)];
          [CStr "France"; CStr "FRA"; num 2020; CNum (3005 # 10)];
          [CStr "World"; CStr ""; num 2020; num 35000];
          [CStr "France"; CStr "FRA"; num 1700; num 1];
          [CStr "Asia (excl. China)"; CNull; num 2030; CNull];
          [CStr "Germany"; CStr "DEU"; num 1750; num 0] ].

(** What the stage writes for it. *)
Definition co2_cleaned : frame :=
  Frame [ "entity"; "code"; "year"; "annual_co2_emissions";
          "data_source"; "data_quality_flag"; "last_updated"; "entity_type" ]
        [ [CStr "France"; CStr "FRA"; num 2020; CNum (3005 # 10);
           CStr "co2_emissions"; CStr "clean"; CDate today; CStr "country"];
          [CStr "World"; CNull; num 2020; num 35000;
           CStr "co2_emissions"; CStr "clean"; CDate today; CStr "aggregate"];
          [CStr "Germany"; CStr "DEU"; num 1750; num 0;
           CStr "co2_emissions"; CStr "clean"; CDate today; CStr "country"] ].

(** A snapshot whose year column was read as text: one year is written in
    two ways, one is no number. *)
Definition years_as_text : frame :=
  Frame [ "Entity"; "Code"; "Year"; "Value" ]
        [ [CStr "France"; CStr "FRA"; CStr "2020"; num 1];
          [CStr "France"; CStr "FRA"; CStr "2020.0"; num 1];
          [CStr "France"; CStr "FRA"; CStr "unknown"; num 1] ].

(** A snapshot that has a [Data Source] column of its own. *)
Definition own_data_source : frame :=
  Frame [ "Entity"; "Year"; "Data Source" ]
        [ [CStr "France"; num 2020; CStr "a"];
          [CStr "France"; num 2020; CStr "b"] ].

(** Stored CO2 records. *)
Definition co2_table : list CleanedCo2Emissions.t :=
  [ CleanedCo2Emissions.Build 1 "France" (Some "FRA") 2020 (Some (3005 # 10))
      "co2_emissions" "clean" today (Some "country");
    CleanedCo2Emissions.Build 2 "World" None 2020 (Some (35000 # 1))
      "co2_emissions" "clean" today (Some "aggregate");
    CleanedCo2Emissions.Build 3 "France" (Some "FRA") 2019 None
      "co2_emissions" "clean" today (Some "country");
    CleanedCo2Emissions.Build 4 "Metropolitan france" None 2020 (Some (1 # 1))
      "co2_emissions" "clean" today (Some "country") ].

End Sample.


(* ===================================================================== *)
(** ** ETL: the report stage *)
(* ===================================================================== *)

(** What the scheduler hands the report stage and the stage passes on. *)
Record run_context : Type := RunContext {
  execution_date : string;
  dag_id : string;
  run_id : string
}.

(** The report pushed to XCom as [final_report]. *)
Record report : Type := Report {
  report_execution_date : string;
  report_dag_id : string;
  report_run_id : string;
  report_cleaning_summary : list cleaning_entry;
  report_load_summary : list load_entry;
  total_datasets : nat;
  successful_loads : nat;
  failed_loads : nat
}.

(** Lines 286-287: the status printed for a dataset is that of the first
    load entry carrying its key, [unknown] when there is none. *)
Definition load_status_of (load_summary : list load_entry) (dataset : string) : string :=
  match List.find (fun l => String.eqb (load_dataset_key l) dataset) load_summary with
  | Some load_info => status load_info
  | None => "unknown"
  end.

(** Lines 285-293: the numbered dataset details, each with its status. *)
Definition dataset_details (cleaning_summary : list cleaning_entry)
    (load_summary : list load_entry) : list (nat * cleaning_entry * string) :=
  zip_with (fun i summary =>
              (i, summary, load_status_of load_summary (cleaning_dataset summary)))
    (seq 1 (length cleaning_summary)) cleaning_summary.

(** [generate_report]: the report built from the two summaries. *)
Definition generate_report (context : run_context)
    (cleaning_summary : list cleaning_entry) (load_summary : list load_entry) : report :=
  Report (execution_date context) (dag_id context) (run_id context)
    cleaning_summary load_summary
    (length cleaning_summary)
    (length (List.filter (fun s => String.eqb (status s) "success") load_summary))
    (length (List.filter (fun s => String.eqb (status s) "failed") load_summary)).

(* ===================================================================== *)
(** ** ETL: names used to state properties of the clean stage *)
(* ===================================================================== *)

(** The function of lines 129-130 on one code. *)
Definition blank_to_missing (c : cell) : cell :=
  match c with
  | CStr s => if String.eqb s "" then CNull else c
  | _ => c
  end.

(** A label list with [name] added on the right unless it is there. *)
Definition with_label (name : string) (cols : list string) : list string :=
  if existsb (String.eqb name) cols then cols else cols ++ [name].

(** Every row of [f] has under [col] a cell that satisfies [P] ([None] when
    the frame has no such column). *)
Definition column_holds (f : frame) (col : string) (P : option cell -> Prop) : Prop :=
  forall r, In r (rows f) -> P (cell_of f col r).

(** What the stage does to a value, by the label of its column. *)
Definition cleaned_value {rt : PyRuntime} (col : string) (c : cell) : cell :=
  if String.eqb col "code" then blank_to_missing c
  else if String.eqb col "year" then to_numeric c
  else c.

(** What the clean stage computes for one key, read off the snapshots
    [files0]: the frame written and the summary entry. *)
Definition cleaned_as {rt : PyRuntime} (today : string -> Z)
    (files0 : gmap string frame) (k : string) (e : cleaning_entry) (out : frame) : Prop :=
  exists df,
    files0 !! parquet_path k = Some df
    /\ clean_dataset k (today k) df = Some out
    /\ e = CleaningEntry k (length (rows df)) (length (rows out))
             (Z.of_nat (length (rows df)) - Z.of_nat (length (rows out))).

(** What a load that goes through leaves for one key: a summary entry that
    reports success, and a table with the labels of the cleaned snapshot as
    identifiers behind [id], the keys 1, 2, ..., n under [id], and as many
    rows as the snapshot, which has no [id] label and no blank label, and
    whose labels are distinct as identifiers. *)
Definition loaded_as (files : gmap string frame) (k : string) (e : load_entry)
    (table : frame) : Prop :=
  exists df,
    files !! cleaned_parquet_path k = Some df
    /\ ~ In "id" (columns df)
    /\ ~ In "" (columns df)
    /\ NoDup (map pg_identifier (columns df))
    /\ columns table = "id" :: map pg_identifier (columns df)
    /\ column_values table "id"
       = map (fun i => Some (num (Z.of_nat i))) (seq 1 (length (rows df)))
    /\ length (rows table) = length (rows df)
    /\ load_dataset_key e = k
    /\ table_name e = String.append "cleaned_" k
    /\ status e = "success".

(** Two values equal as [drop_duplicates] compares them, or both absent. *)
Definition same_value (a b : option cell) : bool :=
  match a, b with
  | Some x, Some y => cell_eqb x y
  | None, None => true
  | _, _ => false
  end.

(* ===================================================================== *)
(** ** API: the names the serializers, the admin and the view sets list *)
(* ===================================================================== *)

Module Co2EmissionsSerializer.
Definition fields : list string :=
  [ "id"; "entity"; "code"; "year"; "annual_co2_emissions"; "data_source";
    "data_quality_flag"; "last_updated"; "entity_type" ].
End Co2EmissionsSerializer.

Module ElectricityProductionSerializer.
Definition fields : list string :=
  [ "id"; "entity"; "code"; "year";
    "electricity_from_coal"; "electricity_from_gas"; "electricity_from_oil";
    "electricity_from_nuclear"; "electricity_from_hydro"; "electricity_from_wind";
    "electricity_from_solar"; "electricity_from_bioenergy";
    "other_renewables_excluding_bioenergy";
    "data_source"; "data_quality_flag"; "last_updated"; "entity_type" ].
End ElectricityProductionSerializer.

Module EnergyProdConsSerializer.
Definition fields : list string :=
  [ "id"; "entity"; "code"; "year"; "consumption_based_energy";
    "production_based_energy"; "data_source"; "data_quality_flag";
    "last_updated"; "entity_type" ].
End EnergyProdConsSerializer.

Module OilProductionSerializer.
Definition fields : list string :=
  [ "id"; "entity"; "code"; "year"; "oil_production_twh"; "data_source";
    "data_quality_flag"; "last_updated"; "entity_type" ].
End OilProductionSerializer.

(** The [ordering_fields] of the four view sets. *)
Definition co2_ordering_fields : list string :=
  ["year"; "annual_co2_emissions"; "entity"].
Definition electricity_ordering_fields : list string := ["year"; "entity"].
Definition energy_ordering_fields : list string :=
  ["year"; "primary_energy_consumption_twh"; "entity"].
Definition oil_ordering_fields : list string :=
  ["year"; "oil_production_twh"; "entity"].

(** The [search_fields], the same in the four view sets. *)
Definition search_fields : list string := ["entity"; "code"; "year"].

(** An admin class of [backend/api/admin.py]. *)
Record model_admin : Type := ModelAdmin {
  list_display : list string;
  list_filter : list string;
  admin_search_fields : list string;
  admin_ordering : list (bool * string)
}.

Definition Co2EmissionsAdmin : model_admin :=
  ModelAdmin ["entity"; "code"; "year"; "annual_co2_emissions"; "entity_type"]
    ["entity_type"; "year"; "data_quality_flag"]
    ["entity"; "code"]
    [(true, "year"); (true, "annual_co2_emissions")].

Definition ElectricityProductionAdmin : model_admin :=
  ModelAdmin
    [ "entity"; "code"; "year"; "electricity_from_coal"; "electricity_from_gas";
      "electricity_from_nuclear"; "electricity_from_solar"; "electricity_from_wind";
      "entity_type" ]
    ["entity_type"; "year"; "data_quality_flag"]
    ["entity"; "code"]
    [(true, "year")].

Definition EnergyProdConsAdmin : model_admin :=
  ModelAdmin
    [ "entity"; "code"; "year"; "consumption_based_energy";
      "production_based_energy"; "entity_type" ]
    ["entity_type"; "year"; "data_quality_flag"]
    ["entity"; "code"]
    [(true, "year")].

Definition OilProductionAdmin : model_admin :=
  ModelAdmin ["entity"; "code"; "year"; "oil_production_twh"; "entity_type"]
    ["entity_type"; "year"; "data_quality_flag"]
    ["entity"; "code"]
    [(true, "year"); (true, "oil_production_twh")].

(** Every name an admin class lists. *)
Definition admin_names (a : model_admin) : list string :=
  list_display a ++ list_filter a ++ admin_search_fields a ++ map snd (admin_ordering a).

(** Every name of [names] is one of [declared]. *)
Definition all_declared (names declared : list string) : bool :=
  forallb (fun n => existsb (String.eqb n) declared) names.

(** A label in the form the rewrite of lines 116-126 leaves alone, its
    lower-casing apart: no subscript two, parenthesis, space, hyphen or
    doubled underscore, and no underscore at either end. *)
Definition normal_label (col : string) : bool :=
  negb (PyStr.contains subscript_two col)
  && negb (PyStr.contains "(" col)
  && negb (PyStr.contains ")" col)
  && negb (PyStr.contains " " col)
  && negb (PyStr.contains "-" col)
  && negb (PyStr.contains "__" col)
  && negb (PyStr.starts_with_char "_" col)
  && negb (PyStr.ends_with_char "_" col).

(* ===================================================================== *)
(** ** ETL: labels made of words, to state what the rewrite makes of them *)
(* ===================================================================== *)













(* ===================================================================== *)
(** ** ETL: the year filter as the specification words it *)
(* ===================================================================== *)

(** The year a row is kept with, by the value its year column holds: the
    number the value is or converts to, when that number lies between 1750
    and 2025; no year, and the row is dropped, when the value converts to
    no number or the number is out of range. *)
Definition year_kept {rt : PyRuntime} (c : cell) : option Q :=
  let in_range q := Qle_bool (1750 # 1) q && Qle_bool q (2025 # 1) in
  match c with
  | CNum q => if in_range q then Some q else None
  | CStr s =>
      match float_of_text s with
      | Some q => if in_range q then Some q else None
      | None => None
      end
  | CDate _ | CNull => None
  end.

(** The rows of the deduplicated frame that the year filter keeps. *)
Definition rows_kept {rt : PyRuntime} (df : frame) : list row :=
  List.filter
    (fun r => match year_kept (default CNull (cell_of (deduplicated df) "year" r)) with
              | Some _ => true
              | None => false
              end)
    (rows (deduplicated df)).

(* ===================================================================== *)
(** ** The definitions on sample inputs *)
(* ===================================================================== *)

Example normalize_co2 :
  normalize_column (rt := Sample.runtime) "Annual CO2 emissions (per capita)" = "annual_co2_emissions_per_capita".
Proof. reflexivity. Qed.

Example normalize_dash :
  normalize_column (rt := Sample.runtime) "Electricity from wind - TWh" = "electricity_from_wind_twh".
Proof. reflexivity. Qed.

Example normalize_three_spaces : normalize_column (rt := Sample.runtime) "a   b" = "a__b".
Proof. reflexivity. Qed.

Example normalize_currency : normalize_column (rt := Sample.runtime) "gdp ($)" = "gdp_$".
Proof. reflexivity. Qed.

Example entity_type_world : entity_type_of "World" = "aggregate".
Proof. reflexivity. Qed.

Example entity_type_france : entity_type_of "France" = "country".
Proof. reflexivity. Qed.

Example entity_type_substring : entity_type_of "Asia Pacific (EI)" = "aggregate".
Proof. reflexivity. Qed.

Example sample_clean :
  clean_dataset (rt := Sample.runtime) "co2_emissions" Sample.today Sample.co2_snapshot
  = Some Sample.co2_cleaned.
Proof. vm_compute. reflexivity. Qed.

Example sample_years_as_text :
  option_map rows
    (clean_dataset (rt := Sample.runtime) "co2_emissions" Sample.today Sample.years_as_text)
  = Some [ [CStr "France"; CStr "FRA"; num 2020; num 1;
            CStr "co2_emissions"; CStr "clean"; CDate Sample.today; CStr "country"];
           [CStr "France"; CStr "FRA"; num 2020; num 1;
            CStr "co2_emissions"; CStr "clean"; CDate Sample.today; CStr "country"] ].
Proof. vm_compute. reflexivity. Qed.

Example sample_query :
  Co2EmissionsViewSet.get_queryset (rt := Sample.runtime) (pg := Sample.postgres)
    [("year", "2020"); ("entity", "France")] Sample.co2_table
  = Ok [ CleanedCo2Emissions.Build 1 "France" (Some "FRA") 2020 (Some (3005 # 10))
           "co2_emissions" "clean" Sample.today (Some "country");
         CleanedCo2Emissions.Build 4 "Metropolitan france" None 2020 (Some (1 # 1))
           "co2_emissions" "clean" Sample.today (Some "country") ].
Proof. vm_compute. reflexivity. Qed.

Example sample_bad_year :
  Co2EmissionsViewSet.get_queryset (rt := Sample.runtime) (pg := Sample.postgres)
    [("year", "20x0")] Sample.co2_table
  = Raise (ValueError "year" "20x0").
Proof. vm_compute. reflexivity. Qed.

Example sample_int :
  map Sample.integer_of_text [" +2_020 "; "007"; "-12"; "2_"; "20x0"; ""]
  = [Some 2020%Z; Some 7%Z; Some (-12)%Z; None; None; None].
Proof. vm_compute. reflexivity. Qed.

(** The records of France in the [Meta.ordering] of the model: the year
    first, the emissions next, both descending. *)
Example sample_ordering :
  option_map (map CleanedCo2Emissions.id)
    (match Co2EmissionsViewSet.get_queryset (rt := Sample.runtime) (pg := Sample.postgres)
             [("entity", "france")] Sample.co2_table with
     | Ok rs => Some rs
     | Raise _ => None
     end)
  = Some [1%Z; 4%Z; 3%Z].
Proof. vm_compute. reflexivity. Qed.

(** A label of the shape the electricity snapshot has, as PostgreSQL keeps
    it: cut to 63 bytes, as the [db_column] of the model is. *)
Example sample_identifier :
  pg_identifier
    (normalize_column (rt := Sample.runtime)
       "Electricity from solar - TWh (adapted for visualization of chart elec-mix-bar)")
  = "electricity_from_solar_twh_adapted_for_visualization_of_chart_e"
  /\ pg_identifier "cleaned_co2_emissions" = "cleaned_co2_emissions".
Proof. split; vm_compute; reflexivity. Qed.

Example sample_decimal :
  map Sample.decimal_of_text ["2020"; "2020.0"; "-1.50"; "."; "unknown"; "7."]
  = [Some (2020 # 1); Some (2020 # 1); Some (-3 # 2); None; None; Some (7 # 1)].
Proof. vm_compute. reflexivity. Qed.

(* ===================================================================== *)
(** ** Facts about the string primitives *)
(* ===================================================================== *)

Module PyStrFacts.
Import PyStr.

Lemma append_cons (a : ascii) (s t : string) :
  String.append (String a s) t = String a (String.append s t).
Proof. reflexivity. Qed.

Lemma append_nil (t : string) : String.append "" t = t.
Proof. reflexivity. Qed.

Lemma prefix_app (p s : string) :
  String.prefix p s = true <-> exists post, s = String.append p post.
Proof.
  revert s. induction p as [|a p IH]; intros s; simpl.
  - split; [intros _; exists s; destruct s; reflexivity | destruct s; reflexivity].
  - destruct s as [|b s]; simpl.
    + split; [discriminate | intros [post H]; discriminate].
    + destruct (ascii_dec a b) as [->|Hne].
      * rewrite IH. split; intros [post H]; exists post;
          rewrite ?append_cons in *; congruence.
      * split; [discriminate | intros [post H]; rewrite append_cons in H; congruence].
Qed.

Lemma contains_unfold (sub s : string) :
  contains sub s =
  if String.prefix sub s then true
  else match s with
       | EmptyString => false
       | String _ t => contains sub t
       end.
Proof. destruct s; reflexivity. Qed.

(** [sub in s] holds exactly when [s] is [pre + sub + post]. *)
Lemma contains_spec (sub s : string) :
  contains sub s = true <->
  exists pre post, s = String.append pre (String.append sub post).
Proof.
  induction s as [|c s IH]; rewrite contains_unfold;
    destruct (String.prefix sub _) eqn:Hp.
  - apply prefix_app in Hp as [post Hp].
    split; [intros _; exists "", post; exact Hp | reflexivity].
  - split; [discriminate|].
    intros (pre & post & H). destruct pre; rewrite ?append_cons, ?append_nil in H.
    + assert (String.prefix sub "" = true) by (apply prefix_app; eauto).
      congruence.
    + discriminate.
  - apply prefix_app in Hp as [post Hp].
    split; [intros _; exists "", post; exact Hp | reflexivity].
  - rewrite IH. split.
    + intros (pre & post & ->). exists (String c pre), post. reflexivity.
    + intros (pre & post & H). destruct pre as [|a pre];
        rewrite ?append_cons, ?append_nil in H.
      * assert (String.prefix sub (String c s) = true)
          by (apply prefix_app; eauto).
        congruence.
      * injection H as -> ->. eauto.
Qed.

Lemma chars_append (s t : string) :
  list_ascii_of_string (String.append s t)
  = (list_ascii_of_string s ++ list_ascii_of_string t)%list.
Proof.
  induction s as [|a s IH]; [reflexivity|].
  rewrite append_cons. simpl. now rewrite IH.
Qed.

(** A replacement invents nothing: each character of the result comes from
    the input or from the replacement text. *)
Lemma replace_from_chars (old new s : string) (k : nat) (c : ascii) :
  In c (chars (replace_from k old new s)) -> In c (chars s) \/ In c (chars new).
Proof.
  unfold chars. revert k. induction s as [|a s IH]; intros k.
  - intros [].
  - destruct k as [|k].
    + cbn [replace_from]. destruct (String.prefix old (String a s)).
      * rewrite chars_append, in_app_iff. intros [H|H]; [now right|].
        apply IH in H as [H|H]; [left; now right | now right].
      * simpl. intros [H|H]; [left; now left|].
        apply IH in H as [H|H]; [left; now right | now right].
    + cbn [replace_from]. intros H.
      apply IH in H as [H|H]; [left; now right | now right].
Qed.

Lemma replace_chars (old new s : string) (c : ascii) :
  In c (chars (replace old new s)) -> In c (chars s) \/ In c (chars new).
Proof. apply replace_from_chars. Qed.

(** Replacing a one-character text removes that character. *)
Lemma replace_char_gone (a : ascii) (new s : string) :
  ~ In a (chars new) ->
  ~ In a (chars (replace (String a "") new s)).
Proof.
  intros Hnew. unfold replace, chars in *. induction s as [|b s IH].
  - intros [].
  - cbn [replace_from String.prefix String.length Nat.sub].
    destruct (ascii_dec a b) as [->|Hne].
    + replace (String.prefix "" s) with true by (destruct s; reflexivity).
      rewrite chars_append, in_app_iff. intros [H|H]; tauto.
    + simpl. intros [H|H]; [congruence | tauto].
Qed.

Lemma lstrip_chars (c : ascii) (s : string) (x : ascii) :
  In x (chars (lstrip c s)) -> In x (chars s).
Proof.
  unfold chars. induction s as [|a s IH]; simpl; [tauto|].
  destruct (Ascii.eqb a c); [intros H; right; auto | tauto].
Qed.

Lemma rstrip_chars (c : ascii) (s : string) (x : ascii) :
  In x (chars (rstrip c s)) -> In x (chars s).
Proof.
  unfold chars. induction s as [|a s IH]; simpl; [tauto|].
  destruct (rstrip c s) eqn:E.
  - destruct (Ascii.eqb a c); simpl; [tauto|]. intros [H|[]]; now left.
  - simpl in *. intros [H|H]; [now left | right; auto].
Qed.

Lemma strip_chars (c : ascii) (s : string) (x : ascii) :
  In x (chars (strip c s)) -> In x (chars s).
Proof. intros H. apply lstrip_chars with c, rstrip_chars with c, H. Qed.

Lemma lstrip_start (c : ascii) (s : string) :
  starts_with_char c (lstrip c s) = false.
Proof.
  induction s as [|a s IH]; simpl; [reflexivity|].
  destruct (Ascii.eqb a c) eqn:E; [exact IH | simpl; exact E].
Qed.

Lemma rstrip_start (c : ascii) (s : string) :
  starts_with_char c s = false -> starts_with_char c (rstrip c s) = false.
Proof.
  destruct s as [|a s]; simpl; [reflexivity|]. intros E.
  destruct (rstrip c s); rewrite ?E; simpl; auto.
Qed.

Lemma rstrip_end (c : ascii) (s : string) :
  ends_with_char c (rstrip c s) = false.
Proof.
  induction s as [|a s IH]; simpl; [reflexivity|].
  destruct (rstrip c s) as [|b t] eqn:E.
  - destruct (Ascii.eqb a c) eqn:Ea; simpl; auto.
  - change (ends_with_char c (String a (String b t)))
      with (ends_with_char c (String b t)). exact IH.
Qed.

Lemma strip_start (c : ascii) (s : string) : starts_with_char c (strip c s) = false.
Proof. apply rstrip_start, lstrip_start. Qed.

Lemma strip_end (c : ascii) (s : string) : ends_with_char c (strip c s) = false.
Proof. apply rstrip_end. Qed.







End PyStrFacts.

(* ===================================================================== *)
(** ** Column normalisation and entity classification *)
(* ===================================================================== *)

Section Normalisation.
Import PyStr PyStrFacts.

Lemma replace_free (bad : ascii -> Prop) (old new s : string) :
  free_of bad new -> free_of bad s -> free_of bad (replace old new s).
Proof.
  intros Hn Hs c Hc. apply replace_chars in Hc as [Hc|Hc]; auto.
Qed.

Lemma replace_char_free (a : ascii) (new s : string) :
  free_of (eq a) new -> free_of (eq a) (replace (String a "") new s).
Proof.
  intros Hn c Hc <-. revert Hc. apply replace_char_gone.
  intros H. exact (Hn a H eq_refl).
Qed.

Lemma strip_free (bad : ascii -> Prop) (c : ascii) (s : string) :
  free_of bad s -> free_of bad (strip c s).
Proof. intros Hs x Hx. apply Hs, strip_chars with c, Hx. Qed.

Lemma literal_free (bad : ascii -> Prop) (lit : string) :
  Forall (fun c => ~ bad c) (chars lit) -> free_of bad lit.
Proof. intros H c Hc. rewrite List.Forall_forall in H. exact (H c Hc). Qed.

End Normalisation.

#[local] Ltac literal :=
  apply literal_free; repeat constructor;
  try (intros E; discriminate E); try (vm_compute; lia).

Section Replacing.
Import PyStr PyStrFacts.

Lemma append_assoc (a b c : string) :
  String.append (String.append a b) c = String.append a (String.append b c).
Proof.
  induction a as [|x a IH]; [reflexivity|].
  rewrite !append_cons. now rewrite IH.
Qed.


Lemma replace_absent (old new s : string) :
  contains old s = false -> replace old new s = s.
Proof.
  unfold replace. induction s as [|c s IH]; [reflexivity|].
  rewrite contains_unfold.
  destruct (String.prefix old (String c s)) eqn:E; [discriminate|].
  intros H. cbn [replace_from]. rewrite E. f_equal. now apply IH.
Qed.

Lemma lstrip_fixed (c : ascii) (s : string) :
  starts_with_char c s = false -> lstrip c s = s.
Proof. destruct s as [|a s]; simpl; [reflexivity | now intros ->]. Qed.

Lemma rstrip_cons (c a : ascii) (t : string) :
  rstrip c (String a t)
  = match rstrip c t with
    | EmptyString => if Ascii.eqb a c then EmptyString else String a EmptyString
    | t' => String a t'
    end.
Proof. reflexivity. Qed.

Lemma rstrip_fixed (c : ascii) (s : string) :
  ends_with_char c s = false -> rstrip c s = s.
Proof.
  induction s as [|a s IH]; [reflexivity|].
  destruct s as [|b s].
  - simpl. now intros ->.
  - intros H. change (ends_with_char c (String b s) = false) in H.
    rewrite rstrip_cons, (IH H). reflexivity.
Qed.

Lemma strip_fixed (c : ascii) (s : string) :
  starts_with_char c s = false -> ends_with_char c s = false -> strip c s = s.
Proof.
  intros H1 H2. unfold strip. rewrite (lstrip_fixed c s H1). now apply rstrip_fixed.
Qed.









End Replacing.

Section LabelShape.
Import PyStr PyStrFacts.































End LabelShape.




(** The classification is decided by the entity text alone: it is
    ["aggregate"] exactly when the text holds one of the seven labels, and
    ["country"] otherwise. *)
Lemma entity_type_of_spec (x : string) :
  (entity_type_of x = "aggregate" <->
     exists agg pre post,
       In agg aggregates /\ x = String.append pre (String.append agg post))
  /\ (entity_type_of x = "country" <->
     ~ exists agg pre post,
       In agg aggregates /\ x = String.append pre (String.append agg post)).
Proof.
  assert (E : existsb (fun agg => PyStr.contains agg x) aggregates = true <->
              exists agg pre post,
                In agg aggregates /\ x = String.append pre (String.append agg post)).
  { rewrite existsb_exists. split.
    - intros (agg & Hin & Hc). apply PyStrFacts.contains_spec in Hc as (pre & post & Hc).
      eauto.
    - intros (agg & pre & post & Hin & Hx). exists agg. split; [exact Hin|].
      apply PyStrFacts.contains_spec. eauto. }
  unfold entity_type_of.
  destruct (existsb _ aggregates) eqn:Hb.
  - split; split.
    + intros _. apply E. reflexivity.
    + reflexivity.
    + discriminate.
    + intros H. exfalso. apply H, E. reflexivity.
  - split; split.
    + discriminate.
    + intros H. apply E in H. discriminate H.
    + intros _ H. apply E in H. discriminate H.
    + reflexivity.
Qed.

(* ===================================================================== *)
(** ** Facts about frames *)
(* ===================================================================== *)

Section FrameFacts.

Lemma index_of_lt (name : string) (cols : list string) (i : nat) :
  index_of name cols = Some i -> (i < length cols)%nat.
Proof.
  revert i. induction cols as [|c cs IH]; intros i; simpl; [discriminate|].
  destruct (String.eqb name c).
  - intros [= <-]. lia.
  - destruct (index_of name cs) as [j|]; simpl; [|discriminate].
    intros [= <-]. specialize (IH j eq_refl). lia.
Qed.

Lemma index_of_lookup (name : string) (cols : list string) (i : nat) :
  index_of name cols = Some i -> cols !! i = Some name.
Proof.
  revert i. induction cols as [|c cs IH]; intros i; simpl; [discriminate|].
  destruct (String.eqb name c) eqn:E.
  - intros [= <-]. apply String.eqb_eq in E. now subst.
  - destruct (index_of name cs) as [j|]; simpl; [|discriminate].
    intros [= <-]. simpl. now apply IH.
Qed.

(** Two labels found at the same position are the same label. *)
Lemma index_of_inj (a b : string) (cols : list string) (i : nat) :
  index_of a cols = Some i -> index_of b cols = Some i -> a = b.
Proof.
  intros Ha Hb. apply index_of_lookup in Ha, Hb. congruence.
Qed.

Lemma index_of_None (name : string) (cols : list string) :
  index_of name cols = None <-> ~ In name cols.
Proof.
  induction cols as [|c cs IH]; simpl; [tauto|].
  destruct (String.eqb name c) eqn:E.
  - apply String.eqb_eq in E. subst. split; [discriminate | tauto].
  - apply String.eqb_neq in E.
    destruct (index_of name cs); simpl.
    + split; [discriminate|]. intros H. exfalso. apply H. right.
      destruct (in_dec string_dec name cs) as [Hin|Hnin]; [exact Hin|].
      apply IH in Hnin. discriminate Hnin.
    + split; [|reflexivity]. intros _ [H|H]; [congruence | now apply IH].
Qed.

Lemma index_of_app_new (name : string) (cols : list string) :
  index_of name cols = None ->
  index_of name (cols ++ [name]) = Some (length cols).
Proof.
  induction cols as [|c cs IH]; simpl.
  - now rewrite String.eqb_refl.
  - destruct (String.eqb name c); [discriminate|].
    destruct (index_of name cs); [discriminate|].
    intros _. now rewrite IH.
Qed.

Lemma index_of_app_old (name other : string) (cols : list string) :
  other <> name ->
  index_of other (cols ++ [name]) = index_of other cols.
Proof.
  intros Hne. induction cols as [|c cs IH]; simpl.
  - apply String.eqb_neq in Hne. now rewrite Hne.
  - destruct (String.eqb other c); [reflexivity | now rewrite IH].
Qed.

Lemma has_column_In (name : string) (f : frame) :
  has_column name f = true <-> In name (columns f).
Proof.
  unfold has_column. rewrite existsb_exists. split.
  - intros (c & Hin & E). apply String.eqb_eq in E. now subst.
  - intros H. exists name. split; [exact H | apply String.eqb_refl].
Qed.

Lemma has_column_index (name : string) (f : frame) :
  has_column name f = true <-> exists i, index_of name (columns f) = Some i.
Proof.
  rewrite has_column_In. destruct (index_of name (columns f)) as [i|] eqn:E.
  - split; [eauto|]. intros _.
    destruct (in_dec string_dec name (columns f)) as [H|H]; [exact H|].
    apply index_of_None in H. congruence.
  - apply index_of_None in E. split; [tauto | intros [i Hi]; discriminate].
Qed.

Lemma rows_set_column (name : string) (g : row -> cell) (f : frame) :
  rows (set_column name g f) = map (set_row name g f) (rows f).
Proof.
  unfold set_column, set_row. destruct (index_of name (columns f)); reflexivity.
Qed.

(** The labels after an assignment do not depend on the value assigned. *)
Lemma columns_set_column (name : string) (g : row -> cell) (f : frame) :
  columns (set_column name g f) =
  if has_column name f then columns f else columns f ++ [name].
Proof.
  unfold set_column. destruct (index_of name (columns f)) as [i|] eqn:E; simpl.
  - replace (has_column name f) with true; [reflexivity|].
    symmetry. apply has_column_index. eauto.
  - replace (has_column name f) with false; [reflexivity|].
    symmetry. apply not_true_is_false. intros H.
    apply has_column_index in H as [i Hi]. congruence.
Qed.

Lemma set_row_length (name : string) (g : row -> cell) (f : frame) (r : row) :
  length r = length (columns f) ->
  length (set_row name g f r) = length (columns (set_column name g f)).
Proof.
  unfold set_row, set_column. intros Hl.
  destruct (index_of name (columns f)); simpl.
  - now rewrite length_insert.
  - rewrite !length_app. simpl. lia.
Qed.

(** Reading back the column just assigned. *)
Lemma cell_of_set_same (name : string) (g : row -> cell) (f : frame) (r : row) :
  length r = length (columns f) ->
  cell_of (set_column name g f) name (set_row name g f r) = Some (g r).
Proof.
  unfold cell_of, set_row, set_column. intros Hl.
  destruct (index_of name (columns f)) as [i|] eqn:E; simpl.
  - rewrite E. apply list_lookup_insert_eq.
    apply index_of_lt in E. lia.
  - rewrite (index_of_app_new _ _ E). rewrite <- Hl.
    apply list_lookup_middle. reflexivity.
Qed.

(** Reading any other column after an assignment. *)
Lemma cell_of_set_other (name other : string) (g : row -> cell) (f : frame) (r : row) :
  other <> name ->
  length r = length (columns f) ->
  cell_of (set_column name g f) other (set_row name g f r) = cell_of f other r.
Proof.
  unfold cell_of, set_row, set_column. intros Hne Hl.
  destruct (index_of name (columns f)) as [i|] eqn:E; simpl.
  - destruct (index_of other (columns f)) as [j|] eqn:Ej; [|reflexivity].
    apply list_lookup_insert_ne. intros ->.
    apply Hne. eapply index_of_inj; eauto.
  - rewrite (index_of_app_old _ _ _ Hne).
    destruct (index_of other (columns f)) as [j|] eqn:Ej; [|reflexivity].
    apply lookup_app_l. apply index_of_lt in Ej. lia.
Qed.

Lemma set_column_wf (name : string) (g : row -> cell) (f : frame) :
  frame_wf f -> frame_wf (set_column name g f).
Proof.
  unfold frame_wf. rewrite rows_set_column. intros H.
  apply List.Forall_forall. intros r' Hr'.
  apply in_map_iff in Hr' as (r & <- & Hr).
  apply set_row_length. rewrite List.Forall_forall in H. now apply H.
Qed.

Lemma map_column_wf (name : string) (g : cell -> cell) (f : frame) :
  frame_wf f -> frame_wf (map_column name g f).
Proof. apply set_column_wf. Qed.

Lemma drop_duplicates_from_incl (seen rs : list row) (r : row) :
  In r (drop_duplicates_from seen rs) -> In r rs.
Proof.
  revert seen. induction rs as [|x rs IH]; intros seen; simpl; [tauto|].
  destruct (existsb (row_eqb x) seen).
  - intros H. right. eapply IH, H.
  - intros [H|H]; [now left | right; eapply IH, H].
Qed.

Lemma drop_duplicates_wf (f : frame) : frame_wf f -> frame_wf (drop_duplicates f).
Proof.
  unfold frame_wf, drop_duplicates. simpl. rewrite !List.Forall_forall.
  intros H r Hr. apply H. eapply drop_duplicates_from_incl, Hr.
Qed.

Lemma filter_rows_wf (cols : list string) (p : row -> bool) (rs : list row) :
  frame_wf (Frame cols rs) -> frame_wf (Frame cols (List.filter p rs)).
Proof.
  unfold frame_wf. simpl. rewrite !List.Forall_forall.
  intros H r Hr. apply H. apply List.filter_In in Hr. tauto.
Qed.

End FrameFacts.

(* ===================================================================== *)
(** ** The clean/transform stage *)
(* ===================================================================== *)

Section CleanFacts.

Context {rt : PyRuntime}.

Lemma standardize_columns_wf (df : frame) :
  frame_wf df -> frame_wf (standardize_columns df).
Proof.
  unfold frame_wf, standardize_columns. simpl. now rewrite length_map.
Qed.

Lemma handle_missing_codes_wf (df : frame) :
  frame_wf df -> frame_wf (handle_missing_codes df).
Proof.
  unfold handle_missing_codes. destruct (has_column "code" df); [|auto].
  apply map_column_wf.
Qed.

Lemma validate_years_wf (df : frame) :
  frame_wf df -> frame_wf (validate_years df).
Proof.
  unfold validate_years. destruct (has_column "year" df); [|auto].
  intros H. apply (map_column_wf "year" to_numeric) in H.
  destruct (map_column "year" to_numeric df) as [cols rs]. simpl.
  now apply filter_rows_wf.
Qed.

Lemma add_metadata_wf (key : string) (today : Z) (df : frame) :
  frame_wf df -> frame_wf (add_metadata key today df).
Proof. intros H. unfold add_metadata. now do 3 apply set_column_wf. Qed.

Lemma classify_entities_wf (df : frame) :
  frame_wf df -> frame_wf (classify_entities df).
Proof.
  unfold classify_entities. destruct (has_column "entity" df); [|auto].
  apply set_column_wf.
Qed.

Lemma tagged_wf (key : string) (today : Z) (df : frame) :
  frame_wf df -> frame_wf (tagged key today df).
Proof.
  intros H. unfold tagged, deduplicated.
  now apply add_metadata_wf, validate_years_wf, drop_duplicates_wf,
    handle_missing_codes_wf, standardize_columns_wf.
Qed.

Lemma clean_dataset_Some (key : string) (today : Z) (df out : frame) :
  clean_dataset key today df = Some out ->
  out = classify_entities (tagged key today df) /\ NoDup (columns out).
Proof.
  unfold clean_dataset, to_parquet.
  destruct (decide _) as [Hnd|]; [|discriminate].
  intros [= <-]. auto.
Qed.

(** What one turn of the stage's loop reads and writes. *)
Lemma clean_step_writes (today : Z) (key : string) (files files' : gmap string frame)
    (entry : cleaning_entry) :
  clean_step today key files = Some (files', entry) ->
  exists df out : frame,
    files !! parquet_path key = Some df
    /\ clean_dataset key today df = Some out
    /\ files' !! cleaned_parquet_path key = Some out
    /\ original_rows entry = length (rows df)
    /\ cleaned_rows entry = length (rows out).
Proof.
  unfold clean_step.
  destruct (files !! parquet_path key) as [df|] eqn:Hf; [|discriminate]. simpl.
  destruct (clean_dataset key today df) as [out|] eqn:Hc; [|discriminate]. simpl.
  intros [= <- <-]. exists df, out.
  rewrite lookup_insert_eq. repeat split; auto.
Qed.

Lemma frame_wf_row (f : frame) (r : row) :
  frame_wf f -> In r (rows f) -> length r = length (columns f).
Proof. unfold frame_wf. rewrite List.Forall_forall. auto. Qed.

(** Assigning one column leaves the values of every other column alone. *)
Lemma column_values_set_other (name other : string) (g : row -> cell) (f : frame) :
  other <> name -> frame_wf f ->
  column_values (set_column name g f) other = column_values f other.
Proof.
  intros Hne Hwf. unfold column_values. rewrite rows_set_column, map_map.
  apply map_ext_in. intros r Hr.
  apply cell_of_set_other; [exact Hne | now apply frame_wf_row].
Qed.

Lemma column_values_add_metadata (key : string) (today : Z) (f : frame) (col : string) :
  col <> "data_source" -> col <> "data_quality_flag" -> col <> "last_updated" ->
  frame_wf f ->
  column_values (add_metadata key today f) col = column_values f col.
Proof.
  intros H1 H2 H3 Hwf. unfold add_metadata.
  rewrite !column_values_set_other; auto using set_column_wf.
Qed.

Lemma column_values_classify (f : frame) (col : string) :
  col <> "entity_type" -> frame_wf f ->
  column_values (classify_entities f) col = column_values f col.
Proof.
  intros Hne Hwf. unfold classify_entities.
  destruct (has_column "entity" f); [|reflexivity].
  now apply column_values_set_other.
Qed.

Lemma columns_map_column (name : string) (g : cell -> cell) (f : frame) :
  has_column name f = true -> columns (map_column name g f) = columns f.
Proof.
  intros H. unfold map_column. rewrite columns_set_column. now rewrite H.
Qed.

Lemma columns_handle_missing_codes (df : frame) :
  columns (handle_missing_codes df) = columns df.
Proof.
  unfold handle_missing_codes. destruct (has_column "code" df) eqn:E; [|reflexivity].
  now apply columns_map_column.
Qed.

Lemma columns_deduplicated (df : frame) :
  columns (deduplicated df) = map normalize_column (columns df).
Proof.
  unfold deduplicated, drop_duplicates. simpl.
  now rewrite columns_handle_missing_codes.
Qed.

Lemma deduplicated_wf (df : frame) : frame_wf df -> frame_wf (deduplicated df).
Proof.
  intros H. unfold deduplicated.
  now apply drop_duplicates_wf, handle_missing_codes_wf, standardize_columns_wf.
Qed.

Lemma filter_read_back (read : row -> option cell) (c : row -> row)
    (y : row -> cell) (rs : list row) :
  (forall r, In r rs -> read (c r) = Some (y r)) ->
  map read (List.filter (fun r' => year_in_range (default CNull (read r'))) (map c rs))
  = map Some (List.filter year_in_range (map y rs)).
Proof.
  induction rs as [|r rs IH]; intros H; [reflexivity|].
  assert (IH' := IH (fun r' Hr' => H r' (or_intror Hr'))).
  assert (Hr := H r (or_introl eq_refl)).
  simpl. rewrite Hr. simpl.
  destruct (year_in_range (y r)); simpl; [rewrite Hr; f_equal|]; exact IH'.
Qed.

(** The year column after the filter: the coerced years that are in range,
    in the order of the rows. *)
Lemma column_values_validate_years (f : frame) :
  frame_wf f -> has_column "year" f = true ->
  column_values (validate_years f) "year" =
  map Some (List.filter year_in_range (map (coerced_year f) (rows f))).
Proof.
  intros Hwf Hy. unfold validate_years. rewrite Hy.
  unfold column_values. cbn [rows].
  change (cell_of {| columns := columns (map_column "year" to_numeric f);
                     rows := _ |} "year")
    with (cell_of (map_column "year" to_numeric f) "year").
  unfold map_column at 3. rewrite rows_set_column.
  apply filter_read_back. intros r Hr.
  unfold map_column. rewrite cell_of_set_same; [reflexivity|].
  now apply frame_wf_row.
Qed.

(** The model's coercion and range test against the filter as the
    specification words it. *)
Lemma year_kept_coerced (c : cell) :
  match year_kept c with
  | Some q => to_numeric c = CNum q /\ year_in_range (to_numeric c) = true
  | None => year_in_range (to_numeric c) = false
  end.
Proof.
  unfold year_kept. destruct c as [q|s|d|]; cbn [to_numeric]; try reflexivity.
  - cbn [year_in_range].
    destruct (Qle_bool (1750 # 1) q && Qle_bool q (2025 # 1)) eqn:E; auto.
  - destruct (float_of_text s) as [q|]; [|reflexivity]. cbn [year_in_range].
    destruct (Qle_bool (1750 # 1) q && Qle_bool q (2025 # 1)) eqn:E; auto.
Qed.

Lemma year_kept_range (c : cell) (q : Q) :
  year_kept c = Some q -> (1750 # 1 <= q)%Q /\ (q <= 2025 # 1)%Q.
Proof.
  assert (H := year_kept_coerced c). intros E. rewrite E in H.
  destruct H as [-> H]. cbn [year_in_range] in H.
  apply andb_prop in H as [H1 H2]. split; now apply Qle_bool_iff.
Qed.

Lemma kept_years_coerced (f : frame) (rs : list row) :
  map Some (List.filter year_in_range (map (coerced_year f) rs))
  = map (fun r => option_map CNum (year_kept (default CNull (cell_of f "year" r))))
      (List.filter
         (fun r => match year_kept (default CNull (cell_of f "year" r)) with
                   | Some _ => true
                   | None => false
                   end) rs).
Proof.
  induction rs as [|r rs IH]; [reflexivity|].
  cbn [map List.filter]. unfold coerced_year at 1.
  assert (H := year_kept_coerced (default CNull (cell_of f "year" r))).
  destruct (year_kept (default CNull (cell_of f "year" r))) as [q|] eqn:E.
  - destruct H as [Hc Hr]. rewrite Hr. cbn [map]. rewrite E. cbn [option_map].
    unfold coerced_year at 1. now rewrite Hc, IH.
  - rewrite H. exact IH.
Qed.

(** The other columns behind the year filter: the values of the rows whose
    coerced year is in range. *)
Lemma filter_map_rows (p : row -> bool) (g : row -> row) (rs : list row) :
  List.filter p (map g rs) = map g (List.filter (fun r => p (g r)) rs).
Proof.
  induction rs as [|r rs IH]; [reflexivity|].
  cbn [map List.filter]. destruct (p (g r)); cbn [map]; now rewrite IH.
Qed.

Lemma filter_ext_rows (p q : row -> bool) (rs : list row) :
  (forall r, In r rs -> p r = q r) -> List.filter p rs = List.filter q rs.
Proof.
  induction rs as [|r rs IH]; intros H; [reflexivity|].
  cbn [List.filter]. rewrite (H r (or_introl eq_refl)).
  rewrite IH; [reflexivity|]. intros r' Hr'. apply H. now right.
Qed.

Lemma column_values_validate_years_other (f : frame) (col : string) :
  frame_wf f -> has_column "year" f = true -> col <> "year" ->
  column_values (validate_years f) col
  = map (cell_of f col)
      (List.filter (fun r => year_in_range (coerced_year f r)) (rows f)).
Proof.
  intros Hwf Hy Hne. unfold validate_years. rewrite Hy.
  unfold column_values. cbn [rows].
  change (cell_of {| columns := columns (map_column "year" to_numeric f);
                     rows := _ |} col)
    with (cell_of (map_column "year" to_numeric f) col).
  unfold map_column. rewrite rows_set_column, filter_map_rows, map_map.
  assert (Hrows : forall r, In r (rows f) -> length r = length (columns f))
    by (intros r Hr; now apply frame_wf_row).
  rewrite (filter_ext_rows _ (fun r => year_in_range (coerced_year f r))).
  - apply map_ext_in. intros r Hr. apply List.filter_In in Hr as [Hr _].
    apply cell_of_set_other; auto.
  - intros r Hr. rewrite cell_of_set_same by auto. reflexivity.
Qed.

End CleanFacts.

(** C1.  In every frame the stage writes, a row with an entity carries as
    its [entity_type] the classification of the entity's text: ["aggregate"]
    exactly when that text holds one of the seven labels as a substring,
    ["country"] otherwise. *)
Theorem entity_type_classification
    (rt : PyRuntime) (key : string) (today : Z) (df out : frame) (r : row) (x : cell) :
  frame_wf df ->
  clean_dataset key today df = Some out ->
  In r (rows out) ->
  cell_of out "entity" r = Some x ->
  exists t : string,
    cell_of out "entity_type" r = Some (CStr t)
    /\ t = entity_type_of (py_str x)
    /\ (t = "aggregate" <->
          exists agg pre post,
            In agg aggregates
            /\ py_str x = String.append pre (String.append agg post))
    /\ (t = "country" <->
          ~ exists agg pre post,
            In agg aggregates
            /\ py_str x = String.append pre (String.append agg post)).
Proof.
  intros Hwf Hclean Hr Hx.
  apply clean_dataset_Some in Hclean as [-> _].
  pose proof (tagged_wf key today df Hwf) as HwfT.
  set (T := tagged key today df) in *.
  unfold classify_entities in *.
  destruct (has_column "entity" T) eqn:Hent.
  - rewrite rows_set_column in Hr. apply in_map_iff in Hr as (r0 & <- & Hr0).
    pose proof (frame_wf_row T r0 HwfT Hr0) as Hl.
    rewrite cell_of_set_other in Hx by (discriminate || exact Hl).
    exists (entity_type_of (py_str x)).
    rewrite cell_of_set_same by exact Hl. rewrite Hx. simpl.
    split; [reflexivity | split; [reflexivity | apply entity_type_of_spec]].
  - exfalso. unfold cell_of in Hx.
    destruct (index_of "entity" (columns T)) as [i|] eqn:E; [|discriminate].
    assert (has_column "entity" T = true) by (apply has_column_index; eauto).
    congruence.
Qed.

(** C3.  When the normalised labels include [year], the stage keeps of the
    deduplicated rows exactly those whose year is a number, or a text that
    converts to a number, between 1750 and 2025: the year column written
    holds these numbers, in order, every other column that the stage does
    not assign holds the values of these rows, and a row whose year converts
    to no number or is out of range is dropped.  So every row written has a
    numeric year in that range. *)
Theorem year_filter_range
    (rt : PyRuntime) (key : string) (today : Z) (df out : frame) :
  frame_wf df ->
  In "year" (map normalize_column (columns df)) ->
  clean_dataset key today df = Some out ->
  column_values out "year"
  = map (fun r => option_map CNum
                    (year_kept (default CNull (cell_of (deduplicated df) "year" r))))
      (rows_kept df)
  /\ (forall col, col <> "year" -> ~ In col assigned_labels ->
        column_values out col = map (cell_of (deduplicated df) col) (rows_kept df))
  /\ length (rows out) = length (rows_kept df)
  /\ forall r, In r (rows out) ->
       exists q : Q,
         cell_of out "year" r = Some (CNum q)
         /\ (1750 # 1 <= q)%Q /\ (q <= 2025 # 1)%Q.
Proof.
  intros Hwf Hyear Hclean.
  apply clean_dataset_Some in Hclean as [-> _].
  assert (Hhas : has_column "year" (deduplicated df) = true).
  { apply has_column_In. now rewrite columns_deduplicated. }
  assert (Hcols : column_values (classify_entities (tagged key today df)) "year"
            = map (fun r => option_map CNum
                     (year_kept (default CNull (cell_of (deduplicated df) "year" r))))
                (rows_kept df)).
  { rewrite column_values_classify by (discriminate || now apply tagged_wf).
    unfold tagged.
    rewrite column_values_add_metadata;
      try discriminate; [|now apply validate_years_wf, deduplicated_wf].
    rewrite column_values_validate_years by (auto using deduplicated_wf).
    apply kept_years_coerced. }
  split; [exact Hcols | split; [|split]].
  - intros col Hne Hcol.
    assert (col <> "data_source" /\ col <> "data_quality_flag"
            /\ col <> "last_updated" /\ col <> "entity_type") as (N1 & N2 & N3 & N4).
    { repeat split; intros ->; apply Hcol; simpl; tauto. }
    rewrite column_values_classify by (auto using tagged_wf).
    unfold tagged.
    rewrite column_values_add_metadata by (auto using validate_years_wf, deduplicated_wf).
    rewrite column_values_validate_years_other by (auto using deduplicated_wf).
    unfold rows_kept. f_equal. apply List.filter_ext. intros r.
    unfold coerced_year.
    assert (H := year_kept_coerced (default CNull (cell_of (deduplicated df) "year" r))).
    destruct (year_kept (default CNull (cell_of (deduplicated df) "year" r)));
      [now destruct H | exact H].
  - assert (E : length (column_values (classify_entities (tagged key today df)) "year")
                = length (rows (classify_entities (tagged key today df))))
      by (unfold column_values; apply length_map).
    rewrite <- E, Hcols. apply length_map.
  - intros r Hr.
    assert (Hin : In (cell_of (classify_entities (tagged key today df)) "year" r)
                    (column_values (classify_entities (tagged key today df)) "year"))
      by (unfold column_values; now apply in_map).
    rewrite Hcols in Hin. apply in_map_iff in Hin as (r0 & Hy & Hkept).
    apply List.filter_In in Hkept as [_ Hkept].
    destruct (year_kept (default CNull (cell_of (deduplicated df) "year" r0)))
      as [q|] eqn:E; [|discriminate Hkept].
    exists q. split; [now symmetry|]. exact (year_kept_range _ q E).
Qed.

(* ===================================================================== *)
(** ** Duplicate rows *)
(* ===================================================================== *)

Section DistinctRows.

Lemma cell_eqb_sym (a b : cell) : cell_eqb a b = cell_eqb b a.
Proof.
  destruct a, b; simpl; try reflexivity.
  - apply Qeq_bool_comm.
  - apply String.eqb_sym.
  - apply Z.eqb_sym.
Qed.

Lemma row_eqb_sym (r s : row) : row_eqb r s = row_eqb s r.
Proof.
  revert s. induction r as [|a r IH]; intros [|b s]; simpl; try reflexivity.
  now rewrite cell_eqb_sym, IH.
Qed.

Lemma existsb_false_In (x : row) (l : list row) (y : row) :
  existsb (row_eqb x) l = false -> In y l -> row_eqb x y = false.
Proof.
  induction l as [|z l IH]; simpl; [tauto|].
  intros H [->|Hy]; apply orb_false_elim in H as [H1 H2]; auto.
Qed.

Lemma drop_duplicates_from_seen (seen rs : list row) (x s : row) :
  In x (drop_duplicates_from seen rs) -> In s seen -> row_eqb x s = false.
Proof.
  revert seen. induction rs as [|r rs IH]; intros seen; simpl; [tauto|].
  destruct (existsb (row_eqb r) seen) eqn:E.
  - apply IH.
  - intros [<-|Hx] Hs.
    + eapply existsb_false_In; eauto.
    + eapply IH; [exact Hx | now right].
Qed.

Lemma existsb_row_false (x : row) (l : list row) :
  (forall y, In y l -> row_eqb x y = false) -> existsb (row_eqb x) l = false.
Proof.
  induction l as [|z l IH]; simpl; [reflexivity|]. intros H.
  rewrite (H z) by now left. simpl. apply IH. intros y Hy. apply H. now right.
Qed.

(** What [drop_duplicates] returns has no two equal rows. *)
Lemma drop_duplicates_from_distinct (seen rs : list row) :
  distinct_rows (drop_duplicates_from seen rs) = true.
Proof.
  revert seen. induction rs as [|r rs IH]; intros seen; simpl; [reflexivity|].
  destruct (existsb (row_eqb r) seen); [apply IH|].
  simpl. rewrite IH, andb_true_r. apply negb_true_iff.
  apply existsb_row_false. intros y Hy.
  rewrite row_eqb_sym. eapply drop_duplicates_from_seen; [exact Hy | now left].
Qed.

Lemma distinct_rows_filter (p : row -> bool) (rs : list row) :
  distinct_rows rs = true -> distinct_rows (List.filter p rs) = true.
Proof.
  induction rs as [|r rs IH]; simpl; [reflexivity|].
  intros H. apply andb_prop in H as [H1 H2]. apply negb_true_iff in H1.
  destruct (p r); [|auto]. simpl. rewrite (IH H2), andb_true_r.
  apply negb_true_iff, existsb_row_false. intros y Hy.
  apply List.filter_In in Hy as [Hy _]. eapply existsb_false_In; eauto.
Qed.

(** A row map under which equal images come from equal rows keeps the rows
    distinct. *)
Lemma distinct_rows_map (h : row -> row) (rs : list row) :
  (forall r s, row_eqb (h r) (h s) = true -> row_eqb r s = true) ->
  distinct_rows rs = true -> distinct_rows (map h rs) = true.
Proof.
  intros Hh. induction rs as [|r rs IH]; simpl; [reflexivity|].
  intros H. apply andb_prop in H as [H1 H2]. apply negb_true_iff in H1.
  rewrite (IH H2), andb_true_r.
  apply negb_true_iff, existsb_row_false. intros y Hy.
  apply in_map_iff in Hy as (s & <- & Hs).
  destruct (row_eqb (h r) (h s)) eqn:E; [|reflexivity].
  apply Hh in E. rewrite (existsb_false_In r rs s H1 Hs) in E. discriminate E.
Qed.

Lemma row_eqb_snoc (r s : row) (a b : cell) :
  row_eqb (r ++ [a]) (s ++ [b]) = true -> row_eqb r s = true.
Proof.
  revert s. induction r as [|x r IH]; intros [|y s]; simpl.
  - reflexivity.
  - destruct s; simpl; rewrite andb_false_r; discriminate.
  - destruct r; simpl; rewrite andb_false_r; discriminate.
  - intros H. apply andb_prop in H as [H1 H2]. rewrite H1. simpl. now apply IH.
Qed.

(** Appending a new column keeps the rows distinct, whatever it holds. *)
Lemma set_column_new_distinct (name : string) (g : row -> cell) (f : frame) :
  ~ In name (columns f) ->
  distinct_rows (rows f) = true ->
  distinct_rows (rows (set_column name g f)) = true.
Proof.
  intros Hnew Hd. apply index_of_None in Hnew.
  unfold set_column. rewrite Hnew. simpl.
  apply distinct_rows_map; [|exact Hd].
  intros r s. apply row_eqb_snoc.
Qed.

End DistinctRows.

Section CleanDistinct.

Context {rt : PyRuntime}.

Lemma to_numeric_number (c : cell) : number_or_missing c -> to_numeric c = c.
Proof. destruct c; simpl; tauto. Qed.

Lemma columns_validate_years (f : frame) :
  columns (validate_years f) = columns f.
Proof.
  unfold validate_years. destruct (has_column "year" f) eqn:E; [|reflexivity].
  simpl. now apply columns_map_column.
Qed.

Lemma column_values_handle_missing_codes (f : frame) (col : string) :
  col <> "code" -> frame_wf f ->
  column_values (handle_missing_codes f) col = column_values f col.
Proof.
  intros Hne Hwf. unfold handle_missing_codes.
  destruct (has_column "code" f); [|reflexivity].
  now apply column_values_set_other.
Qed.

(** On a numeric year column the coercion changes no row. *)
Lemma validate_years_numeric_distinct (f : frame) :
  frame_wf f ->
  (forall r c, In r (rows f) -> cell_of f "year" r = Some c -> number_or_missing c) ->
  distinct_rows (rows f) = true ->
  distinct_rows (rows (validate_years f)) = true.
Proof.
  intros Hwf Hnum Hd. unfold validate_years.
  destruct (has_column "year" f) eqn:Hy; [|exact Hd].
  cbn [rows]. apply distinct_rows_filter.
  unfold map_column. rewrite rows_set_column.
  replace (map _ (rows f)) with (rows f); [exact Hd|].
  symmetry. rewrite <- (map_id (rows f)) at 2. apply map_ext_in.
  intros r Hr. unfold set_row.
  apply has_column_index in Hy as [i Hi]. rewrite Hi.
  specialize (Hnum r). unfold cell_of in *. rewrite Hi in *.
  pose proof (frame_wf_row f r Hwf Hr) as Hl.
  pose proof (index_of_lt _ _ _ Hi) as Hlt.
  destruct (r !! i) as [c|] eqn:Hc.
  - simpl. rewrite to_numeric_number by (eapply Hnum; eauto).
    now apply list_insert_id.
  - apply lookup_ge_None in Hc. lia.
Qed.

End CleanDistinct.

(** C4 (as amended).  When none of the four labels the stage assigns is
    already a normalised label of the input, and the year column, where
    there is one, holds numbers or missing values, no two rows of the frame
    written are equal. *)
Theorem no_duplicate_rows
    (rt : PyRuntime) (key : string) (today : Z) (df out : frame) :
  frame_wf df ->
  (forall name, In name assigned_labels ->
     ~ In name (map normalize_column (columns df))) ->
  (forall c, In (Some c) (column_values (standardize_columns df) "year") ->
     number_or_missing c) ->
  clean_dataset key today df = Some out ->
  distinct_rows (rows out) = true.
Proof.
  intros Hwf Hfresh Hnum Hclean.
  apply clean_dataset_Some in Hclean as [-> _].
  pose proof (deduplicated_wf df Hwf) as HwfD.
  assert (HD : distinct_rows (rows (deduplicated df)) = true)
    by apply drop_duplicates_from_distinct.
  assert (HV : distinct_rows (rows (validate_years (deduplicated df))) = true).
  { apply validate_years_numeric_distinct; auto.
    intros r c Hr Hc. apply Hnum.
    rewrite <- (column_values_handle_missing_codes (standardize_columns df))
      by (discriminate || now apply standardize_columns_wf).
    unfold column_values. rewrite <- Hc.
    change (cell_of (deduplicated df) "year" r)
      with (cell_of (handle_missing_codes (standardize_columns df)) "year" r).
    apply in_map. eapply drop_duplicates_from_incl. exact Hr. }
  assert (Hc0 : columns (validate_years (deduplicated df))
                = map normalize_column (columns df))
    by now rewrite columns_validate_years, columns_deduplicated.
  assert (Hf : forall name, In name assigned_labels ->
                 has_column name (validate_years (deduplicated df)) = false).
  { intros name Hn. apply not_true_is_false. rewrite has_column_In, Hc0.
    now apply Hfresh. }
  set (V := validate_years (deduplicated df)) in *.
  assert (HT : distinct_rows (rows (tagged key today df)) = true
               /\ columns (tagged key today df)
                  = columns V ++ ["data_source"; "data_quality_flag"; "last_updated"]).
  { unfold tagged, add_metadata. fold V.
    set (V1 := set_column "data_source" _ V).
    assert (E1 : columns V1 = columns V ++ ["data_source"]).
    { unfold V1. rewrite columns_set_column, Hf; [reflexivity|]. simpl. tauto. }
    set (V2 := set_column "data_quality_flag" _ V1).
    assert (N2 : ~ In "data_quality_flag" (columns V1)).
    { rewrite E1, in_app_iff, Hc0. intros [H|[H|[]]]; [|discriminate H].
      revert H. apply Hfresh. simpl. tauto. }
    assert (E2 : columns V2 = columns V ++ ["data_source"; "data_quality_flag"]).
    { unfold V2. rewrite columns_set_column.
      replace (has_column "data_quality_flag" V1) with false.
      - rewrite E1, <- app_assoc. reflexivity.
      - symmetry. apply not_true_is_false. now rewrite has_column_In. }
    assert (N3 : ~ In "last_updated" (columns V2)).
    { rewrite E2, in_app_iff, Hc0. intros [H|[H|[H|[]]]]; try discriminate H.
      revert H. apply Hfresh. simpl. tauto. }
    split.
    - apply set_column_new_distinct; [exact N3|].
      apply set_column_new_distinct; [exact N2|].
      apply set_column_new_distinct; [|exact HV].
      rewrite Hc0. apply Hfresh. simpl. tauto.
    - rewrite columns_set_column.
      replace (has_column "last_updated" V2) with false.
      + rewrite E2, <- app_assoc. reflexivity.
      + symmetry. apply not_true_is_false. now rewrite has_column_In. }
  destruct HT as [HT HcT].
  unfold classify_entities. destruct (has_column "entity" _); [|exact HT].
  apply set_column_new_distinct; [|exact HT].
  rewrite HcT, in_app_iff, Hc0. intros [H|[H|[H|[H|[]]]]]; try discriminate H.
  revert H. apply Hfresh. simpl. tauto.
Qed.

(* ===================================================================== *)
(** ** Re-running the stage *)
(* ===================================================================== *)

Section Rerun.

Context {rt : PyRuntime}.

Lemma column_values_set_same (name : string) (g : row -> cell) (f : frame) :
  frame_wf f ->
  column_values (set_column name g f) name = map (fun r => Some (g r)) (rows f).
Proof.
  intros Hwf. unfold column_values. rewrite rows_set_column, map_map.
  apply map_ext_in. intros r Hr.
  apply cell_of_set_same. now apply frame_wf_row.
Qed.

Lemma has_column_columns (name : string) (f1 f2 : frame) :
  columns f1 = columns f2 -> has_column name f1 = has_column name f2.
Proof. unfold has_column. now intros ->. Qed.

Lemma columns_classify_entities (f1 f2 : frame) :
  columns f1 = columns f2 ->
  columns (classify_entities f1) = columns (classify_entities f2).
Proof.
  intros Hc. unfold classify_entities.
  rewrite (has_column_columns "entity" f1 f2 Hc).
  destruct (has_column "entity" f2); [|exact Hc].
  rewrite !columns_set_column, (has_column_columns "entity_type" f1 f2 Hc), Hc.
  reflexivity.
Qed.

Lemma length_rows_set_column (name : string) (g : row -> cell) (f : frame) :
  length (rows (set_column name g f)) = length (rows f).
Proof. rewrite rows_set_column. apply length_map. Qed.

Lemma length_rows_classify_entities (f : frame) :
  length (rows (classify_entities f)) = length (rows f).
Proof.
  unfold classify_entities. destruct (has_column "entity" f); [|reflexivity].
  apply length_rows_set_column.
Qed.

(** Two frames that agree on every column but [last_updated] still do after
    the entities are classified. *)
Lemma classify_entities_agree (f1 f2 : frame) :
  frame_wf f1 -> frame_wf f2 ->
  columns f1 = columns f2 ->
  (forall col, col <> "last_updated" -> column_values f1 col = column_values f2 col) ->
  forall col, col <> "last_updated" ->
    column_values (classify_entities f1) col = column_values (classify_entities f2) col.
Proof.
  intros Hwf1 Hwf2 Hc Hagree col Hcol. unfold classify_entities.
  rewrite (has_column_columns "entity" f1 f2 Hc).
  destruct (has_column "entity" f2); [|now apply Hagree].
  destruct (string_dec col "entity_type") as [->|Hne].
  - rewrite !column_values_set_same by assumption.
    assert (E : forall f, map (fun r => Some (CStr (entity_type_of
                  (py_str (default CNull (cell_of f "entity" r)))))) (rows f)
                = map (fun oc => Some (CStr (entity_type_of (py_str (default CNull oc)))))
                    (column_values f "entity")).
    { intros f. unfold column_values. now rewrite map_map. }
    rewrite !E. now rewrite (Hagree "entity") by discriminate.
  - rewrite !column_values_set_other by assumption. now apply Hagree.
Qed.

End Rerun.

(** C7.  A second run on the same snapshot, at whatever date, fails when the
    first fails and otherwise writes a frame with the same labels, the same
    number of rows and the same values in every column but [last_updated],
    hence the same count, average, minimum and maximum of each. *)
Theorem rerun_same_data
    (rt : PyRuntime) (pg : Postgres) (key : string) (today1 today2 : Z)
    (df out1 : frame) :
  frame_wf df ->
  clean_dataset key today1 df = Some out1 ->
  exists out2 : frame,
    clean_dataset key today2 df = Some out2
    /\ columns out2 = columns out1
    /\ length (rows out2) = length (rows out1)
    /\ forall col, col <> "last_updated" ->
         column_values out2 col = column_values out1 col
         /\ column_stats out2 col = column_stats out1 col.
Proof.
  intros Hwf H1.
  apply clean_dataset_Some in H1 as [-> Hnd].
  set (Y := set_column "data_quality_flag" (fun _ => CStr "clean")
              (set_column "data_source" (fun _ => CStr key)
                 (validate_years (deduplicated df)))).
  assert (HY : frame_wf Y).
  { unfold Y. do 2 apply set_column_wf.
    now apply validate_years_wf, deduplicated_wf. }
  assert (HT : forall t, tagged key t df = set_column "last_updated" (fun _ => CDate t) Y)
    by reflexivity.
  assert (Hcols : columns (tagged key today2 df) = columns (tagged key today1 df)).
  { rewrite !HT, !columns_set_column. reflexivity. }
  assert (Hcols' : columns (classify_entities (tagged key today2 df))
                   = columns (classify_entities (tagged key today1 df)))
    by now apply columns_classify_entities.
  exists (classify_entities (tagged key today2 df)).
  split; [|split; [exact Hcols'|split]].
  - unfold clean_dataset, to_parquet.
    rewrite Hcols'. destruct (decide _); [reflexivity | contradiction].
  - rewrite !length_rows_classify_entities, !HT, !length_rows_set_column.
    reflexivity.
  - intros col Hcol.
    assert (E : column_values (classify_entities (tagged key today2 df)) col
                = column_values (classify_entities (tagged key today1 df)) col).
    { apply classify_entities_agree; auto using tagged_wf.
      intros c Hc. rewrite !HT, !column_values_set_other by assumption.
      reflexivity. }
    split; [exact E|]. unfold column_stats. now rewrite E.
Qed.

(* ===================================================================== *)
(** ** The database-load stage *)
(* ===================================================================== *)

Section Load.

Lemma head_zip_with (c : nat -> cell) (ids : list nat) (rs : list row) :
  length ids = length rs ->
  map (fun r : row => r !! 0%nat) (zip_with (fun i r => c i :: r) ids rs)
  = map (fun i => Some (c i)) ids.
Proof.
  revert rs. induction ids as [|i ids IH]; intros [|r rs]; simpl;
    try reflexivity; try discriminate.
  intros [= Hl]. now rewrite IH.
Qed.

Lemma insert_id_ids (df table : frame) :
  insert_id df = Some table ->
  column_values table "id"
  = map (fun i => Some (num (Z.of_nat i))) (seq 1 (length (rows df)))
  /\ length (rows table) = length (rows df).
Proof.
  unfold insert_id. destruct (has_column "id" df); [discriminate|].
  intros [= <-]. unfold column_values, cell_of. simpl. split.
  - apply head_zip_with. apply length_seq.
  - rewrite length_zip_with, length_seq. lia.
Qed.

Lemma num_key_inj (i j : nat) :
  Some (num (Z.of_nat i)) = Some (num (Z.of_nat j)) -> i = j.
Proof. unfold num, inject_Z. intros [= E]. now apply Nat2Z.inj. Qed.

Lemma NoDup_keys (start n : nat) :
  List.NoDup (map (fun i => Some (num (Z.of_nat i))) (seq start n)).
Proof.
  apply Finite.Injective_map_NoDup; [|apply List.seq_NoDup].
  intros i j. apply num_key_inj.
Qed.

Lemma insert_id_Some (df : frame) :
  has_column "id" df = false -> exists table, insert_id df = Some table.
Proof. intros H. unfold insert_id. rewrite H. eauto. Qed.

Lemma insert_id_numbers (df table : frame) (r : row) :
  insert_id df = Some table -> In r (rows table) ->
  exists q, r !! 0%nat = Some (CNum q).
Proof.
  unfold insert_id. destruct (has_column "id" df); [discriminate|].
  intros [= <-]. cbn [rows]. generalize 1%nat.
  induction (rows df) as [|x xs IH]; intros start; [intros []|].
  cbn [length seq zip_with]. intros [<-|Hin]; [eexists; reflexivity|].
  exact (IH (S start) Hin).
Qed.

Context {pg : Postgres}.

(** The [id] column of the table that [to_sql] leaves. *)
Lemma stored_ids (name : string) (df table stored : frame) (db : gmap string frame) :
  insert_id df = Some table ->
  to_sql name table db = Some stored ->
  columns stored = "id" :: map pg_identifier (columns df)
  /\ column_values stored "id"
     = map (fun i => Some (num (Z.of_nat i))) (seq 1 (length (rows df)))
  /\ length (rows stored) = length (rows df).
Proof.
  intros Hins Hsql.
  destruct (to_sql_stored name table db stored Hsql) as [Hcols Hlen].
  assert (Hnum := to_sql_numbers name table db stored 0 Hsql
                    (fun r Hr => insert_id_numbers df table r Hins Hr)).
  destruct (insert_id_ids df table Hins) as [Hids Hl].
  assert (Hc : columns stored = "id" :: map pg_identifier (columns df)).
  { rewrite Hcols. unfold insert_id in Hins.
    destruct (has_column "id" df); [discriminate|].
    injection Hins as <-. reflexivity. }
  split; [exact Hc | split; [|congruence]].
  unfold column_values, cell_of. rewrite Hc. cbn [index_of String.eqb Ascii.eqb Bool.eqb].
  rewrite Hnum, <- Hids. unfold column_values, cell_of.
  unfold insert_id in Hins. destruct (has_column "id" df); [discriminate|].
  injection Hins as <-. reflexivity.
Qed.

Lemma load_step_Some (key : string) (files db db' : gmap string frame)
    (entry : load_entry) :
  load_step key files db = Some (db', entry) ->
  exists df table stored n,
    files !! cleaned_parquet_path key = Some df
    /\ insert_id df = Some table
    /\ to_sql (String.append "cleaned_" key) table db = Some stored
    /\ db' = <[pg_identifier (String.append "cleaned_" key) := stored]> db
    /\ select_count (String.append "cleaned_" key) db' = Some n
    /\ entry = LoadEntry key (String.append "cleaned_" key) n "success".
Proof.
  unfold load_step.
  destruct (files !! cleaned_parquet_path key) as [df|] eqn:E1; [|discriminate].
  cbn [mbind option_bind].
  destruct (insert_id df) as [table|] eqn:E2; [|discriminate].
  cbn [mbind option_bind].
  destruct (to_sql (String.append "cleaned_" key) table db) as [stored|] eqn:E3;
    [|discriminate].
  cbn [mbind option_bind].
  destruct (select_count _ _) as [n|] eqn:E4; [|discriminate].
  cbn [mbind option_bind]. intros [= <- <-].
  exists df, table, stored, n. auto 10.
Qed.

End Load.

(** C5.  Whatever the database held, a load of a cleaned snapshot of n rows
    that goes through leaves a table whose [id] column is 1, 2, ..., n: the
    keys are distinct, contiguous, and start at 1 on every run.  The load
    goes through when the snapshot has no [id] column of its own and the
    database takes the table and answers the count; it raises when the
    snapshot has an [id] column or the database refuses the table. *)
Theorem surrogate_keys
    (pg : Postgres) (key : string) (files db : gmap string frame) (df : frame) :
  files !! cleaned_parquet_path key = Some df ->
  (has_column "id" df = true -> load_step key files db = None)
  /\ (has_column "id" df = false -> exists table, insert_id df = Some table)
  /\ (forall table,
        insert_id df = Some table ->
        to_sql (String.append "cleaned_" key) table db = None ->
        load_step key files db = None)
  /\ (forall table stored n,
        insert_id df = Some table ->
        to_sql (String.append "cleaned_" key) table db = Some stored ->
        select_count (String.append "cleaned_" key)
          (<[pg_identifier (String.append "cleaned_" key) := stored]> db) = Some n ->
        load_step key files db
        = Some (<[pg_identifier (String.append "cleaned_" key) := stored]> db,
                LoadEntry key (String.append "cleaned_" key) n "success"))
  /\ (forall db' entry,
        load_step key files db = Some (db', entry) ->
        exists table : frame,
          db' !! pg_identifier (String.append "cleaned_" key) = Some table
          /\ column_values table "id"
             = map (fun i => Some (num (Z.of_nat i))) (seq 1 (length (rows df)))
          /\ List.NoDup (column_values table "id")
          /\ length (rows table) = length (rows df)).
Proof.
  intros Hfile. split; [|split; [|split; [|split]]].
  - intros Hid. unfold load_step. rewrite Hfile. cbn [mbind option_bind].
    unfold insert_id. now rewrite Hid.
  - apply insert_id_Some.
  - intros table Hins Hsql. unfold load_step. rewrite Hfile. cbn [mbind option_bind].
    rewrite Hins. cbn [mbind option_bind]. now rewrite Hsql.
  - intros table stored n Hins Hsql Hcount. unfold load_step.
    rewrite Hfile. cbn [mbind option_bind]. rewrite Hins. cbn [mbind option_bind].
    rewrite Hsql. cbn [mbind option_bind]. now rewrite Hcount.
  - intros db' entry Hload.
    apply load_step_Some in Hload
      as (df' & table & stored & n & Hf & Hins & Hsql & -> & _ & _).
    assert (df' = df) as -> by congruence.
    destruct (stored_ids _ df table stored db Hins Hsql) as (_ & Hids & Hlen).
    exists stored. split; [apply lookup_insert_eq|].
    split; [exact Hids | split; [|exact Hlen]].
    rewrite Hids. apply NoDup_keys.
Qed.

(* ===================================================================== *)
(** ** The view sets *)
(* ===================================================================== *)

Section ViewSetFacts.

Context {rt : PyRuntime} {pg : Postgres} {R : Type} {M : Model R}.

Lemma truthy_supplied (query : query_params) (key v : string) :
  truthy (qget query key) = Some v <-> supplied query key v.
Proof.
  unfold truthy, supplied. destruct (qget query key) as [w|]; [|split; [discriminate | intros [H _]; discriminate]].
  destruct (String.eqb w "") eqn:E.
  - apply String.eqb_eq in E. subst. split; [discriminate|].
    intros [[= <-] H]. contradiction.
  - apply String.eqb_neq in E. split.
    + intros [= <-]. auto.
    + intros [[= <-] _]. reflexivity.
Qed.

Lemma filter_if_spec (param : option string) (lookup : string -> result (R -> bool))
    (cond : string -> R -> Prop) (q q' : list R) :
  (forall v keep, lookup v = Ok keep -> forall r, keep r = true <-> cond v r) ->
  filter_if param lookup q = Ok q' ->
  forall r, In r q' <-> In r q /\ (forall v, truthy param = Some v -> cond v r).
Proof.
  intros Hl. unfold filter_if. destruct (truthy param) as [v|].
  - destruct (lookup v) as [keep|e] eqn:E; simpl; [|discriminate].
    intros [= <-] r. rewrite List.filter_In, (Hl v keep E). split.
    + intros [H1 H2]. split; [exact H1|]. now intros v' [= <-].
    + intros [H1 H2]. auto.
  - intros [= <-] r. split; [intros H; split; [exact H | discriminate] | tauto].
Qed.

Lemma int_lookup (v : string) (mk : Z -> R -> bool) (keep : R -> bool) :
  (let* n := int_value v in Ok (mk n))%result = Ok keep ->
  exists n, int_of_text v = Some n /\ keep = mk n.
Proof.
  unfold int_value. destruct (int_of_text v) as [n|]; simpl; [|discriminate].
  intros [= <-]. eauto.
Qed.

Lemma filter_if_total (param : option string) (lookup : string -> result (R -> bool))
    (q : list R) :
  (forall v, truthy param = Some v -> exists keep, lookup v = Ok keep) ->
  exists q', filter_if param lookup q = Ok q'.
Proof.
  intros H. unfold filter_if. destruct (truthy param) as [v|]; [|eauto].
  destruct (H v eq_refl) as [keep ->]. simpl. eauto.
Qed.

Lemma filter_filter (f g : R -> bool) (l : list R) :
  List.filter g (List.filter f l) = List.filter (fun r => f r && g r) l.
Proof.
  induction l as [|x l IH]; simpl; [reflexivity|].
  destruct (f x); simpl; [destruct (g x)|]; now rewrite IH.
Qed.

(** The rows that pass the filters are the stored rows that satisfy every
    supplied parameter. *)
Lemma filtered_spec (query : query_params) (table rs : list R) :
  filtered query table = Ok rs ->
  forall r, In r rs <-> In r table /\ satisfies query r.
Proof.
  unfold filtered.
  destruct (filter_if (qget query "entity") _ table) as [q1|] eqn:E1; [|discriminate].
  cbn [bind].
  destruct (filter_if (qget query "code") _ q1) as [q2|] eqn:E2; [|discriminate].
  cbn [bind].
  destruct (filter_if (qget query "year") _ q2) as [q3|] eqn:E3; [|discriminate].
  cbn [bind].
  destruct (filter_if (qget query "entity_type") _ q3) as [q4|] eqn:E4; [|discriminate].
  cbn [bind].
  destruct (filter_if (qget query "year_min") _ q4) as [q5|] eqn:E5; [|discriminate].
  cbn [bind].
  destruct (filter_if (qget query "year_max") _ q5) as [q6|] eqn:E6; [|discriminate].
  cbn [bind]. intros [= <-] r.
  eapply (filter_if_spec _ _
            (fun v r => exists pre post,
               pg_upper (entity r)
               = String.append pre (String.append (pg_upper v) post))) in E1.
  2: { intros v keep [= <-] r0. unfold entity__icontains.
       apply PyStrFacts.contains_spec. }
  eapply (filter_if_spec _ _ (fun v r => code r = Some v)) in E2.
  2: { intros v keep [= <-] r0. unfold code__exact.
       destruct (code r0) as [c|]; [|split; discriminate].
       rewrite String.eqb_eq. split; congruence. }
  eapply (filter_if_spec _ _ (fun v r => int_of_text v = Some (year r))) in E3.
  2: { intros v keep Hk r0. apply int_lookup in Hk as (n & Hn & ->).
       unfold year__exact. rewrite Z.eqb_eq, Hn. split; congruence. }
  eapply (filter_if_spec _ _ (fun v r => entity_type r = Some v)) in E4.
  2: { intros v keep [= <-] r0. unfold entity_type__exact.
       destruct (entity_type r0) as [c|]; [|split; discriminate].
       rewrite String.eqb_eq. split; congruence. }
  eapply (filter_if_spec _ _
            (fun v r => exists n, int_of_text v = Some n /\ (n <= year r)%Z)) in E5.
  2: { intros v keep Hk r0. apply int_lookup in Hk as (n & Hn & ->).
       unfold year__gte. rewrite Z.leb_le. split; [eauto|].
       intros (n' & Hn' & Hle). congruence. }
  eapply (filter_if_spec _ _
            (fun v r => exists n, int_of_text v = Some n /\ (year r <= n)%Z)) in E6.
  2: { intros v keep Hk r0. apply int_lookup in Hk as (n & Hn & ->).
       unfold year__lte. rewrite Z.leb_le. split; [eauto|].
       intros (n' & Hn' & Hle). congruence. }
  rewrite E6, E5, E4, E3, E2, E1. unfold satisfies.
  setoid_rewrite truthy_supplied. tauto.
Qed.

(** The filters raise only on a year parameter that is no integer. *)
Lemma filtered_total (query : query_params) (table : list R) :
  (forall key v, In key ["year"; "year_min"; "year_max"] ->
     supplied query key v -> int_of_text v <> None) ->
  exists rs, filtered query table = Ok rs.
Proof.
  intros Hp.
  assert (Hint : forall key mk v, In key ["year"; "year_min"; "year_max"] ->
            truthy (qget query key) = Some v ->
            exists keep : R -> bool,
              (let* n := int_value v in Ok (mk n))%result = Ok keep).
  { intros key mk v Hk Hv. apply truthy_supplied in Hv.
    specialize (Hp key v Hk Hv). unfold int_value.
    destruct (int_of_text v) as [n|]; [simpl; eauto | contradiction]. }
  unfold filtered.
  destruct (filter_if_total (qget query "entity")
              (fun v => Ok (entity__icontains v)) table) as [q1 ->]; [eauto|].
  cbn [bind].
  destruct (filter_if_total (qget query "code")
              (fun v => Ok (code__exact v)) q1) as [q2 ->]; [eauto|].
  cbn [bind].
  destruct (filter_if_total (qget query "year")
              (fun v => let* n := int_value v in Ok (year__exact n))%result q2)
    as [q3 ->]; [intros v Hv; eapply (Hint "year"); [simpl; tauto | exact Hv]|].
  cbn [bind].
  destruct (filter_if_total (qget query "entity_type")
              (fun v => Ok (entity_type__exact v)) q3) as [q4 ->]; [eauto|].
  cbn [bind].
  destruct (filter_if_total (qget query "year_min")
              (fun v => let* n := int_value v in Ok (year__gte n))%result q4)
    as [q5 ->]; [intros v Hv; eapply (Hint "year_min"); [simpl; tauto | exact Hv]|].
  cbn [bind].
  destruct (filter_if_total (qget query "year_max")
              (fun v => let* n := int_value v in Ok (year__lte n))%result q5)
    as [q6 ->]; [intros v Hv; eapply (Hint "year_max"); [simpl; tauto | exact Hv]|].
  cbn [bind]. eauto.
Qed.

Lemma filter_true (l : list R) : List.filter (fun _ => true) l = l.
Proof. induction l as [|x l IH]; simpl; [reflexivity | now rewrite IH]. Qed.

(** The filters read the query string through the six parameters only. *)
Lemma filtered_reads_six (q1 q2 : query_params) (table : list R) :
  (forall key, In key ["entity"; "code"; "year"; "entity_type"; "year_min"; "year_max"] ->
     truthy (qget q1 key) = truthy (qget q2 key)) ->
  filtered q1 table = filtered q2 table.
Proof.
  intros H. unfold filtered, filter_if.
  rewrite (H "entity"), (H "code"), (H "year"), (H "entity_type"),
    (H "year_min"), (H "year_max") by (simpl; tauto).
  reflexivity.
Qed.

(** The rows that pass are chosen one by one, by a test the query fixes. *)
Lemma filtered_filter (query : query_params) (table rs : list R) :
  filtered query table = Ok rs ->
  exists keep : R -> bool,
    forall t, filtered query t = Ok (List.filter keep t).
Proof.
  unfold filtered, filter_if, int_value.
  destruct (truthy (qget query "entity")) as [v1|];
  destruct (truthy (qget query "code")) as [v2|];
  destruct (truthy (qget query "entity_type")) as [v4|];
  destruct (truthy (qget query "year")) as [v3|];
  destruct (truthy (qget query "year_min")) as [v5|];
  destruct (truthy (qget query "year_max")) as [v6|];
  repeat match goal with
         | |- context [int_of_text ?v] => destruct (int_of_text v)
         end;
  cbn [bind]; intros Hrs; try discriminate Hrs;
  first
    [ exists (fun _ => true); intros t; now rewrite filter_true
    | eexists; intros t; rewrite ?filter_filter; reflexivity ].
Qed.

(** The filters fail on a year parameter that is no integer, whatever the
    table holds. *)
Lemma filtered_raise (query : query_params) (table : list R) (e : api_error) :
  filtered query table = Raise e ->
  (forall t, filtered query t = Raise e)
  /\ exists key v,
       In key ["year"; "year_min"; "year_max"]
       /\ supplied query key v /\ int_of_text v = None
       /\ e = ValueError "year" v.
Proof.
  unfold filtered, filter_if, int_value.
  destruct (truthy (qget query "entity")) as [v1|];
  destruct (truthy (qget query "code")) as [v2|];
  destruct (truthy (qget query "entity_type")) as [v4|];
  destruct (truthy (qget query "year")) as [v3|] eqn:E3;
  destruct (truthy (qget query "year_min")) as [v5|] eqn:E5;
  destruct (truthy (qget query "year_max")) as [v6|] eqn:E6;
  repeat match goal with
         | |- context [int_of_text ?v] => destruct (int_of_text v) eqn:?
         end;
  cbn [bind]; intros He; try discriminate He; injection He as <-;
  (split; [reflexivity|]);
  first
    [ exists "year", v3; split; [simpl; tauto|];
      split; [now apply truthy_supplied | split; [assumption | reflexivity]]
    | exists "year_min", v5; split; [simpl; tauto|];
      split; [now apply truthy_supplied | split; [assumption | reflexivity]]
    | exists "year_max", v6; split; [simpl; tauto|];
      split; [now apply truthy_supplied | split; [assumption | reflexivity]] ].
Qed.

Lemma filtered_Ok_parses (query : query_params) (table rs : list R)
    (key v : string) :
  filtered query table = Ok rs ->
  In key ["year"; "year_min"; "year_max"] ->
  supplied query key v -> int_of_text v <> None.
Proof.
  intros Hok Hkey Hs Hp.
  apply truthy_supplied in Hs.
  revert Hok. unfold filtered, filter_if, int_value.
  destruct Hkey as [<-|[<-|[<-|[]]]]; rewrite Hs;
  destruct (truthy (qget query "entity"));
  destruct (truthy (qget query "code"));
  destruct (truthy (qget query "entity_type"));
  try destruct (truthy (qget query "year"));
  try destruct (truthy (qget query "year_min"));
  try destruct (truthy (qget query "year_max"));
  rewrite ?Hp;
  repeat match goal with
         | |- context [int_of_text ?v] => destruct (int_of_text v)
         end;
  cbn [bind]; discriminate.
Qed.

(** The ordering rearranges the rows and adds or drops none. *)
Lemma in_meta_ordering_permutation (l : list R) : Permutation (in_meta_ordering l) l.
Proof. apply order_by_permutation. Qed.

Lemma in_meta_ordering_In (l : list R) (r : R) : In r (in_meta_ordering l) <-> In r l.
Proof.
  split; apply Permutation_in;
    [apply in_meta_ordering_permutation | symmetry; apply in_meta_ordering_permutation].
Qed.

Lemma in_meta_ordering_nil : in_meta_ordering (@nil R) = [].
Proof. apply Permutation_nil. symmetry. apply in_meta_ordering_permutation. Qed.

Lemma get_queryset_Ok (query : query_params) (table rs : list R) :
  get_queryset query table = Ok rs <->
  exists passed, filtered query table = Ok passed /\ rs = in_meta_ordering passed.
Proof.
  unfold get_queryset. destruct (filtered query table) as [passed|e]; cbn [bind].
  - split; [intros [= <-]; eauto | intros (p & [= <-] & ->); reflexivity].
  - split; [discriminate | intros (p & Hp & _); discriminate].
Qed.

Lemma get_queryset_Raise (query : query_params) (table : list R) (e : api_error) :
  get_queryset query table = Raise e <-> filtered query table = Raise e.
Proof.
  unfold get_queryset. destruct (filtered query table) as [passed|e']; cbn [bind].
  - split; discriminate.
  - reflexivity.
Qed.

(** The rows [get_queryset] returns are the stored rows that satisfy every
    supplied parameter. *)
Lemma get_queryset_spec (query : query_params) (table rs : list R) :
  get_queryset query table = Ok rs ->
  forall r, In r rs <-> In r table /\ satisfies query r.
Proof.
  intros H r. apply get_queryset_Ok in H as (passed & Hp & ->).
  rewrite in_meta_ordering_In. now apply filtered_spec.
Qed.

(** [get_queryset] raises only on a year parameter that is no integer. *)
Lemma get_queryset_total (query : query_params) (table : list R) :
  (forall key v, In key ["year"; "year_min"; "year_max"] ->
     supplied query key v -> int_of_text v <> None) ->
  exists rs, get_queryset query table = Ok rs.
Proof.
  intros H. destruct (filtered_total query table H) as [passed Hp].
  exists (in_meta_ordering passed). apply get_queryset_Ok. eauto.
Qed.

Lemma get_queryset_reads_six (q1 q2 : query_params) (table : list R) :
  (forall key, In key ["entity"; "code"; "year"; "entity_type"; "year_min"; "year_max"] ->
     truthy (qget q1 key) = truthy (qget q2 key)) ->
  get_queryset q1 table = get_queryset q2 table.
Proof. intros H. unfold get_queryset. now rewrite (filtered_reads_six q1 q2 table H). Qed.

Lemma qget_without_same (key : string) (query : query_params) :
  qget (without key query) key = None.
Proof.
  induction query as [|[k v] query IH]; simpl; [reflexivity|].
  destruct (String.eqb key k) eqn:E; simpl; [exact IH|].
  now rewrite IH, E.
Qed.

Lemma qget_without_other (key other : string) (query : query_params) :
  other <> key -> qget (without key query) other = qget query other.
Proof.
  intros Hne. induction query as [|[k v] query IH]; simpl; [reflexivity|].
  destruct (String.eqb key k) eqn:E; simpl.
  - apply String.eqb_eq in E. subst k. rewrite IH.
    destruct (qget query other); [reflexivity|].
    apply String.eqb_neq in Hne. now rewrite Hne.
  - now rewrite IH.
Qed.

Lemma truthy_without (key k : string) (query : query_params) :
  qget query key = Some "" ->
  truthy (qget (without key query) k) = truthy (qget query k).
Proof.
  intros He. destruct (string_dec k key) as [->|Hne].
  - now rewrite qget_without_same, He.
  - now rewrite qget_without_other.
Qed.

End ViewSetFacts.

(** C8.  The request [?year=2020&entity=France] returns exactly the stored
    rows whose year is 2020 and whose entity holds [France], both folded by
    the database: each such row as often as it is stored, and no other.  For
    any query, the rows returned are exactly the stored rows that satisfy
    every supplied parameter (entity by substring, code and entity type by
    equality, year by equality, [year_min] and [year_max] as bounds), each
    as often as it is stored, and the request fails only on a year that
    [int] refuses. *)
Theorem filters_conjunctive
    (rt : PyRuntime) (pg : Postgres) {R : Type} {M : Model R}
    (query : query_params) (table : list R) :
  int_of_text "2020" = Some 2020%Z ->
  (exists rs,
     get_queryset [("year", "2020"); ("entity", "France")] table = Ok rs
     /\ Permutation rs
          (List.filter
             (fun r => PyStr.contains (pg_upper "France") (pg_upper (entity r))
                       && (year r =? 2020)%Z) table)
     /\ forall r,
          In r rs
          <-> In r table /\ year r = 2020%Z
              /\ exists pre post,
                   pg_upper (entity r)
                   = String.append pre (String.append (pg_upper "France") post))
  /\ (forall rs, get_queryset query table = Ok rs ->
        (forall r, In r rs <-> In r table /\ satisfies query r)
        /\ exists keep : R -> bool, Permutation rs (List.filter keep table))
  /\ ((forall key v, In key ["year"; "year_min"; "year_max"] ->
         supplied query key v -> int_of_text v <> None) ->
      exists rs, get_queryset query table = Ok rs).
Proof.
  intros H2020.
  assert (Hf : filtered [("year", "2020"); ("entity", "France")] table
               = Ok (List.filter
                       (fun r => PyStr.contains (pg_upper "France") (pg_upper (entity r))
                                 && (year r =? 2020)%Z) table)).
  { unfold filtered.
    replace (qget [("year", "2020"); ("entity", "France")] "entity")
      with (Some "France") by reflexivity.
    replace (qget [("year", "2020"); ("entity", "France")] "code")
      with (@None string) by reflexivity.
    replace (qget [("year", "2020"); ("entity", "France")] "year")
      with (Some "2020") by reflexivity.
    replace (qget [("year", "2020"); ("entity", "France")] "entity_type")
      with (@None string) by reflexivity.
    replace (qget [("year", "2020"); ("entity", "France")] "year_min")
      with (@None string) by reflexivity.
    replace (qget [("year", "2020"); ("entity", "France")] "year_max")
      with (@None string) by reflexivity.
    unfold filter_if, int_value.
    replace (truthy (Some "France")) with (Some "France") by reflexivity.
    replace (truthy (Some "2020")) with (Some "2020") by reflexivity.
    rewrite H2020. cbn [bind truthy]. now rewrite filter_filter. }
  split; [|split].
  - eexists. split; [apply get_queryset_Ok; eauto|].
    split; [apply in_meta_ordering_permutation|].
    intros r. rewrite in_meta_ordering_In, List.filter_In, andb_true_iff.
    rewrite PyStrFacts.contains_spec, Z.eqb_eq. tauto.
  - intros rs Hrs. split; [now apply get_queryset_spec|].
    apply get_queryset_Ok in Hrs as (passed & Hp & ->).
    destruct (filtered_filter query table passed Hp) as [keep Hk].
    exists keep. rewrite Hk in Hp. injection Hp as <-.
    apply in_meta_ordering_permutation.
  - apply get_queryset_total.
Qed.

(** C10.  A parameter given with an empty value filters nothing: the query
    returns what it returns with every occurrence of that parameter left
    out. *)
Theorem empty_parameter_ignored
    {rt : PyRuntime} {pg : Postgres} {R : Type} {M : Model R}
    (query : query_params) (key : string) (table : list R) :
  qget query key = Some "" ->
  get_queryset query table = get_queryset (without key query) table.
Proof.
  intros He. unfold get_queryset, filtered, filter_if.
  now rewrite !(truthy_without key _ query He).
Qed.

(** C9.  When no stored row passes the filters, the CO2 summary answers
    with a count of zero and no value for the five other aggregates. *)
Theorem co2_summary_empty
    (rt : PyRuntime) (pg : Postgres)
    (filter_queryset : query_params -> list CleanedCo2Emissions.t ->
                       list CleanedCo2Emissions.t)
    (query : query_params) (table queryset : list CleanedCo2Emissions.t) :
  Co2EmissionsViewSet.get_queryset query table = Ok queryset ->
  filter_queryset query queryset = [] ->
  Co2EmissionsViewSet.summary filter_queryset query table
  = Ok [ ("total_records", num 0);
         ("avg_emissions", CNull);
         ("max_emissions", CNull);
         ("min_emissions", CNull);
         ("latest_year", CNull);
         ("earliest_year", CNull) ].
Proof.
  intros Hq He.
  unfold Co2EmissionsViewSet.summary, summary_of.
  unfold Co2EmissionsViewSet.get_queryset in Hq. rewrite Hq. cbn [bind].
  rewrite He. reflexivity.
Qed.

(** C2.  None of the field names the electricity and the energy summaries
    aggregate over is a field, or a column, of its model, so both summaries
    end in an exception on every request: the keyword cannot be resolved. *)
Theorem summary_fields_unresolvable (rt : PyRuntime) (pg : Postgres) :
  Forall (fun keyword =>
            ~ In keyword (map field_name CleanedElectricityProduction.fields)
            /\ ~ In keyword (map db_column CleanedElectricityProduction.fields))
    [ "electricity_from_fossil_fuels_twh"; "electricity_from_nuclear_twh";
      "electricity_from_renewables_twh" ]
  /\ (~ In "primary_energy_consumption_twh" (map field_name CleanedEnergyProdCons.fields)
      /\ ~ In "primary_energy_consumption_twh" (map db_column CleanedEnergyProdCons.fields))
  /\ (forall filter_queryset query table,
        exists e, ElectricityProductionViewSet.summary filter_queryset query table
                  = Raise e)
  /\ (forall filter_queryset query table,
        exists e, EnergyProdConsViewSet.summary filter_queryset query table
                  = Raise e)
  /\ (forall queryset : list CleanedElectricityProduction.t,
        aggregate ElectricityProductionViewSet.summary_fields queryset
        = Raise (FieldError "electricity_from_fossil_fuels_twh"))
  /\ (forall queryset : list CleanedEnergyProdCons.t,
        aggregate EnergyProdConsViewSet.summary_fields queryset
        = Raise (FieldError "primary_energy_consumption_twh")).
Proof.
  assert (HE : forall queryset : list CleanedElectricityProduction.t,
            aggregate ElectricityProductionViewSet.summary_fields queryset
            = Raise (FieldError "electricity_from_fossil_fuels_twh"))
    by (intros; reflexivity).
  assert (HP : forall queryset : list CleanedEnergyProdCons.t,
            aggregate EnergyProdConsViewSet.summary_fields queryset
            = Raise (FieldError "primary_energy_consumption_twh"))
    by (intros; reflexivity).
  repeat split; try exact HE; try exact HP.
  - repeat constructor; simpl; intuition discriminate.
  - simpl; intuition discriminate.
  - simpl; intuition discriminate.
  - intros fq query table.
    unfold ElectricityProductionViewSet.summary, summary_of.
    destruct (get_queryset query table) as [q|e]; cbn [bind]; [|eauto].
    rewrite HE. simpl. eauto.
  - intros fq query table.
    unfold EnergyProdConsViewSet.summary, summary_of.
    destruct (get_queryset query table) as [q|e]; cbn [bind]; [|eauto].
    rewrite HP. simpl. eauto.
Qed.

(* ===================================================================== *)
(** ** The properties on the sample data *)
(* ===================================================================== *)

(** The CO2 snapshot is a well-formed frame. *)
Lemma co2_snapshot_wf : frame_wf Sample.co2_snapshot.
Proof. repeat constructor. Qed.

(** The classification on the cleaned CO2 sample: the row of [World]. *)
Lemma entity_type_classification_sample :
  In [CStr "World"; CNull; num 2020; num 35000;
      CStr "co2_emissions"; CStr "clean"; CDate Sample.today; CStr "aggregate"]
     (rows Sample.co2_cleaned)
  /\ exists t : string,
       cell_of Sample.co2_cleaned "entity_type"
         [CStr "World"; CNull; num 2020; num 35000;
          CStr "co2_emissions"; CStr "clean"; CDate Sample.today; CStr "aggregate"]
       = Some (CStr t)
       /\ t = entity_type_of "World"
       /\ (t = "aggregate" <->
             exists agg pre post,
               In agg aggregates
               /\ "World" = String.append pre (String.append agg post))
       /\ (t = "country" <->
             ~ exists agg pre post,
               In agg aggregates
               /\ "World" = String.append pre (String.append agg post)).
Proof.
  split; [simpl; tauto|].
  apply (entity_type_classification Sample.runtime "co2_emissions" Sample.today
           Sample.co2_snapshot Sample.co2_cleaned _ (CStr "World")).
  - exact co2_snapshot_wf.
  - vm_compute. reflexivity.
  - simpl. tauto.
  - reflexivity.
Defined.

(** The year filter on a snapshot whose years were read as text: [2020] and
    [2020.0] convert to the number 2020 and are kept as that number,
    [unknown] converts to no number and is dropped with its row. *)
Lemma year_filter_range_sample :
  frame_wf Sample.years_as_text
  /\ column_values Sample.years_as_text "Year"
     = [Some (CStr "2020"); Some (CStr "2020.0"); Some (CStr "unknown")]
  /\ exists out : frame,
       clean_dataset (rt := Sample.runtime) "co2_emissions" Sample.today
         Sample.years_as_text = Some out
       /\ column_values out "year" = [Some (num 2020); Some (num 2020)]
       /\ column_values out "entity" = [Some (CStr "France"); Some (CStr "France")]
       /\ length (rows out) = 2%nat
       /\ forall r, In r (rows out) ->
            exists q : Q,
              cell_of out "year" r = Some (CNum q)
              /\ (1750 # 1 <= q)%Q /\ (q <= 2025 # 1)%Q.
Proof.
  split; [repeat constructor | split; [reflexivity|]].
  destruct (clean_dataset (rt := Sample.runtime) "co2_emissions" Sample.today
              Sample.years_as_text) as [out|] eqn:E; [|vm_compute in E; discriminate E].
  exists out. split; [reflexivity|].
  destruct (year_filter_range Sample.runtime "co2_emissions" Sample.today
              Sample.years_as_text out) as (H1 & H2 & H3 & H4).
  - repeat constructor.
  - vm_compute. tauto.
  - exact E.
  - split; [rewrite H1; vm_compute; reflexivity|].
    split; [rewrite (H2 "entity"); [vm_compute; reflexivity | discriminate
                                   | vm_compute; intuition discriminate]|].
    split; [rewrite H3; vm_compute; reflexivity | exact H4].
Defined.

(** The CO2 sample has a repeated row; what is written has none. *)
Lemma no_duplicate_rows_sample :
  frame_wf Sample.co2_snapshot
  /\ distinct_rows (rows Sample.co2_snapshot) = false
  /\ distinct_rows (rows Sample.co2_cleaned) = true.
Proof.
  split; [exact co2_snapshot_wf | split; [reflexivity|]].
  apply (no_duplicate_rows Sample.runtime "co2_emissions" Sample.today
           Sample.co2_snapshot Sample.co2_cleaned).
  - exact co2_snapshot_wf.
  - intros name Hn. vm_compute in Hn. vm_compute.
    intuition (subst; discriminate).
  - intros c Hc. vm_compute in Hc.
    repeat (destruct Hc as [Hc|Hc]; [injection Hc as <-; exact I|]).
    destruct Hc.
  - vm_compute. reflexivity.
Defined.

(** C4 (as stated) fails: a year column read as text can hold one year
    written in two ways; the two rows differ when duplicates are dropped and
    are equal once the year is coerced. *)
Lemma duplicate_rows_after_coercion :
  frame_wf Sample.years_as_text
  /\ distinct_rows (rows Sample.years_as_text) = true
  /\ exists out : frame,
       clean_dataset (rt := Sample.runtime) "co2_emissions" Sample.today
         Sample.years_as_text = Some out
       /\ distinct_rows (rows out) = false.
Proof.
  split; [repeat constructor | split; [reflexivity|]].
  eexists. split; [vm_compute; reflexivity | reflexivity].
Qed.

(** The same happens when the input has a column that the stage overwrites
    with its own constant. *)
Example duplicate_rows_after_overwrite :
  exists out : frame,
    clean_dataset (rt := Sample.runtime) "co2_emissions" Sample.today
      Sample.own_data_source = Some out
    /\ distinct_rows (rows out) = false.
Proof. eexists. split; [vm_compute; reflexivity | reflexivity]. Qed.

(** The CO2 sample cleaned again a day later. *)
Lemma rerun_same_data_sample :
  frame_wf Sample.co2_snapshot
  /\ exists out2 : frame,
       clean_dataset (rt := Sample.runtime) "co2_emissions" (Sample.today + 1)
         Sample.co2_snapshot = Some out2
       /\ columns out2 = columns Sample.co2_cleaned
       /\ length (rows out2) = length (rows Sample.co2_cleaned)
       /\ forall col, col <> "last_updated" ->
            column_values out2 col = column_values Sample.co2_cleaned col
            /\ column_stats (pg := Sample.postgres) out2 col
               = column_stats (pg := Sample.postgres) Sample.co2_cleaned col.
Proof.
  split; [exact co2_snapshot_wf|].
  apply (rerun_same_data Sample.runtime Sample.postgres "co2_emissions" Sample.today
           (Sample.today + 1) Sample.co2_snapshot Sample.co2_cleaned).
  - exact co2_snapshot_wf.
  - vm_compute. reflexivity.
Defined.

Example sample_stats :
  column_stats (pg := Sample.postgres) Sample.co2_cleaned "year"
  = (num 3, num 1930, num 1750, num 2020).
Proof. vm_compute. reflexivity. Qed.

(** Loading the cleaned CO2 sample over a table left by an earlier run. *)
Example sample_load_step :
  exists (db' : gmap string frame) (entry : load_entry),
    load_step (pg := Sample.postgres) "co2_emissions"
      {[ cleaned_parquet_path "co2_emissions" := Sample.co2_cleaned ]}
      {[ "cleaned_co2_emissions" := Sample.co2_snapshot ]} = Some (db', entry)
    /\ rows_loaded entry = 3%nat.
Proof. eexists _, _. split; vm_compute; reflexivity. Qed.

Lemma surrogate_keys_sample :
  exists (table : frame) (entry : load_entry) (db' : gmap string frame),
    load_step (pg := Sample.postgres) "co2_emissions"
      {[ cleaned_parquet_path "co2_emissions" := Sample.co2_cleaned ]}
      {[ "cleaned_co2_emissions" := Sample.co2_snapshot ]} = Some (db', entry)
    /\ db' !! "cleaned_co2_emissions" = Some table
    /\ column_values table "id" = [Some (num 1); Some (num 2); Some (num 3)]
    /\ List.NoDup (column_values table "id")
    /\ length (rows table) = 3%nat.
Proof.
  destruct sample_load_step as (db' & entry & Hload & _).
  destruct (surrogate_keys Sample.postgres "co2_emissions"
              {[ cleaned_parquet_path "co2_emissions" := Sample.co2_cleaned ]}
              {[ "cleaned_co2_emissions" := Sample.co2_snapshot ]}
              Sample.co2_cleaned) as (_ & _ & _ & _ & H).
  - apply lookup_singleton_eq.
  - destruct (H db' entry Hload) as (table & H1 & H2 & H3 & H4).
    exists table, entry, db'. auto.
Defined.

(** A snapshot with an [id] column of its own is not loaded, and neither is
    one with a blank label, which the database refuses. *)
Example load_refused_sample :
  load_step (pg := Sample.postgres) "x"
    {[ cleaned_parquet_path "x" := Frame ["id"; "entity"] [] ]} empty = None
  /\ load_step (pg := Sample.postgres) "x"
       {[ cleaned_parquet_path "x" := Frame [""; "entity"] [] ]} empty = None.
Proof.
  split; unfold load_step; rewrite lookup_singleton_eq; reflexivity.
Qed.

(** The CO2 summary for an entity no stored row has. *)
Lemma co2_summary_empty_sample :
  Co2EmissionsViewSet.get_queryset (rt := Sample.runtime) (pg := Sample.postgres)
    [("entity", "Atlantis")] Sample.co2_table = Ok []
  /\ Co2EmissionsViewSet.summary (rt := Sample.runtime) (pg := Sample.postgres)
       (fun _ queryset => queryset) [("entity", "Atlantis")] Sample.co2_table
     = Ok [ ("total_records", num 0);
            ("avg_emissions", CNull);
            ("max_emissions", CNull);
            ("min_emissions", CNull);
            ("latest_year", CNull);
            ("earliest_year", CNull) ].
Proof.
  split; [reflexivity|].
  apply (co2_summary_empty Sample.runtime Sample.postgres (fun _ queryset => queryset)
           [("entity", "Atlantis")] Sample.co2_table []); reflexivity.
Defined.

(** A query whose last [entity] value is empty. *)
Lemma empty_parameter_ignored_sample :
  qget [("entity", "France"); ("year", "2020"); ("entity", "")] "entity" = Some ""
  /\ Co2EmissionsViewSet.get_queryset (rt := Sample.runtime) (pg := Sample.postgres)
       [("entity", "France"); ("year", "2020"); ("entity", "")] Sample.co2_table
     = Co2EmissionsViewSet.get_queryset (rt := Sample.runtime) (pg := Sample.postgres)
         [("year", "2020")] Sample.co2_table.
Proof.
  split; [reflexivity|].
  apply (empty_parameter_ignored (rt := Sample.runtime) (pg := Sample.postgres)
           (R := CleanedCo2Emissions.t)
           [("entity", "France"); ("year", "2020"); ("entity", "")] "entity"
           Sample.co2_table).
  reflexivity.
Defined.

(** The CO2 summary of the records of France: a missing value is skipped
    by the average, the maximum and the minimum. *)
Example sample_summary :
  Co2EmissionsViewSet.summary (rt := Sample.runtime) (pg := Sample.postgres)
    (fun _ queryset => queryset) [("entity", "france")] Sample.co2_table
  = Ok [ ("total_records", num 3);
         ("avg_emissions", CNum (603 # 4));
         ("max_emissions", CNum (3005 # 10));
         ("min_emissions", CNum (1 # 1));
         ("latest_year", num 2020);
         ("earliest_year", num 2019) ].
Proof. vm_compute. reflexivity. Qed.

(** The request of C8 on the sample records. *)
Lemma filters_conjunctive_sample :
  int_of_text (PyRuntime := Sample.runtime) "2020" = Some 2020%Z
  /\ exists rs,
       Co2EmissionsViewSet.get_queryset (rt := Sample.runtime) (pg := Sample.postgres)
         [("year", "2020"); ("entity", "France")] Sample.co2_table = Ok rs
       /\ map CleanedCo2Emissions.id rs = [1%Z; 4%Z]
       /\ forall r,
            In r rs
            <-> In r Sample.co2_table /\ CleanedCo2Emissions.year r = 2020%Z
                /\ exists pre post,
                     Sample.upper (CleanedCo2Emissions.entity r)
                     = String.append pre (String.append "FRANCE" post).
Proof.
  split; [reflexivity|].
  destruct (filters_conjunctive Sample.runtime Sample.postgres
              (R := CleanedCo2Emissions.t) [] Sample.co2_table eq_refl)
    as ((rs & Hrs & _ & Hin) & _).
  exists rs. split; [exact Hrs|]. split; [|exact Hin].
  unfold Co2EmissionsViewSet.get_queryset in Hrs.
  assert (E : get_queryset (rt := Sample.runtime) (pg := Sample.postgres)
                [("year", "2020"); ("entity", "France")] Sample.co2_table
              = Ok (List.filter (fun r => (CleanedCo2Emissions.year r =? 2020)%Z
                                          && negb (CleanedCo2Emissions.id r =? 2)%Z)
                      Sample.co2_table))
    by (vm_compute; reflexivity).
  rewrite E in Hrs. injection Hrs as <-. reflexivity.
Defined.

(* ===================================================================== *)
(** ** More on the label rewrite and the classification *)
(* ===================================================================== *)

Section NormalForm.
Import PyStr PyStrFacts.

Context {rt : PyRuntime}.

(** A text that holds a three-character text holds its first character. *)
Lemma contains_dash_space (s : string) :
  contains " " s = false -> contains " - " s = false.
Proof.
  induction s as [|c s IH]; [reflexivity|].
  rewrite (contains_unfold " " (String c s)), (contains_unfold " - " (String c s)).
  destruct (String.prefix " " (String c s)) eqn:E1; [discriminate|].
  intros H. rewrite (IH H).
  destruct (String.prefix " - " (String c s)) eqn:E2; [|reflexivity].
  apply prefix_app in E2 as [post E2]. rewrite append_cons in E2.
  injection E2 as -> _.
  assert (String.prefix " " (String " " s) = true)
    by (apply prefix_app; exists s; reflexivity).
  congruence.
Qed.

Lemma contains_char_In (a : ascii) (s : string) :
  contains (String a "") s = true -> In a (chars s).
Proof.
  intros H. apply contains_spec in H as (pre & post & ->).
  unfold chars. rewrite chars_append, in_app_iff. right.
  rewrite append_cons. simpl. now left.
Qed.

Lemma free_of_contains (a : ascii) (s : string) :
  free_of (eq a) s -> contains (String a "") s = false.
Proof.
  intros H. apply not_true_is_false. intros Hc.
  apply contains_char_In in Hc. exact (H a Hc eq_refl).
Qed.

(** What the rewrite always achieves, character by character. *)
Lemma normalize_column_free (col : string) :
  free_of (eq " "%char) (normalize_column col)
  /\ free_of (eq "-"%char) (normalize_column col)
  /\ free_of (eq "("%char) (normalize_column col)
  /\ free_of (eq ")"%char) (normalize_column col).
Proof.
  unfold normalize_column. repeat split.
  - apply strip_free.
    apply replace_free; [literal|]. apply replace_free; [literal|].
    apply (replace_char_free " "). literal.
  - apply strip_free.
    apply replace_free; [literal|]. apply (replace_char_free "-"). literal.
  - apply strip_free. do 5 (apply replace_free; [literal|]).
    apply (replace_char_free "("). literal.
  - apply strip_free. do 4 (apply replace_free; [literal|]).
    apply (replace_char_free ")"). literal.
Qed.

End NormalForm.

(** X22.  The label rewrite leaves a label as it is when lower-casing does
    and the label is in normal form; what it returns is in normal form but
    for a doubled underscore or a subscript two (the only two things a first
    pass can leave behind); so it is idempotent on every label whose
    rewritten form holds neither and is left as it is by lower-casing. *)
Theorem normalize_column_normal_form (rt : PyRuntime) (col : string) :
  (str_lower col = col -> normal_label col = true -> normalize_column col = col)
  /\ normal_label (normalize_column col)
     = negb (PyStr.contains subscript_two (normalize_column col))
       && negb (PyStr.contains "__" (normalize_column col))
  /\ (str_lower (normalize_column col) = normalize_column col ->
      PyStr.contains "__" (normalize_column col) = false ->
      PyStr.contains subscript_two (normalize_column col) = false ->
      normalize_column (normalize_column col) = normalize_column col).
Proof.
  assert (Hfix : forall s, str_lower s = s -> normal_label s = true ->
                           normalize_column s = s).
  { intros s Hlow H. unfold normal_label in H.
    repeat (apply andb_prop in H as [H ?]).
    repeat match goal with
           | E : negb _ = true |- _ => apply negb_true_iff in E
           end.
    unfold normalize_column.
    rewrite Hlow.
    rewrite (replace_absent subscript_two "2" s) by assumption.
    rewrite (replace_absent "(" "" s) by assumption.
    rewrite (replace_absent ")" "" s) by assumption.
    rewrite (replace_absent " - " "_" s) by now apply contains_dash_space.
    rewrite (replace_absent " " "_" s) by assumption.
    rewrite (replace_absent "-" "_" s) by assumption.
    rewrite (replace_absent "__" "_" s) by assumption.
    now apply strip_fixed. }
  assert (Hshape : normal_label (normalize_column col)
            = negb (PyStr.contains subscript_two (normalize_column col))
              && negb (PyStr.contains "__" (normalize_column col))).
  { destruct (normalize_column_free col) as (F1 & F2 & F3 & F4).
    unfold normal_label.
    rewrite (free_of_contains _ _ F1), (free_of_contains _ _ F2),
      (free_of_contains _ _ F3), (free_of_contains _ _ F4).
    unfold normalize_column at 3 4.
    rewrite PyStrFacts.strip_start, PyStrFacts.strip_end.
    cbn [negb andb]. now rewrite !andb_true_r. }
  split; [apply Hfix | split; [exact Hshape|]].
  intros Hlow H1 H2. apply Hfix; [exact Hlow|]. rewrite Hshape, H1, H2. reflexivity.
Qed.

(** A label of the CO2 table, which the rewrite leaves as it is. *)
Lemma normalize_column_normal_form_sample :
  normalize_column (rt := Sample.runtime) "annual_co2_emissions" = "annual_co2_emissions"
  /\ normalize_column (rt := Sample.runtime)
       (normalize_column (rt := Sample.runtime) "Annual CO2 emissions (per capita)")
     = normalize_column (rt := Sample.runtime) "Annual CO2 emissions (per capita)".
Proof.
  destruct (normalize_column_normal_form Sample.runtime "annual_co2_emissions")
    as (H1 & _).
  destruct (normalize_column_normal_form Sample.runtime "Annual CO2 emissions (per capita)")
    as (_ & _ & H2).
  split; [apply H1; reflexivity | apply H2; reflexivity].
Defined.

(** X23.  The classification only grows with the text: a text that holds an
    entity classed as aggregate is itself classed as aggregate (so a country
    whose name holds a label, as [South Africa] holds [Africa], is tagged
    aggregate), and every part of a text classed as country is classed as
    country. *)
Theorem entity_type_monotone (pre x post : string) :
  (entity_type_of x = "aggregate" ->
   entity_type_of (String.append pre (String.append x post)) = "aggregate")
  /\ (entity_type_of (String.append pre (String.append x post)) = "country" ->
      entity_type_of x = "country").
Proof.
  assert (Hup : entity_type_of x = "aggregate" ->
                entity_type_of (String.append pre (String.append x post)) = "aggregate").
  { intros H. apply entity_type_of_spec in H as (agg & a & b & Hin & ->).
    apply entity_type_of_spec.
    exists agg, (String.append pre a), (String.append b post).
    split; [exact Hin|]. now rewrite !append_assoc. }
  split; [exact Hup|].
  intros Hc. unfold entity_type_of in *.
  destruct (existsb (fun agg => PyStr.contains agg x) aggregates) eqn:E;
    [|reflexivity].
  rewrite Hup in Hc by reflexivity. discriminate Hc.
Qed.

(* ===================================================================== *)
(** ** More on the clean/transform stage *)
(* ===================================================================== *)

Section CleanMore.

Context {rt : PyRuntime}.

Lemma in_rows_set_column (name : string) (g : row -> cell) (f : frame) (r' : row) :
  In r' (rows (set_column name g f)) <->
  exists r, In r (rows f) /\ r' = set_row name g f r.
Proof.
  rewrite rows_set_column, in_map_iff. split; intros (r & H1 & H2); eauto.
Qed.

Lemma columns_set_column_with_label (name : string) (g : row -> cell) (f : frame) :
  columns (set_column name g f) = with_label name (columns f).
Proof. rewrite columns_set_column. reflexivity. Qed.

Lemma columns_tagged (key : string) (today : Z) (df : frame) :
  columns (tagged key today df)
  = with_label "last_updated"
      (with_label "data_quality_flag"
         (with_label "data_source" (map normalize_column (columns df)))).
Proof.
  unfold tagged, add_metadata.
  now rewrite !columns_set_column_with_label, columns_validate_years,
    columns_deduplicated.
Qed.

Lemma columns_classify_with_label (f : frame) :
  columns (classify_entities f)
  = if existsb (String.eqb "entity") (columns f)
    then with_label "entity_type" (columns f) else columns f.
Proof.
  unfold classify_entities. fold (has_column "entity" f).
  destruct (has_column "entity" f); [|reflexivity].
  apply columns_set_column_with_label.
Qed.

Lemma existsb_eqb_In (name : string) (cols : list string) :
  existsb (String.eqb name) cols = true <-> In name cols.
Proof. exact (has_column_In name (Frame cols [])). Qed.

Lemma In_with_label (name other : string) (cols : list string) :
  In other (with_label name cols) <-> In other cols \/ other = name.
Proof.
  unfold with_label. destruct (existsb (String.eqb name) cols) eqn:E.
  - apply existsb_eqb_In in E. split; [tauto | intros [H| ->]; assumption].
  - rewrite in_app_iff. simpl. intuition congruence.
Qed.

Lemma NoDup_with_label (name : string) (cols : list string) :
  NoDup (with_label name cols) <-> NoDup cols.
Proof.
  unfold with_label. destruct (existsb (String.eqb name) cols) eqn:E; [tauto|].
  assert (Hn : ~ In name cols).
  { intros H. apply existsb_eqb_In in H. congruence. }
  rewrite NoDup_app. split; [tauto|].
  intros H. split; [exact H|]. split; [|apply NoDup_singleton].
  intros x Hx Hx'. apply list_elem_of_In in Hx, Hx'.
  destruct Hx' as [<-|[]]. contradiction.
Qed.

Lemma clean_dataset_wf (key : string) (today : Z) (df out : frame) :
  frame_wf df -> clean_dataset key today df = Some out -> frame_wf out.
Proof.
  intros Hwf H. apply clean_dataset_Some in H as [-> _].
  now apply classify_entities_wf, tagged_wf.
Qed.

End CleanMore.

(** X1.  The labels of the frame written are the normalised input labels,
    in order, followed by those of [data_source], [data_quality_flag] and
    [last_updated] that are not among them, and by [entity_type] when there
    is an [entity] label and no [entity_type] yet; no label is written
    twice, and the rows written have one cell per label. *)
Theorem clean_output_labels
    (rt : PyRuntime) (key : string) (today : Z) (df out : frame) :
  frame_wf df ->
  clean_dataset key today df = Some out ->
  columns out
  = (let labels :=
       with_label "last_updated"
         (with_label "data_quality_flag"
            (with_label "data_source" (map normalize_column (columns df)))) in
     if existsb (String.eqb "entity") labels
     then with_label "entity_type" labels else labels)
  /\ (forall name, In name (map normalize_column (columns df)) -> In name (columns out))
  /\ In "data_source" (columns out)
  /\ In "data_quality_flag" (columns out)
  /\ In "last_updated" (columns out)
  /\ (In "entity" (columns out) -> In "entity_type" (columns out))
  /\ NoDup (columns out)
  /\ frame_wf out.
Proof.
  intros Hwf Hclean.
  pose proof (clean_dataset_wf key today df out Hwf Hclean) as Hout.
  apply clean_dataset_Some in Hclean as [-> Hdistinct].
  assert (E : columns (classify_entities (tagged key today df))
    = (let labels :=
         with_label "last_updated"
           (with_label "data_quality_flag"
              (with_label "data_source" (map normalize_column (columns df)))) in
       if existsb (String.eqb "entity") labels
       then with_label "entity_type" labels else labels)).
  { rewrite columns_classify_with_label, columns_tagged. reflexivity. }
  split; [exact E|]. rewrite E in Hdistinct |- *. cbv zeta in Hdistinct |- *.
  set (labels := with_label "last_updated" _) in *.
  assert (Hin : forall name,
            In name labels <->
            In name (map normalize_column (columns df))
            \/ name = "data_source" \/ name = "data_quality_flag"
            \/ name = "last_updated").
  { intros name. unfold labels. rewrite !In_with_label. tauto. }
  assert (Hall : forall name, In name labels ->
            In name (if existsb (String.eqb "entity") labels
                     then with_label "entity_type" labels else labels)).
  { intros name H. destruct (existsb _ labels); [|exact H].
    apply In_with_label. now left. }
  split; [intros name H; apply Hall, Hin; tauto|].
  split; [apply Hall, Hin; tauto|].
  split; [apply Hall, Hin; tauto|].
  split; [apply Hall, Hin; tauto|].
  split; [|split; [exact Hdistinct | exact Hout]].
  destruct (existsb (String.eqb "entity") labels) eqn:Hent.
  - intros _. apply In_with_label. now right.
  - intros H. apply existsb_eqb_In in H. congruence.
Qed.

(** X2.  The stage raises on a dataset exactly when two of its labels are
    normalised to the same label. *)
Theorem clean_fails_on_label_clash
    (rt : PyRuntime) (key : string) (today : Z) (df : frame) :
  clean_dataset key today df = None
  <-> ~ NoDup (map normalize_column (columns df)).
Proof.
  unfold clean_dataset, to_parquet.
  rewrite columns_classify_with_label, columns_tagged.
  set (labels := with_label "last_updated" _).
  assert (E : NoDup (if existsb (String.eqb "entity") labels
                     then with_label "entity_type" labels else labels)
              <-> NoDup (map normalize_column (columns df))).
  { destruct (existsb _ labels); unfold labels; now rewrite !NoDup_with_label. }
  destruct (decide _) as [H|H]; split; try discriminate; tauto.
Qed.

Section CleanRows.

Context {rt : PyRuntime}.

Lemma column_holds_set_same (name : string) (g : row -> cell) (f : frame)
    (P : option cell -> Prop) :
  frame_wf f -> (forall r, P (Some (g r))) ->
  column_holds (set_column name g f) name P.
Proof.
  intros Hwf HP r' Hr'. apply in_rows_set_column in Hr' as (r & Hr & ->).
  rewrite cell_of_set_same by now apply frame_wf_row. apply HP.
Qed.

Lemma column_holds_set_other (name col : string) (g : row -> cell) (f : frame)
    (P : option cell -> Prop) :
  frame_wf f -> col <> name ->
  column_holds f col P -> column_holds (set_column name g f) col P.
Proof.
  intros Hwf Hne H r' Hr'. apply in_rows_set_column in Hr' as (r & Hr & ->).
  rewrite cell_of_set_other by (assumption || now apply frame_wf_row).
  now apply H.
Qed.

Lemma column_holds_classify (col : string) (f : frame) (P : option cell -> Prop) :
  frame_wf f -> col <> "entity_type" ->
  column_holds f col P -> column_holds (classify_entities f) col P.
Proof.
  intros Hwf Hne H. unfold classify_entities.
  destruct (has_column "entity" f); [|exact H].
  now apply column_holds_set_other.
Qed.

(** A present column has a cell in every row of a well-formed frame. *)
Lemma cell_of_present (name : string) (f : frame) (r : row) :
  frame_wf f -> In r (rows f) -> has_column name f = true ->
  exists c, cell_of f name r = Some c.
Proof.
  intros Hwf Hr Hc. apply has_column_index in Hc as [i Hi].
  unfold cell_of. rewrite Hi.
  destruct (r !! i) as [c|] eqn:E; [eauto|].
  apply lookup_ge_None in E. apply index_of_lt in Hi.
  rewrite (frame_wf_row f r Hwf Hr) in E. lia.
Qed.

Lemma cell_of_absent (name : string) (f : frame) (r : row) :
  has_column name f = false -> cell_of f name r = None.
Proof.
  intros Hc. unfold cell_of.
  destruct (index_of name (columns f)) as [i|] eqn:E; [|reflexivity].
  assert (has_column name f = true) by (apply has_column_index; eauto).
  congruence.
Qed.

(** The rows after [df[name] = df[name].apply(h)], guarded by the presence
    of the column, against the rows before. *)
Lemma guarded_map_column_rows (name : string) (h : cell -> cell) (f : frame) (r' : row) :
  frame_wf f ->
  In r' (rows (if has_column name f then map_column name h f else f)) ->
  exists r, In r (rows f)
    /\ forall col,
         cell_of (if has_column name f then map_column name h f else f) col r'
         = if String.eqb col name then option_map h (cell_of f col r)
           else cell_of f col r.
Proof.
  intros Hwf Hr'. destruct (has_column name f) eqn:Hc.
  - unfold map_column in *. apply in_rows_set_column in Hr' as (r & Hr & ->).
    exists r. split; [exact Hr|]. intros col.
    destruct (String.eqb col name) eqn:E.
    + apply String.eqb_eq in E. subst col.
      rewrite cell_of_set_same by now apply frame_wf_row.
      destruct (cell_of_present name f r Hwf Hr Hc) as [c ->]. reflexivity.
    + apply String.eqb_neq in E.
      apply cell_of_set_other; [exact E | now apply frame_wf_row].
  - exists r'. split; [exact Hr'|]. intros col.
    destruct (String.eqb col name) eqn:E; [|reflexivity].
    apply String.eqb_eq in E. subst col.
    now rewrite cell_of_absent.
Qed.

Lemma handle_missing_codes_guarded (df : frame) :
  handle_missing_codes df
  = if has_column "code" df then map_column "code" blank_to_missing df else df.
Proof. reflexivity. Qed.

Lemma validate_years_rows (f : frame) (r' : row) :
  frame_wf f -> In r' (rows (validate_years f)) ->
  exists r, In r (rows f)
    /\ forall col,
         cell_of (validate_years f) col r'
         = if String.eqb col "year" then option_map to_numeric (cell_of f col r)
           else cell_of f col r.
Proof.
  intros Hwf Hr'.
  pose proof (guarded_map_column_rows "year" to_numeric f) as G.
  unfold validate_years in *. destruct (has_column "year" f) eqn:Hc.
  - cbn [rows] in Hr'. apply List.filter_In in Hr' as [Hr' _].
    destruct (G r' Hwf Hr') as (r & Hr & Hcells).
    exists r. split; [exact Hr|].
    intros col. rewrite <- Hcells. reflexivity.
  - exact (G r' Hwf Hr').
Qed.

Lemma classify_entities_rows (f : frame) (r' : row) :
  frame_wf f -> In r' (rows (classify_entities f)) ->
  exists r, In r (rows f)
    /\ forall col, col <> "entity_type" ->
         cell_of (classify_entities f) col r' = cell_of f col r.
Proof.
  intros Hwf Hr'. unfold classify_entities in *.
  destruct (has_column "entity" f); [|eauto].
  apply in_rows_set_column in Hr' as (r & Hr & ->).
  exists r. split; [exact Hr|]. intros col Hne.
  apply cell_of_set_other; [exact Hne | now apply frame_wf_row].
Qed.

Lemma add_metadata_rows (key : string) (today : Z) (f : frame) (r' : row) :
  frame_wf f -> In r' (rows (add_metadata key today f)) ->
  exists r, In r (rows f)
    /\ forall col, col <> "data_source" -> col <> "data_quality_flag" ->
         col <> "last_updated" ->
         cell_of (add_metadata key today f) col r' = cell_of f col r.
Proof.
  intros Hwf Hr'. unfold add_metadata in *.
  apply in_rows_set_column in Hr' as (r2 & Hr2 & ->).
  apply in_rows_set_column in Hr2 as (r1 & Hr1 & ->).
  apply in_rows_set_column in Hr1 as (r & Hr & ->).
  exists r. split; [exact Hr|]. intros col H1 H2 H3.
  pose proof (frame_wf_row f r Hwf Hr) as Hl.
  pose proof (set_row_length "data_source" (fun _ => CStr key) f r Hl) as Hl1.
  pose proof (set_row_length "data_quality_flag" (fun _ => CStr "clean") _ _ Hl1) as Hl2.
  now rewrite !cell_of_set_other by assumption.
Qed.

(** Every row written comes from an input row: under each label that the
    stage does not assign, it holds the input value as the stage cleans
    it. *)
Lemma clean_row_origin (key : string) (today : Z) (df : frame) (r' : row) :
  frame_wf df ->
  In r' (rows (classify_entities (tagged key today df))) ->
  exists r, In r (rows df)
    /\ forall col, ~ In col assigned_labels ->
         cell_of (classify_entities (tagged key today df)) col r'
         = option_map (cleaned_value col) (cell_of (standardize_columns df) col r).
Proof.
  intros Hwf Hr'.
  pose proof (standardize_columns_wf df Hwf) as HwfS.
  pose proof (handle_missing_codes_wf _ HwfS) as HwfH.
  pose proof (deduplicated_wf df Hwf) as HwfD.
  pose proof (validate_years_wf _ HwfD) as HwfV.
  apply classify_entities_rows in Hr' as (r4 & Hr4 & E4); [|now apply tagged_wf].
  unfold tagged in Hr4, E4.
  apply add_metadata_rows in Hr4 as (r3 & Hr3 & E3); [|exact HwfV].
  apply validate_years_rows in Hr3 as (r2 & Hr2 & E2); [|exact HwfD].
  unfold deduplicated, drop_duplicates in Hr2. cbn [rows] in Hr2.
  apply drop_duplicates_from_incl in Hr2.
  rewrite handle_missing_codes_guarded in Hr2.
  apply guarded_map_column_rows in Hr2 as (r & Hr & E1); [|exact HwfS].
  exists r. split; [exact Hr|]. intros col Hcol.
  assert (Hne : col <> "data_source" /\ col <> "data_quality_flag"
                /\ col <> "last_updated" /\ col <> "entity_type").
  { repeat split; intros ->; apply Hcol; simpl; tauto. }
  destruct Hne as (N1 & N2 & N3 & N4).
  unfold tagged. rewrite E4, E3, E2 by assumption.
  change (cell_of (deduplicated df) col r2)
    with (cell_of (handle_missing_codes (standardize_columns df)) col r2).
  rewrite handle_missing_codes_guarded, E1. unfold cleaned_value.
  destruct (String.eqb col "code") eqn:Ec.
  - apply String.eqb_eq in Ec. subst col. cbn [String.eqb Ascii.eqb Bool.eqb].
    reflexivity.
  - destruct (String.eqb col "year"); [reflexivity|].
    now destruct (cell_of (standardize_columns df) col r).
Qed.

End CleanRows.

Lemma blank_to_missing_not_blank (c : cell) : blank_to_missing c <> CStr "".
Proof.
  destruct c as [q|s|d|]; simpl; try discriminate.
  destruct (String.eqb s "") eqn:E; [discriminate|].
  apply String.eqb_neq in E. congruence.
Qed.

(** X3.  Every row written comes from a row of the snapshot: under each
    label the stage does not assign itself it holds the snapshot's value,
    with an empty code made missing and the year coerced to a number; no
    code written is the empty text. *)
Theorem clean_rows_from_input
    (rt : PyRuntime) (key : string) (today : Z) (df out : frame) (r' : row) :
  frame_wf df ->
  clean_dataset key today df = Some out ->
  In r' (rows out) ->
  (exists r, In r (rows df)
     /\ forall col, ~ In col assigned_labels ->
          cell_of out col r'
          = option_map (cleaned_value col) (cell_of (standardize_columns df) col r))
  /\ cell_of out "code" r' <> Some (CStr "").
Proof.
  intros Hwf Hclean Hr'.
  apply clean_dataset_Some in Hclean as [-> _].
  destruct (clean_row_origin key today df r' Hwf Hr') as (r & Hr & E).
  split; [eauto|].
  rewrite E by (simpl; intuition discriminate).
  destruct (cell_of (standardize_columns df) "code" r) as [c|]; [|discriminate].
  simpl. intros [= H]. revert H. apply blank_to_missing_not_blank.
Qed.

(** X4.  Every row written carries the dataset key as [data_source], the
    text [clean] as [data_quality_flag] and the date of the run as
    [last_updated], whatever the snapshot held under these labels. *)
Theorem provenance_values
    (rt : PyRuntime) (key : string) (today : Z) (df out : frame) (r : row) :
  frame_wf df ->
  clean_dataset key today df = Some out ->
  In r (rows out) ->
  cell_of out "data_source" r = Some (CStr key)
  /\ cell_of out "data_quality_flag" r = Some (CStr "clean")
  /\ cell_of out "last_updated" r = Some (CDate today).
Proof.
  intros Hwf Hclean Hr.
  apply clean_dataset_Some in Hclean as [-> _].
  pose proof (validate_years_wf _ (deduplicated_wf df Hwf)) as HwfV.
  set (V := validate_years (deduplicated df)) in *.
  pose proof (set_column_wf "data_source" (fun _ => CStr key) V HwfV) as Hwf1.
  pose proof (set_column_wf "data_quality_flag" (fun _ => CStr "clean") _ Hwf1) as Hwf2.
  assert (H1 : column_holds (classify_entities (tagged key today df)) "data_source"
                 (fun oc => oc = Some (CStr key))).
  { apply column_holds_classify; [now apply tagged_wf | discriminate |].
    unfold tagged, add_metadata. fold V.
    do 2 (apply column_holds_set_other; [assumption | discriminate |]).
    now apply column_holds_set_same. }
  assert (H2 : column_holds (classify_entities (tagged key today df)) "data_quality_flag"
                 (fun oc => oc = Some (CStr "clean"))).
  { apply column_holds_classify; [now apply tagged_wf | discriminate |].
    unfold tagged, add_metadata. fold V.
    apply column_holds_set_other; [assumption | discriminate |].
    now apply column_holds_set_same. }
  assert (H3 : column_holds (classify_entities (tagged key today df)) "last_updated"
                 (fun oc => oc = Some (CDate today))).
  { apply column_holds_classify; [now apply tagged_wf | discriminate |].
    unfold tagged, add_metadata. fold V.
    now apply column_holds_set_same. }
  split; [exact (H1 r Hr) | split; [exact (H2 r Hr) | exact (H3 r Hr)]].
Qed.

Section RowCount.

Context {rt : PyRuntime}.

Lemma length_drop_duplicates_from (seen rs : list row) :
  (length (drop_duplicates_from seen rs) <= length rs)%nat.
Proof.
  revert seen. induction rs as [|r rs IH]; intros seen; simpl; [lia|].
  destruct (existsb (row_eqb r) seen).
  - specialize (IH seen). lia.
  - specialize (IH (r :: seen)). simpl. lia.
Qed.

Lemma length_rows_handle_missing_codes (f : frame) :
  length (rows (handle_missing_codes f)) = length (rows f).
Proof.
  unfold handle_missing_codes. destruct (has_column "code" f); [|reflexivity].
  apply length_rows_set_column.
Qed.

Lemma length_rows_deduplicated (df : frame) :
  (length (rows (deduplicated df)) <= length (rows df))%nat.
Proof.
  unfold deduplicated, drop_duplicates. cbn [rows].
  etransitivity; [apply length_drop_duplicates_from|].
  now rewrite length_rows_handle_missing_codes.
Qed.

Lemma length_rows_validate_years (f : frame) :
  (length (rows (validate_years f)) <= length (rows f))%nat
  /\ (has_column "year" f = false -> rows (validate_years f) = rows f).
Proof.
  unfold validate_years. destruct (has_column "year" f); [|auto].
  split; [|discriminate]. cbn [rows].
  etransitivity; [apply List.filter_length_le|].
  unfold map_column. now rewrite length_rows_set_column.
Qed.

Lemma length_rows_tagged (key : string) (today : Z) (df : frame) :
  length (rows (tagged key today df))
  = length (rows (validate_years (deduplicated df))).
Proof. unfold tagged, add_metadata. now rewrite !length_rows_set_column. Qed.

(** A frame whose rows are distinct loses none to [drop_duplicates]. *)
Lemma drop_duplicates_from_distinct_id (seen rs : list row) :
  distinct_rows rs = true ->
  (forall r s, In r rs -> In s seen -> row_eqb r s = false) ->
  drop_duplicates_from seen rs = rs.
Proof.
  revert seen. induction rs as [|r rs IH]; intros seen Hd Hs; [reflexivity|].
  simpl in Hd. apply andb_prop in Hd as [H1 H2]. apply negb_true_iff in H1.
  simpl. rewrite existsb_row_false by (intros y Hy; apply Hs; [now left | exact Hy]).
  f_equal. apply IH; [exact H2|].
  intros x s Hx [<-|Hin].
  - rewrite row_eqb_sym. eapply existsb_false_In; eauto.
  - apply Hs; [now right | exact Hin].
Qed.

End RowCount.

(** X5.  The stage never adds a row: it writes at most as many rows as the
    snapshot has; without a [year] label it writes as many as are left after
    the duplicates are dropped, and all of them when, besides, no two rows
    of the snapshot are equal once the empty codes are made missing. *)
Theorem clean_never_adds_rows
    (rt : PyRuntime) (key : string) (today : Z) (df out : frame) :
  clean_dataset key today df = Some out ->
  (length (rows out) <= length (rows df))%nat
  /\ (~ In "year" (map normalize_column (columns df)) ->
      length (rows out) = length (rows (deduplicated df))
      /\ (distinct_rows (rows (handle_missing_codes (standardize_columns df))) = true ->
          length (rows out) = length (rows df))).
Proof.
  intros Hclean. apply clean_dataset_Some in Hclean as [-> _].
  rewrite length_rows_classify_entities, length_rows_tagged.
  destruct (length_rows_validate_years (deduplicated df)) as [Hle Hno].
  split; [pose proof (length_rows_deduplicated df); lia|].
  intros Hyear.
  assert (Hc : has_column "year" (deduplicated df) = false).
  { apply not_true_is_false. rewrite has_column_In, columns_deduplicated.
    exact Hyear. }
  rewrite (Hno Hc). split; [reflexivity|]. intros Hd.
  unfold deduplicated, drop_duplicates. cbn [rows].
  rewrite drop_duplicates_from_distinct_id by (exact Hd || (intros r s _ [])).
  now rewrite length_rows_handle_missing_codes.
Qed.

Section KeptRows.

Context {rt : PyRuntime}.

Lemma cell_eqb_refl (a : cell) : cell_eqb a a = true.
Proof.
  destruct a; simpl; auto using Qeq_bool_refl, String.eqb_refl, Z.eqb_refl.
Qed.

Lemma row_eqb_refl (r : row) : row_eqb r r = true.
Proof. induction r as [|a r IH]; simpl; [reflexivity | now rewrite cell_eqb_refl]. Qed.

Lemma same_value_refl (a : option cell) : same_value a a = true.
Proof. destruct a; simpl; [apply cell_eqb_refl | reflexivity]. Qed.

(** Every row has an equal row among those [drop_duplicates] keeps. *)
Lemma drop_duplicates_from_represents (seen rs : list row) (r : row) :
  In r rs ->
  (exists s, In s seen /\ row_eqb r s = true)
  \/ (exists r', In r' (drop_duplicates_from seen rs) /\ row_eqb r r' = true).
Proof.
  revert seen. induction rs as [|x rs IH]; intros seen; [intros []|].
  simpl. destruct (existsb (row_eqb x) seen) eqn:E.
  - intros [<-|Hr].
    + left. apply existsb_exists in E as (s & Hs & E). eauto.
    + exact (IH seen Hr).
  - intros [<-|Hr].
    + right. exists x. split; [now left | apply row_eqb_refl].
    + destruct (IH (x :: seen) Hr) as [(s & [<-|Hs] & Es)|(r' & Hr' & Er)].
      * right. exists x. split; [now left | exact Es].
      * left. eauto.
      * right. exists r'. split; [now right | exact Er].
Qed.

Lemma row_eqb_lookup (r s : row) (i : nat) :
  row_eqb r s = true -> same_value (r !! i) (s !! i) = true.
Proof.
  revert s i. induction r as [|a r IH]; intros [|b s] i; simpl; try discriminate.
  - reflexivity.
  - intros H. apply andb_prop in H as [H1 H2].
    destruct i as [|i]; simpl; [exact H1 | now apply IH].
Qed.

Lemma row_eqb_cell_of (f : frame) (col : string) (r s : row) :
  row_eqb r s = true -> same_value (cell_of f col r) (cell_of f col s) = true.
Proof.
  intros H. unfold cell_of. destruct (index_of col (columns f)); [|reflexivity].
  now apply row_eqb_lookup.
Qed.

Lemma to_numeric_eqb (a b : cell) :
  cell_eqb a b = true -> cell_eqb (to_numeric a) (to_numeric b) = true.
Proof.
  destruct a, b; simpl; try discriminate; auto.
  intros H. apply String.eqb_eq in H. subst. apply cell_eqb_refl.
Qed.

Lemma year_in_range_eqb (a b : cell) :
  cell_eqb a b = true -> year_in_range a = year_in_range b.
Proof.
  destruct a as [p| | |], b as [q| | |]; simpl; try discriminate; auto.
  intros H. apply Qeq_bool_eq in H. now rewrite H.
Qed.

Lemma same_value_default (a b : option cell) :
  same_value a b = true -> cell_eqb (default CNull a) (default CNull b) = true.
Proof. destruct a, b; simpl; auto; discriminate. Qed.

Lemma same_value_map (h : cell -> cell) (a b : option cell) :
  (forall x y, cell_eqb x y = true -> cell_eqb (h x) (h y) = true) ->
  same_value a b = true -> same_value (option_map h a) (option_map h b) = true.
Proof. intros Hh. destruct a, b; simpl; auto. Qed.

(** The row [set_column] builds from a row of the frame is a row of the
    result. *)
Lemma set_row_in (name : string) (g : row -> cell) (f : frame) (r : row) :
  In r (rows f) -> In (set_row name g f r) (rows (set_column name g f)).
Proof. intros H. apply in_rows_set_column. eauto. Qed.

Lemma guarded_map_column_image (name : string) (h : cell -> cell) (f : frame) (r : row) :
  frame_wf f -> In r (rows f) ->
  exists r', In r' (rows (if has_column name f then map_column name h f else f))
    /\ forall col,
         cell_of (if has_column name f then map_column name h f else f) col r'
         = if String.eqb col name then option_map h (cell_of f col r)
           else cell_of f col r.
Proof.
  intros Hwf Hr. destruct (has_column name f) eqn:Hc.
  - exists (set_row name (fun r => h (default CNull (cell_of f name r))) f r).
    split; [now apply set_row_in|]. intros col. unfold map_column.
    destruct (String.eqb col name) eqn:E.
    + apply String.eqb_eq in E. subst col.
      rewrite cell_of_set_same by now apply frame_wf_row.
      destruct (cell_of_present name f r Hwf Hr Hc) as [c ->]. reflexivity.
    + apply String.eqb_neq in E.
      apply cell_of_set_other; [exact E | now apply frame_wf_row].
  - exists r. split; [exact Hr|]. intros col.
    destruct (String.eqb col name) eqn:E; [|reflexivity].
    apply String.eqb_eq in E. subst col. now rewrite cell_of_absent.
Qed.

Lemma validate_years_image (f : frame) (r : row) :
  frame_wf f -> In r (rows f) ->
  (has_column "year" f = true -> year_in_range (coerced_year f r) = true) ->
  exists r', In r' (rows (validate_years f))
    /\ forall col,
         cell_of (validate_years f) col r'
         = if String.eqb col "year" then option_map to_numeric (cell_of f col r)
           else cell_of f col r.
Proof.
  intros Hwf Hr Hy.
  destruct (guarded_map_column_image "year" to_numeric f r Hwf Hr) as (r' & Hr' & E).
  unfold validate_years. destruct (has_column "year" f) eqn:Hc; [|eauto].
  exists r'. split.
  - cbn [rows]. apply List.filter_In. split; [exact Hr'|].
    rewrite (E "year"), String.eqb_refl.
    destruct (cell_of_present "year" f r Hwf Hr Hc) as [c Ec].
    specialize (Hy eq_refl). unfold coerced_year in Hy. rewrite Ec in *. exact Hy.
  - intros col. rewrite <- E. reflexivity.
Qed.

Lemma add_metadata_image (key : string) (today : Z) (f : frame) (r : row) :
  frame_wf f -> In r (rows f) ->
  exists r', In r' (rows (add_metadata key today f))
    /\ forall col, col <> "data_source" -> col <> "data_quality_flag" ->
         col <> "last_updated" ->
         cell_of (add_metadata key today f) col r' = cell_of f col r.
Proof.
  intros Hwf Hr. unfold add_metadata.
  pose proof (frame_wf_row f r Hwf Hr) as Hl.
  pose proof (set_row_length "data_source" (fun _ => CStr key) f r Hl) as Hl1.
  pose proof (set_row_length "data_quality_flag" (fun _ => CStr "clean") _ _ Hl1) as Hl2.
  eexists. split; [do 3 apply set_row_in; exact Hr|].
  intros col H1 H2 H3. now rewrite !cell_of_set_other by assumption.
Qed.

Lemma classify_entities_image (f : frame) (r : row) :
  frame_wf f -> In r (rows f) ->
  exists r', In r' (rows (classify_entities f))
    /\ forall col, col <> "entity_type" ->
         cell_of (classify_entities f) col r' = cell_of f col r.
Proof.
  intros Hwf Hr. unfold classify_entities.
  destruct (has_column "entity" f); [|eauto].
  eexists. split; [apply set_row_in; exact Hr|].
  intros col Hne. apply cell_of_set_other; [exact Hne | now apply frame_wf_row].
Qed.

End KeptRows.

(** X24.  The stage loses no row but duplicates and years out of range:
    every row of the snapshot whose coerced year lies in [1750, 2025] (every
    row, when there is no [year] label) has a row in the frame written that
    holds, under each label the stage does not assign itself, an equal value
    (the snapshot's, with an empty code made missing and the year
    coerced). *)
Theorem clean_keeps_rows
    (rt : PyRuntime) (key : string) (today : Z) (df out : frame) (r : row) :
  frame_wf df ->
  clean_dataset key today df = Some out ->
  In r (rows df) ->
  (In "year" (map normalize_column (columns df)) ->
   year_in_range (coerced_year (standardize_columns df) r) = true) ->
  exists r', In r' (rows out)
    /\ forall col, ~ In col assigned_labels ->
         same_value
           (option_map (cleaned_value col) (cell_of (standardize_columns df) col r))
           (cell_of out col r') = true.
Proof.
  intros Hwf Hclean Hr Hyear.
  apply clean_dataset_Some in Hclean as [-> _].
  pose proof (standardize_columns_wf df Hwf) as HwfS.
  pose proof (deduplicated_wf df Hwf) as HwfD.
  pose proof (validate_years_wf _ HwfD) as HwfV.
  set (S0 := standardize_columns df) in *.
  destruct (guarded_map_column_image "code" blank_to_missing S0 r HwfS Hr)
    as (r1 & Hr1 & E1).
  rewrite <- handle_missing_codes_guarded in Hr1, E1.
  destruct (drop_duplicates_from_represents [] _ r1 Hr1)
    as [(s & [] & _)|(r2 & Hr2 & Eq)].
  change (In r2 (rows (deduplicated df))) in Hr2.
  assert (Hsame : forall col,
            same_value (cell_of (handle_missing_codes S0) col r1)
                       (cell_of (deduplicated df) col r2) = true).
  { intros col. change (cell_of (deduplicated df) col r2)
      with (cell_of (handle_missing_codes S0) col r2).
    now apply row_eqb_cell_of. }
  destruct (validate_years_image (deduplicated df) r2 HwfD Hr2) as (r3 & Hr3 & E3).
  { intros Hc. apply has_column_In in Hc. rewrite columns_deduplicated in Hc.
    specialize (Hyear Hc). unfold coerced_year in *.
    etransitivity; [|exact Hyear].
    symmetry. apply year_in_range_eqb, to_numeric_eqb.
    apply same_value_default. specialize (Hsame "year").
    rewrite (E1 "year") in Hsame.
    change (String.eqb "year" "code") with false in Hsame. exact Hsame. }
  destruct (add_metadata_image key today _ r3 HwfV Hr3) as (r4 & Hr4 & E4).
  destruct (classify_entities_image (tagged key today df) r4) as (r' & Hr' & E5);
    [now apply tagged_wf | exact Hr4 |].
  exists r'. split; [exact Hr'|]. intros col Hcol.
  assert (Hne : col <> "data_source" /\ col <> "data_quality_flag"
                /\ col <> "last_updated" /\ col <> "entity_type").
  { repeat split; intros ->; apply Hcol; simpl; tauto. }
  destruct Hne as (N1 & N2 & N3 & N4).
  rewrite E5 by exact N4. unfold tagged. rewrite E4, E3 by assumption.
  specialize (Hsame col). rewrite (E1 col) in Hsame.
  unfold cleaned_value.
  destruct (String.eqb col "code") eqn:Ec.
  - apply String.eqb_eq in Ec. subst col. exact Hsame.
  - destruct (String.eqb col "year") eqn:Ey.
    + apply (same_value_map to_numeric) in Hsame; [exact Hsame|].
      apply to_numeric_eqb.
    + destruct (cell_of S0 col r); exact Hsame.
Qed.

(* ===================================================================== *)
(** ** The stages as loops over the dataset keys *)
(* ===================================================================== *)

Section Paths.

Lemma append_inv_tail (s t u : string) :
  String.append s u = String.append t u -> s = t.
Proof.
  intros H. apply (f_equal list_ascii_of_string) in H.
  rewrite !PyStrFacts.chars_append in H. apply app_inv_tail in H.
  apply (f_equal string_of_list_ascii) in H.
  now rewrite !string_of_list_ascii_of_string in H.
Qed.

Lemma append_inv_head (s t u : string) :
  String.append u s = String.append u t -> s = t.
Proof.
  induction u as [|c u IH]; [auto|].
  rewrite !PyStrFacts.append_cons. intros [= H]. auto.
Qed.

Lemma cleaned_parquet_path_inj (k k' : string) :
  cleaned_parquet_path k = cleaned_parquet_path k' -> k = k'.
Proof.
  unfold cleaned_parquet_path. intros H.
  apply append_inv_head in H. now apply append_inv_tail in H.
Qed.

Lemma table_name_inj (k k' : string) :
  String.append "cleaned_" k = String.append "cleaned_" k' -> k = k'.
Proof. apply append_inv_head. Qed.

End Paths.

Section CleanStage.

Context {rt : PyRuntime}.

Lemma clean_and_transform_data_cons (today : string -> Z) (key : string)
    (rest : list string) (files files' : gmap string frame)
    (entries : list cleaning_entry) :
  clean_and_transform_data today (key :: rest) files = Some (files', entries) ->
  exists files1 entry entries',
    clean_step (today key) key files = Some (files1, entry)
    /\ clean_and_transform_data today rest files1 = Some (files', entries')
    /\ entries = entry :: entries'.
Proof.
  cbn [clean_and_transform_data].
  destruct (clean_step (today key) key files) as [[files1 entry]|] eqn:E1;
    [|discriminate].
  cbn. destruct (clean_and_transform_data today rest files1) as [[files2 entries']|]
    eqn:E2; [|discriminate].
  cbn. intros [= <- <-]. exists files1, entry, entries'. auto.
Qed.

Lemma clean_step_Some (today : Z) (key : string) (files files1 : gmap string frame)
    (entry : cleaning_entry) :
  clean_step today key files = Some (files1, entry) ->
  exists df out,
    files !! parquet_path key = Some df
    /\ clean_dataset key today df = Some out
    /\ files1 = <[cleaned_parquet_path key := out]> files
    /\ entry = CleaningEntry key (length (rows df)) (length (rows out))
                 (Z.of_nat (length (rows df)) - Z.of_nat (length (rows out))).
Proof.
  unfold clean_step.
  destruct (files !! parquet_path key) as [df|] eqn:Hf; [|discriminate]. cbn.
  destruct (clean_dataset key today df) as [out|] eqn:Hc; [|discriminate]. cbn.
  intros [= <- <-]. exists df, out. auto.
Qed.

End CleanStage.

Section CleanStageFacts.

Context {rt : PyRuntime}.

Lemma length_rows_clean_dataset (key : string) (today : Z) (df out : frame) :
  clean_dataset key today df = Some out ->
  (length (rows out) <= length (rows df))%nat.
Proof.
  intros H. apply clean_dataset_Some in H as [-> _].
  rewrite length_rows_classify_entities, length_rows_tagged.
  pose proof (proj1 (length_rows_validate_years (deduplicated df))).
  pose proof (length_rows_deduplicated df). lia.
Qed.

Lemma clean_dataset_is_Some (key : string) (today : Z) (df : frame) :
  NoDup (map normalize_column (columns df)) <->
  exists out, clean_dataset key today df = Some out.
Proof.
  unfold clean_dataset, to_parquet.
  rewrite columns_classify_with_label, columns_tagged.
  set (labels := with_label "last_updated" _).
  assert (E : NoDup (if existsb (String.eqb "entity") labels
                     then with_label "entity_type" labels else labels)
              <-> NoDup (map normalize_column (columns df))).
  { destruct (existsb _ labels); unfold labels; now rewrite !NoDup_with_label. }
  destruct (decide _) as [H|H]; split.
  - eauto.
  - intros _. now apply E.
  - intros Hn. exfalso. now apply H, E.
  - intros [out Ho]. discriminate Ho.
Qed.

(** The stage leaves every file alone but the cleaned snapshots it writes. *)
Lemma clean_stage_frame (today : string -> Z) (keys : list string)
    (files files' : gmap string frame) (entries : list cleaning_entry) (path : string) :
  clean_and_transform_data today keys files = Some (files', entries) ->
  (forall k, In k keys -> path <> cleaned_parquet_path k) ->
  files' !! path = files !! path.
Proof.
  revert files entries. induction keys as [|k rest IH]; intros files entries H Hp.
  - cbn in H. now injection H as <- <-.
  - apply clean_and_transform_data_cons in H
      as (files1 & entry & entries' & H1 & H2 & ->).
    apply clean_step_Some in H1 as (df & out & _ & _ & -> & _).
    rewrite (IH _ _ H2) by (intros k' Hk'; apply Hp; now right).
    apply lookup_insert_ne. intros E. apply (Hp k); [now left | now symmetry].
Qed.

End CleanStageFacts.

(** X6.  When the clean stage completes, its summary has one entry per
    dataset key, in order, each with [removed_rows] the non-negative
    difference of the two counts; every key has a cleaned snapshot, written
    by the stage; and no other file has changed. *)
Theorem clean_stage_files
    (rt : PyRuntime) (today : string -> Z) (keys : list string)
    (files files' : gmap string frame) (entries : list cleaning_entry) :
  clean_and_transform_data today keys files = Some (files', entries) ->
  map cleaning_dataset entries = keys
  /\ List.Forall
       (fun e => removed_rows e = (Z.of_nat (original_rows e) - Z.of_nat (cleaned_rows e))%Z
                 /\ (0 <= removed_rows e)%Z)
       entries
  /\ (forall k, In k keys ->
        exists df out, clean_dataset k (today k) df = Some out
                       /\ files' !! cleaned_parquet_path k = Some out)
  /\ (forall path, (forall k, In k keys -> path <> cleaned_parquet_path k) ->
        files' !! path = files !! path).
Proof.
  intros H. split; [|split; [|split]].
  - revert files entries H. induction keys as [|k rest IH]; intros files entries H.
    + cbn in H. now injection H as <- <-.
    + apply clean_and_transform_data_cons in H
        as (files1 & entry & entries' & H1 & H2 & ->).
      apply clean_step_Some in H1 as (df & out & _ & _ & _ & ->).
      cbn. f_equal. eapply IH, H2.
  - revert files entries H. induction keys as [|k rest IH]; intros files entries H.
    + cbn in H. injection H as <- <-. constructor.
    + apply clean_and_transform_data_cons in H
        as (files1 & entry & entries' & H1 & H2 & ->).
      apply clean_step_Some in H1 as (df & out & _ & Hc & _ & ->).
      constructor; [|eapply IH, H2].
      cbn. split; [reflexivity|].
      apply length_rows_clean_dataset in Hc. lia.
  - revert files entries H. induction keys as [|k rest IH]; intros files entries H k0 Hk0.
    + destruct Hk0.
    + apply clean_and_transform_data_cons in H
        as (files1 & entry & entries' & H1 & H2 & ->).
      destruct (in_dec string_dec k0 rest) as [Hin|Hnin].
      * exact (IH _ _ H2 k0 Hin).
      * destruct Hk0 as [->|Hin]; [|contradiction].
        apply clean_step_Some in H1 as (df & out & _ & Hc & -> & _).
        exists df, out. split; [exact Hc|].
        rewrite (clean_stage_frame _ _ _ _ _ _ H2).
        -- apply lookup_insert_eq.
        -- intros k' Hk' E. apply cleaned_parquet_path_inj in E. now subst.
  - intros path Hp. eapply clean_stage_frame; eauto.
Qed.

Section CleanStagePerDataset.

Context {rt : PyRuntime}.

Lemma clean_stage_total (today : string -> Z) (keys : list string)
    (files0 files : gmap string frame) :
  (forall k, In k keys -> files !! parquet_path k = files0 !! parquet_path k) ->
  (forall k k', In k keys -> In k' keys -> parquet_path k <> cleaned_parquet_path k') ->
  (forall k, In k keys ->
     exists df, files0 !! parquet_path k = Some df
                /\ NoDup (map normalize_column (columns df))) ->
  exists result, clean_and_transform_data today keys files = Some result.
Proof.
  revert files. induction keys as [|k rest IH]; intros files Hag Hnc Hall.
  - cbn. eauto.
  - destruct (Hall k) as (df & Hdf & Hnd); [now left|].
    apply (clean_dataset_is_Some k (today k)) in Hnd as [out Hout].
    cbn [clean_and_transform_data]. unfold clean_step.
    rewrite (Hag k) by now left. rewrite Hdf. cbn. rewrite Hout. cbn.
    destruct (IH (<[cleaned_parquet_path k := out]> files)) as [[files2 entries] ->].
    + intros k' Hk'. rewrite lookup_insert_ne.
      * apply Hag. now right.
      * intros E. apply (Hnc k' k); [now right | now left | now symmetry].
    + intros a b Ha Hb. apply Hnc; now right.
    + intros k' Hk'. apply Hall. now right.
    + cbn. eauto.
Qed.

Lemma clean_stage_results (today : string -> Z) (keys : list string)
    (files0 files files' : gmap string frame) (entries : list cleaning_entry) :
  (forall k, In k keys -> files !! parquet_path k = files0 !! parquet_path k) ->
  (forall k k', In k keys -> In k' keys -> parquet_path k <> cleaned_parquet_path k') ->
  clean_and_transform_data today keys files = Some (files', entries) ->
  List.Forall2 (fun k e => exists out, cleaned_as today files0 k e out) keys entries
  /\ forall k, In k keys ->
       exists e out, cleaned_as today files0 k e out
                     /\ files' !! cleaned_parquet_path k = Some out.
Proof.
  revert files entries. induction keys as [|k rest IH]; intros files entries Hag Hnc H.
  - cbn in H. injection H as <- <-. split; [constructor | intros k []].
  - apply clean_and_transform_data_cons in H
      as (files1 & entry & entries' & H1 & H2 & ->).
    apply clean_step_Some in H1 as (df & out & Hdf & Hc & -> & ->).
    rewrite (Hag k) in Hdf by now left.
    destruct (IH (<[cleaned_parquet_path k := out]> files) entries') as [IH1 IH2].
    + intros k' Hk'. rewrite lookup_insert_ne.
      * apply Hag. now right.
      * intros E. apply (Hnc k' k); [now right | now left | now symmetry].
    + intros a b Ha Hb. apply Hnc; now right.
    + exact H2.
    + assert (Hk : cleaned_as today files0 k
                     (CleaningEntry k (length (rows df)) (length (rows out))
                        (Z.of_nat (length (rows df)) - Z.of_nat (length (rows out))))
                     out)
        by (exists df; auto).
      split; [constructor; [eauto | exact IH1]|].
      intros k0 Hk0. destruct (in_dec string_dec k0 rest) as [Hin|Hnin].
      * exact (IH2 k0 Hin).
      * destruct Hk0 as [->|Hin]; [|contradiction].
        eexists _, out. split; [exact Hk|].
        rewrite (clean_stage_frame _ _ _ _ _ _ H2).
        -- apply lookup_insert_eq.
        -- intros k' Hk' E. apply cleaned_parquet_path_inj in E. now subst.
Qed.

End CleanStagePerDataset.

(** X7.  For dataset keys none of whose snapshot paths is the cleaned path
    of another, the clean stage completes exactly when every key has a
    snapshot whose labels stay distinct under normalisation; it then writes
    for every key the cleaned form of the snapshot that was there at the
    start, and reports its row counts. *)
Theorem clean_stage_per_dataset
    (rt : PyRuntime) (today : string -> Z) (keys : list string)
    (files : gmap string frame) :
  (forall k k', In k keys -> In k' keys -> parquet_path k <> cleaned_parquet_path k') ->
  ((exists result, clean_and_transform_data today keys files = Some result)
   <-> forall k, In k keys ->
         exists df, files !! parquet_path k = Some df
                    /\ NoDup (map normalize_column (columns df)))
  /\ forall files' entries,
       clean_and_transform_data today keys files = Some (files', entries) ->
       List.Forall2 (fun k e => exists out, cleaned_as today files k e out) keys entries
       /\ forall k, In k keys ->
            exists e out, cleaned_as today files k e out
                          /\ files' !! cleaned_parquet_path k = Some out.
Proof.
  intros Hnc. split; [split|].
  - intros [[files' entries] H] k Hk.
    destruct (clean_stage_results today keys files files files' entries
                (fun _ _ => eq_refl) Hnc H) as [_ Hall].
    destruct (Hall k Hk) as (e & out & (df & Hdf & Hc & _) & _).
    exists df. split; [exact Hdf|].
    apply (clean_dataset_is_Some k (today k)). eauto.
  - apply clean_stage_total; auto.
  - intros files' entries H.
    exact (clean_stage_results today keys files files files' entries
             (fun _ _ => eq_refl) Hnc H).
Qed.

Section LoadStage.

Context {pg : Postgres}.

Lemma tail_zip_with (c : nat -> cell) (ids : list nat) (rs : list row) :
  length ids = length rs ->
  map (drop 1) (zip_with (fun i r => c i :: r) ids rs) = rs.
Proof.
  revert rs. induction ids as [|i ids IH]; intros [|r rs]; simpl;
    try reflexivity; try discriminate.
  intros [= Hl]. rewrite drop_0. now rewrite IH.
Qed.

Lemma map_zip_with_cons {B : Type} (c : nat -> cell) (f g : row -> B)
    (ids : list nat) (rs : list row) :
  (forall i r, f (c i :: r) = g r) ->
  length ids = length rs ->
  map f (zip_with (fun i r => c i :: r) ids rs) = map g rs.
Proof.
  intros Hfg. revert rs. induction ids as [|i ids IH]; intros [|r rs]; simpl;
    try reflexivity; try discriminate.
  intros [= Hl]. now rewrite Hfg, IH.
Qed.

Lemma in_zip_with_cons (c : nat -> cell) (ids : list nat) (rs : list row) (r' : row) :
  In r' (zip_with (fun i r => c i :: r) ids rs) ->
  exists i r, In r rs /\ r' = c i :: r.
Proof.
  revert rs. induction ids as [|i ids IH]; intros [|r rs]; simpl; try tauto.
  intros [<-|H]; [eauto|].
  destruct (IH rs H) as (j & s & Hs & ->). eauto.
Qed.

Lemma index_of_cons_other (name other : string) (cols : list string) :
  other <> name ->
  index_of other (name :: cols) = option_map S (index_of other cols).
Proof.
  intros Hne. simpl. apply String.eqb_neq in Hne. now rewrite Hne.
Qed.

Lemma load_to_postgres_cons (key : string) (rest : list string)
    (files db db' : gmap string frame) (entries : list load_entry) :
  load_to_postgres (key :: rest) files db = Some (db', entries) ->
  exists db1 entry entries',
    load_step key files db = Some (db1, entry)
    /\ load_to_postgres rest files db1 = Some (db', entries')
    /\ entries = entry :: entries'.
Proof.
  cbn [load_to_postgres].
  destruct (load_step key files db) as [[db1 entry]|] eqn:E1; [|discriminate].
  cbn. destruct (load_to_postgres rest files db1) as [[db2 entries']|] eqn:E2;
    [|discriminate].
  cbn. intros [= <- <-]. exists db1, entry, entries'. auto.
Qed.

Lemma insert_id_is_Some (df : frame) :
  has_column "id" df = false <-> exists table, insert_id df = Some table.
Proof.
  unfold insert_id. destruct (has_column "id" df); split; eauto; try discriminate.
  intros [t Ht]. discriminate Ht.
Qed.

(** The load stage leaves every table alone but those it replaces. *)
Lemma load_stage_frame (keys : list string) (files db db' : gmap string frame)
    (entries : list load_entry) (name : string) :
  load_to_postgres keys files db = Some (db', entries) ->
  (forall k, In k keys -> name <> pg_identifier (String.append "cleaned_" k)) ->
  db' !! name = db !! name.
Proof.
  revert db entries. induction keys as [|k rest IH]; intros db entries H Hp.
  - cbn in H. now injection H as <- <-.
  - apply load_to_postgres_cons in H as (db1 & entry & entries' & H1 & H2 & ->).
    apply load_step_Some in H1 as (df & table & stored & n & _ & _ & _ & -> & _).
    rewrite (IH _ _ H2) by (intros k' Hk'; apply Hp; now right).
    apply lookup_insert_ne. intros E. apply (Hp k); [now left | now symmetry].
Qed.

(** One turn of the loop that goes through. *)
Lemma load_step_loaded (key : string) (files db db' : gmap string frame)
    (entry : load_entry) :
  load_step key files db = Some (db', entry) ->
  exists table,
    loaded_as files key entry table
    /\ db' = <[pg_identifier (String.append "cleaned_" key) := table]> db.
Proof.
  intros H.
  apply load_step_Some in H as (df & table & stored & n & Hf & Hins & Hsql & -> & _ & ->).
  destruct (stored_ids _ df table stored db Hins Hsql) as (Hc & Hids & Hlen).
  destruct (to_sql_labels _ _ _ _ Hsql) as [Hblank Hdistinct].
  assert (Hcols : columns table = "id" :: columns df).
  { unfold insert_id in Hins. destruct (has_column "id" df); [discriminate|].
    now injection Hins as <-. }
  rewrite Hcols in Hblank, Hdistinct.
  exists stored. split; [|reflexivity].
  exists df. split; [exact Hf|]. split.
  { rewrite <- has_column_In. apply not_true_iff_false.
    apply insert_id_is_Some. eauto. }
  split; [intros Hin; apply Hblank; now right|].
  split; [cbn [map] in Hdistinct; now apply NoDup_cons in Hdistinct as [_ ?]|].
  auto 10.
Qed.

End LoadStage.

(** X8.  Giving a frame its [id] column changes nothing else: the labels
    are [id] followed by the frame's, each row is the key followed by the
    row it comes from, every other column keeps its values, and the rows
    still have one cell per label. *)
Theorem insert_id_keeps_data (df table : frame) :
  insert_id df = Some table ->
  columns table = "id" :: columns df
  /\ map (drop 1) (rows table) = rows df
  /\ (forall name, name <> "id" -> column_values table name = column_values df name)
  /\ (frame_wf df -> frame_wf table).
Proof.
  unfold insert_id. destruct (has_column "id" df); [discriminate|].
  intros [= <-]. cbn [columns rows].
  split; [reflexivity|]. split; [apply tail_zip_with, length_seq|].
  split.
  - intros name Hne. unfold column_values, cell_of. cbn [columns rows].
    rewrite index_of_cons_other by exact Hne.
    apply map_zip_with_cons; [|apply length_seq].
    intros i r. destruct (index_of name (columns df)); reflexivity.
  - unfold frame_wf. cbn [columns rows]. rewrite !List.Forall_forall.
    intros Hwf r' Hr'. apply in_zip_with_cons in Hr' as (i & r & Hr & ->).
    cbn. f_equal. now apply Hwf.
Qed.

Section LoadStageFacts.

Context {pg : Postgres}.

Lemma load_stage_results (keys : list string) (files db db' : gmap string frame)
    (entries : list load_entry) :
  load_to_postgres keys files db = Some (db', entries) ->
  List.Forall2 (fun k e => exists table, loaded_as files k e table) keys entries
  /\ forall k, In k keys ->
       (forall k', In k' keys ->
          pg_identifier (String.append "cleaned_" k')
          = pg_identifier (String.append "cleaned_" k) -> k' = k) ->
       exists e table, loaded_as files k e table
                       /\ db' !! pg_identifier (String.append "cleaned_" k) = Some table.
Proof.
  revert db entries. induction keys as [|k rest IH]; intros db entries H.
  - cbn in H. injection H as <- <-. split; [constructor | intros k []].
  - apply load_to_postgres_cons in H as (db1 & entry & entries' & H1 & H2 & ->).
    apply load_step_loaded in H1 as (table & Hk & ->).
    destruct (IH _ _ H2) as [IH1 IH2].
    split; [constructor; [eauto | exact IH1]|].
    intros k0 Hk0 Hsame. destruct (in_dec string_dec k0 rest) as [Hin|Hnin].
    + apply (IH2 k0 Hin). intros k' Hk'. apply Hsame. now right.
    + destruct Hk0 as [->|Hin]; [|contradiction].
      exists entry, table. split; [exact Hk|].
      rewrite (load_stage_frame _ _ _ _ _ _ H2).
      * apply lookup_insert_eq.
      * intros k' Hk' E. apply Hnin.
        rewrite <- (Hsame k'); [exact Hk' | now right | now symmetry].
Qed.

Lemma loaded_of_key (keys : list string) (files : gmap string frame)
    (entries : list load_entry) (k : string) :
  List.Forall2 (fun k e => exists table, loaded_as files k e table) keys entries ->
  In k keys -> exists e table, loaded_as files k e table.
Proof.
  induction 1 as [|k0 e0 ks es [table Ht] _ IH]; [intros []|].
  intros [->|Hk]; [eauto | exact (IH Hk)].
Qed.

End LoadStageFacts.

(** X9.  When the load stage completes, every key had a cleaned snapshot
    with no [id] label and no blank label, whose labels are distinct as
    identifiers; the summary has one [success] entry per key, in order,
    naming the table [cleaned_<key>]; a key whose table identifier no other
    key shares has a table with [id] and the labels of its snapshot as
    identifiers, the keys 1 to n and as many rows as the snapshot; and every
    table under another identifier is as it was. *)
Theorem load_stage_tables
    (pg : Postgres) (keys : list string) (files db db' : gmap string frame)
    (entries : list load_entry) :
  load_to_postgres keys files db = Some (db', entries) ->
  (forall k, In k keys ->
     exists df, files !! cleaned_parquet_path k = Some df
                /\ ~ In "id" (columns df)
                /\ ~ In "" (columns df)
                /\ NoDup (map pg_identifier (columns df)))
  /\ List.Forall2 (fun k e => exists table, loaded_as files k e table) keys entries
  /\ (forall k, In k keys ->
        (forall k', In k' keys ->
           pg_identifier (String.append "cleaned_" k')
           = pg_identifier (String.append "cleaned_" k) -> k' = k) ->
        exists e table,
          loaded_as files k e table
          /\ db' !! pg_identifier (String.append "cleaned_" k) = Some table)
  /\ (forall name,
        (forall k, In k keys -> name <> pg_identifier (String.append "cleaned_" k)) ->
        db' !! name = db !! name).
Proof.
  intros H.
  destruct (load_stage_results keys files db db' entries H) as [H1 H2].
  split; [|split; [exact H1 | split; [exact H2|]]].
  - intros k Hk.
    destruct (loaded_of_key keys files entries k H1 Hk)
      as (e & table & df & Hdf & Hid & Hblank & Hdistinct & _).
    exists df. auto.
  - intros name Hn. eapply load_stage_frame; eauto.
Qed.

Section Pipeline.

Context {rt : PyRuntime} {pg : Postgres}.

Lemma clean_stage_keys (today : string -> Z) (keys : list string)
    (files files' : gmap string frame) (entries : list cleaning_entry) :
  clean_and_transform_data today keys files = Some (files', entries) ->
  map cleaning_dataset entries = keys.
Proof.
  revert files entries. induction keys as [|k rest IH]; intros files entries H.
  - cbn in H. now injection H as <- <-.
  - apply clean_and_transform_data_cons in H
      as (files1 & entry & entries' & H1 & H2 & ->).
    apply clean_step_Some in H1 as (df & out & _ & _ & _ & ->).
    cbn. f_equal. eapply IH, H2.
Qed.

Lemma load_stage_entries (keys : list string) (files db db' : gmap string frame)
    (entries : list load_entry) :
  load_to_postgres keys files db = Some (db', entries) ->
  map load_dataset_key entries = keys
  /\ List.Forall (fun e => status e = "success") entries.
Proof.
  revert db entries. induction keys as [|k rest IH]; intros db entries H.
  - cbn in H. injection H as <- <-. split; [reflexivity | constructor].
  - apply load_to_postgres_cons in H as (db1 & entry & entries' & H1 & H2 & ->).
    apply load_step_Some in H1 as (df & table & stored & n & _ & _ & _ & _ & _ & ->).
    destruct (IH _ _ H2) as [IH1 IH2].
    split; [cbn; now f_equal | now constructor].
Qed.

Lemma filter_all {A : Type} (p : A -> bool) (l : list A) :
  List.Forall (fun x => p x = true) l -> List.filter p l = l.
Proof.
  induction 1 as [|x l Hx _ IH]; [reflexivity|]. simpl. now rewrite Hx, IH.
Qed.

Lemma filter_none {A : Type} (p : A -> bool) (l : list A) :
  List.Forall (fun x => p x = false) l -> List.filter p l = [].
Proof.
  induction 1 as [|x l Hx _ IH]; [reflexivity|]. simpl. now rewrite Hx, IH.
Qed.

(** In a load summary whose entries all succeeded, a dataset that has an
    entry is reported as [success]. *)
Lemma load_status_of_success (load_summary : list load_entry) (dataset : string) :
  List.Forall (fun e => status e = "success") load_summary ->
  In dataset (map load_dataset_key load_summary) ->
  load_status_of load_summary dataset = "success".
Proof.
  intros Hall Hin. unfold load_status_of.
  destruct (List.find _ load_summary) as [l|] eqn:E.
  - apply List.find_some in E as [Hl _].
    rewrite List.Forall_forall in Hall. now apply Hall.
  - apply in_map_iff in Hin as (e & <- & He).
    apply (List.find_none _ _ E) in He. now rewrite String.eqb_refl in He.
Qed.

Lemma dataset_details_statuses (cs : list cleaning_entry) (ls : list load_entry) :
  map snd (dataset_details cs ls)
  = map (fun c => load_status_of ls (cleaning_dataset c)) cs.
Proof.
  unfold dataset_details. generalize 1%nat.
  induction cs as [|c cs IH]; intros n; [reflexivity|].
  cbn. f_equal. apply IH.
Qed.

Lemma dataset_details_datasets (cs : list cleaning_entry) (ls : list load_entry) :
  map (fun d => cleaning_dataset (snd (fst d))) (dataset_details cs ls)
  = map cleaning_dataset cs.
Proof.
  unfold dataset_details. generalize 1%nat.
  induction cs as [|c cs IH]; intros n; [reflexivity|].
  cbn. f_equal. apply IH.
Qed.

Lemma In_columns_cleaned (key : string) (today : Z) (df out : frame) (name : string) :
  clean_dataset key today df = Some out ->
  (In name (map normalize_column (columns df)) -> In name (columns out))
  /\ (In name (columns out) ->
      In name (map normalize_column (columns df)) \/ In name assigned_labels).
Proof.
  intros H. apply clean_dataset_Some in H as [-> _].
  rewrite columns_classify_with_label, columns_tagged.
  set (labels := with_label "last_updated" _).
  assert (Hin : forall n,
            In n labels <->
            In n (map normalize_column (columns df))
            \/ n = "data_source" \/ n = "data_quality_flag" \/ n = "last_updated").
  { intros n. unfold labels. rewrite !In_with_label. tauto. }
  destruct (existsb (String.eqb "entity") labels).
  - rewrite In_with_label, Hin. simpl. intuition.
  - rewrite Hin. simpl. intuition.
Qed.

End Pipeline.

(** X10.  After a run in which the clean and the load stages complete over
    the same keys, the report counts every key as a dataset and as a
    successful load, counts no failed load, and lists every dataset with the
    status [success]. *)
Theorem report_after_complete_run
    (rt : PyRuntime) (pg : Postgres) (context : run_context) (today : string -> Z)
    (keys : list string) (files files' db db' : gmap string frame)
    (cleaning_summary : list cleaning_entry) (load_summary : list load_entry) :
  clean_and_transform_data today keys files = Some (files', cleaning_summary) ->
  load_to_postgres keys files' db = Some (db', load_summary) ->
  total_datasets (generate_report context cleaning_summary load_summary) = length keys
  /\ successful_loads (generate_report context cleaning_summary load_summary)
     = length keys
  /\ failed_loads (generate_report context cleaning_summary load_summary) = 0%nat
  /\ map (fun d => cleaning_dataset (snd (fst d)))
       (dataset_details cleaning_summary load_summary) = keys
  /\ List.Forall (fun d => snd d = "success")
       (dataset_details cleaning_summary load_summary).
Proof.
  intros Hc Hl.
  pose proof (clean_stage_keys today keys files files' cleaning_summary Hc) as Hk.
  destruct (load_stage_entries keys files' db db' load_summary Hl) as [Hlk Hok].
  cbn [generate_report total_datasets successful_loads failed_loads].
  split; [now rewrite <- Hk, length_map|].
  split.
  { rewrite filter_all; [now rewrite <- Hlk, length_map|].
    eapply List.Forall_impl; [|exact Hok]. intros e ->. reflexivity. }
  split.
  { rewrite filter_none; [reflexivity|].
    eapply List.Forall_impl; [|exact Hok]. intros e ->. reflexivity. }
  split.
  { now rewrite dataset_details_datasets. }
  apply List.Forall_forall. intros d Hd.
  assert (Hs : In (snd d) (map snd (dataset_details cleaning_summary load_summary)))
    by now apply in_map.
  rewrite dataset_details_statuses in Hs.
  apply in_map_iff in Hs as (c & <- & Hcin).
  apply load_status_of_success; [exact Hok|].
  rewrite Hlk, <- Hk. now apply in_map.
Qed.

(** X11.  For dataset keys none of whose snapshot paths is the cleaned path
    of another: when cleaning and then loading complete, every key has a
    snapshot whose normalised labels hold no [id] and no blank label, and
    whose cleaned labels are distinct as identifiers; and a key whose table
    identifier no other key shares has a table with [id] and the cleaned
    labels as identifiers (cut to 63 bytes), the keys 1 to n and as many
    rows as its cleaned snapshot. *)
Theorem pipeline_tables
    (rt : PyRuntime) (pg : Postgres) (today : string -> Z) (keys : list string)
    (files files' db db' : gmap string frame)
    (cleaning_summary : list cleaning_entry) (load_summary : list load_entry) :
  (forall k k', In k keys -> In k' keys -> parquet_path k <> cleaned_parquet_path k') ->
  clean_and_transform_data today keys files = Some (files', cleaning_summary) ->
  load_to_postgres keys files' db = Some (db', load_summary) ->
  forall k, In k keys ->
    exists df out,
      files !! parquet_path k = Some df
      /\ clean_dataset k (today k) df = Some out
      /\ ~ In "id" (map normalize_column (columns df))
      /\ ~ In "" (map normalize_column (columns df))
      /\ NoDup (map pg_identifier (columns out))
      /\ ((forall k', In k' keys ->
             pg_identifier (String.append "cleaned_" k')
             = pg_identifier (String.append "cleaned_" k) -> k' = k) ->
          exists table,
            db' !! pg_identifier (String.append "cleaned_" k) = Some table
            /\ columns table = "id" :: map pg_identifier (columns out)
            /\ column_values table "id"
               = map (fun i => Some (num (Z.of_nat i))) (seq 1 (length (rows out)))
            /\ length (rows table) = length (rows out)).
Proof.
  intros Hnc Hc Hl k Hk.
  destruct (clean_stage_results today keys files files files' cleaning_summary
              (fun _ _ => eq_refl) Hnc Hc) as [_ Hcl].
  destruct (load_stage_results keys files' db db' load_summary Hl) as [Hld1 Hld2].
  destruct (Hcl k Hk) as (e & out & (df & Hdf & Hout & _) & Hfile).
  destruct (loaded_of_key keys files' load_summary k Hld1 Hk)
    as (e' & table' & df' & Hdf' & Hid & Hblank & Hdistinct & _).
  assert (df' = out) as -> by congruence.
  exists df, out. split; [exact Hdf|]. split; [exact Hout|].
  split; [intros Hin; apply Hid; now apply (In_columns_cleaned k (today k) df out "id" Hout)|].
  split; [intros Hin; apply Hblank; now apply (In_columns_cleaned k (today k) df out "" Hout)|].
  split; [exact Hdistinct|].
  intros Hsame.
  destruct (Hld2 k Hk Hsame) as (e2 & table & (df2 & Hdf2 & _ & _ & _ & H1 & H2 & H3 & _) & Htab).
  assert (df2 = out) as -> by congruence.
  exists table. auto.
Qed.
(* ===================================================================== *)
(** ** More on the view sets *)
(* ===================================================================== *)

Section QueryFacts.

Lemma qget_app (q1 q2 : query_params) (key : string) :
  qget (q1 ++ q2) key
  = match qget q2 key with
    | Some v => Some v
    | None => qget q1 key
    end.
Proof.
  induction q1 as [|[k w] q1 IH]; simpl.
  - now destruct (qget q2 key).
  - rewrite IH. destruct (qget q2 key); reflexivity.
Qed.

Lemma qget_app_last (query : query_params) (key v : string) :
  qget (query ++ [(key, v)]) key = Some v.
Proof. rewrite qget_app. simpl. now rewrite String.eqb_refl. Qed.

Lemma qget_app_other (query : query_params) (key other v : string) :
  other <> key -> qget (query ++ [(key, v)]) other = qget query other.
Proof.
  intros Hne. rewrite qget_app. simpl.
  apply String.eqb_neq in Hne. now rewrite Hne.
Qed.

(** A pair in the middle of a query string: what it changes. *)
Lemma qget_middle (q1 q2 : query_params) (key v other : string) :
  other <> key \/ qget q2 key <> None ->
  qget (q1 ++ (key, v) :: q2) other = qget (q1 ++ q2) other.
Proof.
  intros H. rewrite !qget_app. cbn [qget].
  destruct (qget q2 other) as [w|] eqn:E; [reflexivity|].
  destruct (String.eqb other key) eqn:Ek; [|reflexivity].
  apply String.eqb_eq in Ek. subst other.
  destruct H as [H|H]; [now contradiction H | contradiction].
Qed.

End QueryFacts.

Section Ordering.

Context {rt : PyRuntime} {pg : Postgres} {R : Type} {M : Model R}.

Lemma Qle_bool_total (p q : Q) : Qle_bool p q = true \/ Qle_bool q p = true.
Proof.
  rewrite !Qle_bool_iff. destruct (Qlt_le_dec p q) as [H|H]; [left | now right].
  now apply Qlt_le_weak.
Qed.

Lemma Qle_bool_trans (p q r : Q) :
  Qle_bool p q = true -> Qle_bool q r = true -> Qle_bool p r = true.
Proof. rewrite !Qle_bool_iff. apply Qle_trans. Qed.

Lemma cell_le_total (a b : cell) : cell_le a b = true \/ cell_le b a = true.
Proof.
  destruct a, b; cbn [cell_le]; auto.
  - apply Qle_bool_total.
  - apply pg_text_le_total.
  - rewrite !Z.leb_le. lia.
Qed.

Lemma cell_le_trans (a b c : cell) :
  cell_le a b = true -> cell_le b c = true -> cell_le a c = true.
Proof.
  destruct a, b, c; cbn [cell_le]; try discriminate; auto.
  - apply Qle_bool_trans.
  - apply pg_text_le_trans.
  - rewrite !Z.leb_le. lia.
Qed.

Lemma precedes_total (keys : list (bool * string)) (a b : R) :
  precedes keys a b = true \/ precedes keys b a = true.
Proof.
  induction keys as [|[descending name] keys IH]; [now left|].
  cbn [precedes]. cbv zeta.
  destruct descending.
  - destruct (cell_le (ordering_key name b) (ordering_key name a)) eqn:E1,
             (cell_le (ordering_key name a) (ordering_key name b)) eqn:E2; auto.
    destruct (cell_le_total (ordering_key name a) (ordering_key name b)); congruence.
  - destruct (cell_le (ordering_key name a) (ordering_key name b)) eqn:E1,
             (cell_le (ordering_key name b) (ordering_key name a)) eqn:E2; auto.
    destruct (cell_le_total (ordering_key name a) (ordering_key name b)); congruence.
Qed.

Lemma precedes_trans (keys : list (bool * string)) (a b c : R) :
  precedes keys a b = true -> precedes keys b c = true -> precedes keys a c = true.
Proof.
  induction keys as [|[descending name] keys IH]; [reflexivity|].
  cbn [precedes]. cbv zeta.
  set (x := ordering_key name a). set (y := ordering_key name b).
  set (z := ordering_key name c).
  destruct descending.
  - destruct (cell_le y x) eqn:Exy; [|discriminate].
    destruct (cell_le z y) eqn:Eyz; [|intros _; discriminate].
    rewrite (cell_le_trans z y x Eyz Exy).
    destruct (cell_le x z) eqn:Ezx; [|reflexivity].
    rewrite (cell_le_trans x z y Ezx Eyz), (cell_le_trans y x z Exy Ezx).
    exact IH.
  - destruct (cell_le x y) eqn:Exy; [|discriminate].
    destruct (cell_le y z) eqn:Eyz; [|intros _; discriminate].
    rewrite (cell_le_trans x y z Exy Eyz).
    destruct (cell_le z x) eqn:Ezx; [|reflexivity].
    rewrite (cell_le_trans y z x Eyz Ezx), (cell_le_trans z x y Ezx Exy).
    exact IH.
Qed.

(** The rows of an evaluated queryset are sorted by the [Meta.ordering]. *)
Lemma in_meta_ordering_sorted (l : list R) :
  StronglySorted (fun a b => precedes (ordering (R := R)) a b = true)
    (in_meta_ordering l).
Proof.
  apply order_by_sorted; [apply precedes_total | apply precedes_trans].
Qed.

(** Under an ordering that begins with the year, descending, a row stands
    before the rows of no later year. *)
Lemma precedes_year (rest : list (bool * string)) (a b : R) :
  (forall r, ordering_key "year" r = num (year r)) ->
  precedes ((true, "year") :: rest) a b = true -> (year b <= year a)%Z.
Proof.
  intros Hkey. cbn [precedes]. cbv zeta. rewrite !Hkey. unfold num. cbn [cell_le].
  destruct (Qle_bool (inject_Z (year b)) (inject_Z (year a))) eqn:E; [|discriminate].
  intros _. apply Qle_bool_iff in E. unfold Qle, inject_Z in E. simpl in E. lia.
Qed.

Lemma StronglySorted_impl {A : Type} (P Q : A -> A -> Prop) (l : list A) :
  (forall a b, P a b -> Q a b) -> StronglySorted P l -> StronglySorted Q l.
Proof.
  intros H. induction 1 as [|a l Hl IH Ha]; constructor; [exact IH|].
  revert Ha. apply List.Forall_impl. apply H.
Qed.

Lemma get_queryset_years (rest : list (bool * string)) (query : query_params)
    (table rs : list R) :
  ordering (R := R) = (true, "year") :: rest ->
  (forall r, ordering_key "year" r = num (year r)) ->
  get_queryset query table = Ok rs ->
  StronglySorted (fun a b => (year b <= year a)%Z) rs.
Proof.
  intros Hord Hkey H. apply get_queryset_Ok in H as (passed & _ & ->).
  apply (StronglySorted_impl (fun a b => precedes (ordering (R := R)) a b = true));
    [|apply in_meta_ordering_sorted].
  intros a b. rewrite Hord. now apply precedes_year.
Qed.

End Ordering.

(** X12.  A parameter other than the six the view sets read ([page],
    [search], [ordering], ...) never changes what [get_queryset] returns,
    wherever it stands in the query string; and of a parameter given more
    than once only the last value counts: an earlier one can be left out,
    wherever it stands. *)
Theorem other_parameters_ignored
    (rt : PyRuntime) (pg : Postgres) {R : Type} {M : Model R}
    (q1 q2 : query_params) (key v : string) (table : list R) :
  ~ In key ["entity"; "code"; "year"; "entity_type"; "year_min"; "year_max"]
  \/ qget q2 key <> None ->
  get_queryset (q1 ++ (key, v) :: q2) table = get_queryset (q1 ++ q2) table.
Proof.
  intros H. apply get_queryset_reads_six. intros k Hk.
  rewrite qget_middle; [reflexivity|].
  destruct H as [H|H]; [left; intros ->; contradiction | now right].
Qed.

(** X13.  [get_queryset] ends in an exception exactly when [year],
    [year_min] or [year_max] is supplied with a text that [int] refuses;
    the exception is a [ValueError] on the field [year] carrying that text,
    and it is raised whatever the table holds. *)
Theorem bad_year_raises
    (rt : PyRuntime) (pg : Postgres) {R : Type} {M : Model R}
    (query : query_params) (table : list R) :
  ((exists e, get_queryset query table = Raise e)
   <-> exists key v, In key ["year"; "year_min"; "year_max"]
                     /\ supplied query key v /\ int_of_text v = None)
  /\ forall e, get_queryset query table = Raise e ->
       (forall t, get_queryset query t = Raise e)
       /\ exists key v, In key ["year"; "year_min"; "year_max"]
                        /\ supplied query key v /\ int_of_text v = None
                        /\ e = ValueError "year" v.
Proof.
  split; [split|].
  - intros [e He]. apply get_queryset_Raise in He.
    apply filtered_raise in He as [_ (key & v & H1 & H2 & H3 & _)].
    eauto.
  - intros (key & v & Hk & Hs & Hp).
    destruct (get_queryset query table) as [rs|e] eqn:E; [|eauto].
    exfalso. apply get_queryset_Ok in E as (passed & E & _).
    exact (filtered_Ok_parses query table passed key v E Hk Hs Hp).
  - intros e He. apply get_queryset_Raise in He.
    apply filtered_raise in He as [Hall Hex]. split; [|exact Hex].
    intros t. apply get_queryset_Raise, Hall.
Qed.

(** X14.  Bounds that exclude each other select nothing: with [year_min]
    above [year_max], or with a [year] below [year_min] or above
    [year_max], a request that does not fail returns no row. *)
Theorem conflicting_years_select_nothing
    {rt : PyRuntime} {pg : Postgres} {R : Type} {M : Model R}
    (query : query_params) (table rs : list R)
    (a b : string) (lo hi : Z) :
  ((supplied query "year_min" a /\ supplied query "year_max" b)
   \/ (supplied query "year_min" a /\ supplied query "year" b)
   \/ (supplied query "year" a /\ supplied query "year_max" b)) ->
  int_of_text a = Some lo -> int_of_text b = Some hi -> (hi < lo)%Z ->
  get_queryset query table = Ok rs ->
  rs = [].
Proof.
  intros Hs Ha Hb Hlt Hok.
  destruct rs as [|r rs]; [reflexivity|]. exfalso.
  destruct (proj1 (get_queryset_spec query table _ Hok r) (or_introl eq_refl))
    as [_ (_ & _ & Hy & _ & Hmin & Hmax)].
  destruct Hs as [[H1 H2]|[[H1 H2]|[H1 H2]]].
  - destruct (Hmin a H1) as (n & Hn & Hle). destruct (Hmax b H2) as (m & Hm & Hge).
    rewrite Ha in Hn. rewrite Hb in Hm. injection Hn as En. injection Hm as Em. lia.
  - destruct (Hmin a H1) as (n & Hn & Hle). specialize (Hy b H2).
    rewrite Ha in Hn. rewrite Hb in Hy. injection Hn as En. injection Hy as Ey. lia.
  - destruct (Hmax b H2) as (m & Hm & Hge). specialize (Hy a H1).
    rewrite Hb in Hm. rewrite Ha in Hy. injection Hm as Em. injection Hy as Ey. lia.
Qed.

(** X15.  The [entity] parameter counts only through what the database's
    [UPPER] makes of it: two values that [UPPER] maps to the same text, as
    two spellings of a name that differ by letter case are, select the same
    rows. *)
Theorem entity_parameter_case
    (rt : PyRuntime) (pg : Postgres) {R : Type} {M : Model R}
    (query : query_params) (v v' : string) (table : list R) :
  pg_upper v = pg_upper v' ->
  v <> "" -> v' <> "" ->
  get_queryset (query ++ [("entity", v)]) table
  = get_queryset (query ++ [("entity", v')]) table.
Proof.
  intros Hup Hv Hv'. unfold get_queryset, filtered, filter_if.
  rewrite !qget_app_last, !qget_app_other by discriminate.
  unfold truthy at 1 7.
  apply String.eqb_neq in Hv, Hv'. rewrite Hv, Hv'.
  unfold entity__icontains. now rewrite Hup.
Qed.

(** X16.  [get_queryset] judges the rows one by one and returns them in the
    [Meta.ordering] of the model: what it returns is the stored rows that
    pass a test the query fixes, each as often as it is stored, rearranged;
    over two tables put end to end it returns the rows of the two results;
    and the rows come sorted by the ordering, so that in the four view sets
    the year never increases along them. *)
Theorem get_queryset_rowwise
    (rt : PyRuntime) (pg : Postgres) {R : Type} {M : Model R}
    (query : query_params) (table rs : list R) :
  get_queryset query table = Ok rs ->
  (exists keep : R -> bool,
     Permutation rs (List.filter keep table)
     /\ forall t1 t2, exists r1 r2 r12,
          get_queryset query t1 = Ok r1
          /\ get_queryset query t2 = Ok r2
          /\ get_queryset query (t1 ++ t2) = Ok r12
          /\ Permutation r12 (r1 ++ r2))
  /\ (forall r, In r rs -> In r table)
  /\ StronglySorted (fun a b => precedes (ordering (R := R)) a b = true) rs
  /\ (forall rest,
        ordering (R := R) = (true, "year") :: rest ->
        (forall r, ordering_key "year" r = num (year r)) ->
        StronglySorted (fun a b => (year b <= year a)%Z) rs).
Proof.
  intros Hok. split; [|split; [|split]].
  - apply get_queryset_Ok in Hok as (passed & Hp & ->).
    destruct (filtered_filter query table passed Hp) as [keep Hk].
    exists keep. rewrite Hk in Hp. injection Hp as <-.
    split; [apply in_meta_ordering_permutation|].
    intros t1 t2.
    exists (in_meta_ordering (List.filter keep t1)),
      (in_meta_ordering (List.filter keep t2)),
      (in_meta_ordering (List.filter keep (t1 ++ t2))).
    unfold get_queryset. rewrite !Hk. cbn [bind].
    split; [reflexivity | split; [reflexivity | split; [reflexivity|]]].
    rewrite !in_meta_ordering_permutation. now rewrite List.filter_app.
  - intros r Hr. now apply (get_queryset_spec query table rs Hok).
  - apply get_queryset_Ok in Hok as (passed & _ & ->).
    apply in_meta_ordering_sorted.
  - intros rest Hord Hkey. exact (get_queryset_years rest query table rs Hord Hkey Hok).
Qed.

Section LatestFirst.

Context {rt : PyRuntime} {pg : Postgres}.

Lemma num_le (a b : Z) : cell_le (num a) (num b) = (a <=? b)%Z.
Proof. unfold num. cbn [cell_le]. unfold Qle_bool, inject_Z. simpl. now rewrite !Z.mul_1_r. Qed.

(** The second key of an ordering whose two keys are descending: with the
    first keys equal, a missing value stands first and a greater value
    before a lesser. *)
Lemma measure_first (x y : option Q) :
  cell_le (opt_num y) (opt_num x) = true ->
  match x, y with
  | Some p, Some q => (q <= p)%Q
  | None, _ => True
  | Some _, None => False
  end.
Proof.
  destruct x as [p|], y as [q|]; cbn [opt_num cell_le]; auto.
  - apply Qle_bool_iff.
  - discriminate.
Qed.

Lemma co2_precedes (a b : CleanedCo2Emissions.t) :
  precedes (R := CleanedCo2Emissions.t) co2_meta_ordering a b = true ->
  (CleanedCo2Emissions.year b <= CleanedCo2Emissions.year a)%Z
  /\ (CleanedCo2Emissions.year a = CleanedCo2Emissions.year b ->
      match CleanedCo2Emissions.annual_co2_emissions a,
            CleanedCo2Emissions.annual_co2_emissions b with
      | Some p, Some q => (q <= p)%Q
      | None, _ => True
      | Some _, None => False
      end).
Proof.
  unfold co2_meta_ordering. cbn [precedes]. cbv zeta.
  change (ordering_key (R := CleanedCo2Emissions.t) "year" a)
    with (num (CleanedCo2Emissions.year a)).
  change (ordering_key (R := CleanedCo2Emissions.t) "year" b)
    with (num (CleanedCo2Emissions.year b)).
  change (ordering_key (R := CleanedCo2Emissions.t) "annual_co2_emissions" a)
    with (opt_num (CleanedCo2Emissions.annual_co2_emissions a)).
  change (ordering_key (R := CleanedCo2Emissions.t) "annual_co2_emissions" b)
    with (opt_num (CleanedCo2Emissions.annual_co2_emissions b)).
  rewrite !num_le.
  destruct (Z.leb_spec (CleanedCo2Emissions.year b) (CleanedCo2Emissions.year a)) as [H1|H1];
    [|discriminate].
  destruct (Z.leb_spec (CleanedCo2Emissions.year a) (CleanedCo2Emissions.year b)) as [H2|H2].
  - destruct (cell_le (opt_num (CleanedCo2Emissions.annual_co2_emissions b))
                (opt_num (CleanedCo2Emissions.annual_co2_emissions a))) eqn:E;
      [|discriminate].
    intros _. split; [exact H1|]. intros _. now apply measure_first.
  - intros _. split; [exact H1 | lia].
Qed.

Lemma oil_precedes (a b : CleanedOilProduction.t) :
  precedes (R := CleanedOilProduction.t) oil_meta_ordering a b = true ->
  (CleanedOilProduction.year b <= CleanedOilProduction.year a)%Z
  /\ (CleanedOilProduction.year a = CleanedOilProduction.year b ->
      match CleanedOilProduction.oil_production_twh a,
            CleanedOilProduction.oil_production_twh b with
      | Some p, Some q => (q <= p)%Q
      | None, _ => True
      | Some _, None => False
      end).
Proof.
  unfold oil_meta_ordering. cbn [precedes]. cbv zeta.
  change (ordering_key (R := CleanedOilProduction.t) "year" a)
    with (num (CleanedOilProduction.year a)).
  change (ordering_key (R := CleanedOilProduction.t) "year" b)
    with (num (CleanedOilProduction.year b)).
  change (ordering_key (R := CleanedOilProduction.t) "oil_production_twh" a)
    with (opt_num (CleanedOilProduction.oil_production_twh a)).
  change (ordering_key (R := CleanedOilProduction.t) "oil_production_twh" b)
    with (opt_num (CleanedOilProduction.oil_production_twh b)).
  rewrite !num_le.
  destruct (Z.leb_spec (CleanedOilProduction.year b) (CleanedOilProduction.year a)) as [H1|H1];
    [|discriminate].
  destruct (Z.leb_spec (CleanedOilProduction.year a) (CleanedOilProduction.year b)) as [H2|H2].
  - destruct (cell_le (opt_num (CleanedOilProduction.oil_production_twh b))
                (opt_num (CleanedOilProduction.oil_production_twh a))) eqn:E;
      [|discriminate].
    intros _. split; [exact H1|]. intros _. now apply measure_first.
  - intros _. split; [exact H1 | lia].
Qed.

End LatestFirst.

(** X25.  The four view sets return their rows by year, the latest first;
    the CO2 and the oil view sets return the rows of one year by the
    measure, the greatest first, a row without a measure before the rows
    with one. *)
Theorem querysets_latest_first (rt : PyRuntime) (pg : Postgres) :
  (forall query table rs,
     Co2EmissionsViewSet.get_queryset query table = Ok rs ->
     StronglySorted
       (fun a b =>
          (CleanedCo2Emissions.year b <= CleanedCo2Emissions.year a)%Z
          /\ (CleanedCo2Emissions.year a = CleanedCo2Emissions.year b ->
              match CleanedCo2Emissions.annual_co2_emissions a,
                    CleanedCo2Emissions.annual_co2_emissions b with
              | Some p, Some q => (q <= p)%Q
              | None, _ => True
              | Some _, None => False
              end)) rs)
  /\ (forall query table rs,
        ElectricityProductionViewSet.get_queryset query table = Ok rs ->
        StronglySorted
          (fun a b => (CleanedElectricityProduction.year b
                       <= CleanedElectricityProduction.year a)%Z) rs)
  /\ (forall query table rs,
        EnergyProdConsViewSet.get_queryset query table = Ok rs ->
        StronglySorted
          (fun a b => (CleanedEnergyProdCons.year b <= CleanedEnergyProdCons.year a)%Z) rs)
  /\ (forall query table rs,
        OilProductionViewSet.get_queryset query table = Ok rs ->
        StronglySorted
          (fun a b =>
             (CleanedOilProduction.year b <= CleanedOilProduction.year a)%Z
             /\ (CleanedOilProduction.year a = CleanedOilProduction.year b ->
                 match CleanedOilProduction.oil_production_twh a,
                       CleanedOilProduction.oil_production_twh b with
                 | Some p, Some q => (q <= p)%Q
                 | None, _ => True
                 | Some _, None => False
                 end)) rs).
Proof.
  split; [|split; [|split]]; intros query table rs H.
  - apply get_queryset_Ok in H as (passed & _ & ->).
    apply (StronglySorted_impl
             (fun a b => precedes (R := CleanedCo2Emissions.t)
                           (ordering (R := CleanedCo2Emissions.t)) a b = true));
      [intros a b Hab; apply co2_precedes; exact Hab | apply in_meta_ordering_sorted].
  - exact (get_queryset_years (R := CleanedElectricityProduction.t)
             [(false, "entity")] query table rs eq_refl (fun _ => eq_refl) H).
  - exact (get_queryset_years (R := CleanedEnergyProdCons.t)
             [(false, "entity")] query table rs eq_refl (fun _ => eq_refl) H).
  - apply get_queryset_Ok in H as (passed & _ & ->).
    apply (StronglySorted_impl
             (fun a b => precedes (R := CleanedOilProduction.t)
                           (ordering (R := CleanedOilProduction.t)) a b = true));
      [intros a b Hab; apply oil_precedes; exact Hab | apply in_meta_ordering_sorted].
Qed.

(** X26.  Every column name the four models declare is an identifier that
    PostgreSQL keeps whole: none is longer than 63 bytes, the nine
    electricity measures being 63 bytes each. *)
Theorem model_columns_are_identifiers :
  List.Forall (fun name => pg_identifier name = name)
    (map db_column CleanedCo2Emissions.fields
     ++ map db_column CleanedElectricityProduction.fields
     ++ map db_column CleanedEnergyProdCons.fields
     ++ map db_column CleanedOilProduction.fields
     ++ [ db_table (R := CleanedCo2Emissions.t);
          db_table (R := CleanedElectricityProduction.t);
          db_table (R := CleanedEnergyProdCons.t);
          db_table (R := CleanedOilProduction.t) ])
  /\ map (fun f => String.length (db_column f))
       (List.filter (fun f => negb (String.eqb (db_column f) (field_name f)))
          CleanedElectricityProduction.fields)
     = repeat 63%nat 9.
Proof. split; [repeat constructor | reflexivity]. Qed.

Section SummaryFacts.

Context {pg : Postgres}.

Lemma count_of_numbers {A : Type} (f : A -> Z) (l : list A) :
  Agg.count (map (fun r => num (f r)) l) = num (Z.of_nat (length l)).
Proof.
  assert (E : List.filter Agg.not_null (map (fun r => num (f r)) l)
              = map (fun r => num (f r)) l).
  { induction l as [|x l IH]; simpl; [reflexivity | now rewrite IH]. }
  unfold Agg.count. now rewrite E, length_map.
Qed.

Lemma numbers_of_integers {A : Type} (f : A -> Z) (l : list A) :
  Agg.numbers (map (fun r => num (f r)) l) = map (fun r => inject_Z (f r)) l.
Proof. induction l as [|x l IH]; simpl; [reflexivity | now rewrite IH]. Qed.

Lemma Qle_bool_inject_Z (a b : Z) :
  Qle_bool (inject_Z a) (inject_Z b) = (a <=? b)%Z.
Proof. unfold Qle_bool, inject_Z. simpl. now rewrite !Z.mul_1_r. Qed.

(** The greatest of the integers of a non-empty list of rows is the integer
    of one of them, and bounds them all. *)
Lemma fold_max_integers {A : Type} (f : A -> Z) (l : list A) (r0 : A) :
  exists r1, In r1 (r0 :: l)
    /\ fold_left Agg.Qmax2 (map (fun r => inject_Z (f r)) l) (inject_Z (f r0))
       = inject_Z (f r1)
    /\ forall r, In r (r0 :: l) -> (f r <= f r1)%Z.
Proof.
  revert r0. induction l as [|x l IH]; intros r0.
  - exists r0. split; [now left|]. split; [reflexivity|].
    intros r [<-|[]]. lia.
  - cbn [map fold_left]. unfold Agg.Qmax2 at 2. rewrite Qle_bool_inject_Z.
    destruct (f r0 <=? f x)%Z eqn:E.
    + apply Z.leb_le in E. destruct (IH x) as (r1 & Hin & Hf & Hb).
      exists r1. split; [now right|]. split; [exact Hf|].
      intros r [<-|Hr]; [|now apply Hb].
      specialize (Hb x (or_introl eq_refl)). lia.
    + apply Z.leb_gt in E. destruct (IH r0) as (r1 & Hin & Hf & Hb).
      exists r1. split; [destruct Hin as [<-|Hin]; [now left | right; now right]|].
      split; [exact Hf|].
      intros r [<-|[<-|Hr]].
      * apply Hb. now left.
      * specialize (Hb r0 (or_introl eq_refl)). lia.
      * apply Hb. now right.
Qed.

Lemma fold_min_integers {A : Type} (f : A -> Z) (l : list A) (r0 : A) :
  exists r1, In r1 (r0 :: l)
    /\ fold_left Agg.Qmin2 (map (fun r => inject_Z (f r)) l) (inject_Z (f r0))
       = inject_Z (f r1)
    /\ forall r, In r (r0 :: l) -> (f r1 <= f r)%Z.
Proof.
  revert r0. induction l as [|x l IH]; intros r0.
  - exists r0. split; [now left|]. split; [reflexivity|].
    intros r [<-|[]]. lia.
  - cbn [map fold_left]. unfold Agg.Qmin2 at 2. rewrite Qle_bool_inject_Z.
    destruct (f r0 <=? f x)%Z eqn:E.
    + apply Z.leb_le in E. destruct (IH r0) as (r1 & Hin & Hf & Hb).
      exists r1. split; [destruct Hin as [<-|Hin]; [now left | right; now right]|].
      split; [exact Hf|].
      intros r [<-|[<-|Hr]].
      * apply Hb. now left.
      * specialize (Hb r0 (or_introl eq_refl)). lia.
      * apply Hb. now right.
    + apply Z.leb_gt in E. destruct (IH x) as (r1 & Hin & Hf & Hb).
      exists r1. split; [now right|]. split; [exact Hf|].
      intros r [<-|Hr]; [|now apply Hb].
      specialize (Hb x (or_introl eq_refl)). lia.
Qed.

Lemma max_of_integers {A : Type} (f : A -> Z) (l : list A) :
  l <> [] ->
  exists r1, In r1 l
    /\ Agg.max (map (fun r => num (f r)) l) = num (f r1)
    /\ forall r, In r l -> (f r <= f r1)%Z.
Proof.
  destruct l as [|r0 l]; [contradiction|]. intros _.
  unfold Agg.max. rewrite numbers_of_integers. cbn [map Agg.extreme].
  destruct (fold_max_integers f l r0) as (r1 & Hin & Hf & Hb).
  exists r1. rewrite Hf. auto.
Qed.

Lemma min_of_integers {A : Type} (f : A -> Z) (l : list A) :
  l <> [] ->
  exists r1, In r1 l
    /\ Agg.min (map (fun r => num (f r)) l) = num (f r1)
    /\ forall r, In r l -> (f r1 <= f r)%Z.
Proof.
  destruct l as [|r0 l]; [contradiction|]. intros _.
  unfold Agg.min. rewrite numbers_of_integers. cbn [map Agg.extreme].
  destruct (fold_min_integers f l r0) as (r1 & Hin & Hf & Hb).
  exists r1. rewrite Hf. auto.
Qed.

Lemma co2_aggregate (l : list CleanedCo2Emissions.t) :
  aggregate
    [ ("total_records", (Count, "id"));
      ("avg_emissions", (Avg, "annual_co2_emissions"));
      ("max_emissions", (Max, "annual_co2_emissions"));
      ("min_emissions", (Min, "annual_co2_emissions"));
      ("latest_year", (Max, "year"));
      ("earliest_year", (Min, "year")) ] l
  = Ok [ ("total_records", Agg.count (map (fun r => num (CleanedCo2Emissions.id r)) l));
         ("avg_emissions",
          Agg.avg (map (fun r => opt_num (CleanedCo2Emissions.annual_co2_emissions r)) l));
         ("max_emissions",
          Agg.max (map (fun r => opt_num (CleanedCo2Emissions.annual_co2_emissions r)) l));
         ("min_emissions",
          Agg.min (map (fun r => opt_num (CleanedCo2Emissions.annual_co2_emissions r)) l));
         ("latest_year", Agg.max (map (fun r => num (CleanedCo2Emissions.year r)) l));
         ("earliest_year", Agg.min (map (fun r => num (CleanedCo2Emissions.year r)) l)) ].
Proof. reflexivity. Qed.

Lemma oil_aggregate (l : list CleanedOilProduction.t) :
  aggregate
    [ ("total_records", (Count, "id"));
      ("avg_production", (Avg, "oil_production_twh"));
      ("max_production", (Max, "oil_production_twh"));
      ("total_production", (Sum, "oil_production_twh")) ] l
  = Ok [ ("total_records", Agg.count (map (fun r => num (CleanedOilProduction.id r)) l));
         ("avg_production",
          Agg.avg (map (fun r => opt_num (CleanedOilProduction.oil_production_twh r)) l));
         ("max_production",
          Agg.max (map (fun r => opt_num (CleanedOilProduction.oil_production_twh r)) l));
         ("total_production",
          Agg.sum (map (fun r => opt_num (CleanedOilProduction.oil_production_twh r)) l)) ].
Proof. reflexivity. Qed.

End SummaryFacts.

(** X17.  The CO2 summary of a request that [get_queryset] accepts answers
    with the number of filtered rows as [total_records]; when there is a
    filtered row, [latest_year] and [earliest_year] are the years of two of
    them, and every filtered row has its year between the two. *)
Theorem co2_summary_values
    (rt : PyRuntime) (pg : Postgres)
    (filter_queryset : query_params -> list CleanedCo2Emissions.t ->
                       list CleanedCo2Emissions.t)
    (query : query_params) (table queryset : list CleanedCo2Emissions.t) :
  Co2EmissionsViewSet.get_queryset query table = Ok queryset ->
  exists stats,
    Co2EmissionsViewSet.summary filter_queryset query table = Ok stats
    /\ map fst stats = [ "total_records"; "avg_emissions"; "max_emissions";
                         "min_emissions"; "latest_year"; "earliest_year" ]
    /\ In ("total_records",
           num (Z.of_nat (length (filter_queryset query queryset)))) stats
    /\ (filter_queryset query queryset <> [] ->
        exists first last,
          In first (filter_queryset query queryset)
          /\ In last (filter_queryset query queryset)
          /\ In ("earliest_year", num (CleanedCo2Emissions.year first)) stats
          /\ In ("latest_year", num (CleanedCo2Emissions.year last)) stats
          /\ forall r, In r (filter_queryset query queryset) ->
               (CleanedCo2Emissions.year first <= CleanedCo2Emissions.year r
                <= CleanedCo2Emissions.year last)%Z).
Proof.
  intros Hq. unfold Co2EmissionsViewSet.summary, summary_of.
  unfold Co2EmissionsViewSet.get_queryset in Hq. rewrite Hq. cbn [bind].
  set (l := filter_queryset query queryset).
  rewrite co2_aggregate. cbn [bind]. eexists. split; [reflexivity|].
  split; [reflexivity|]. split.
  - rewrite count_of_numbers. now left.
  - intros Hne.
    destruct (max_of_integers CleanedCo2Emissions.year l Hne) as (last & Hl & El & Bl).
    destruct (min_of_integers CleanedCo2Emissions.year l Hne) as (first & Hf & Ef & Bf).
    exists first, last. rewrite El, Ef.
    split; [exact Hf|]. split; [exact Hl|].
    split; [simpl; tauto|]. split; [simpl; tauto|].
    intros r Hr. split; [now apply Bf | now apply Bl].
Qed.

(** X18.  Unlike the electricity and energy summaries, the CO2 and the oil
    summaries name declared fields only: they fail exactly when
    [get_queryset] fails, with its exception, and otherwise answer with the
    number of filtered rows as [total_records]. *)
Theorem co2_and_oil_summaries_resolve (rt : PyRuntime) (pg : Postgres) :
  (forall filter_queryset query table,
     match Co2EmissionsViewSet.get_queryset query table with
     | Raise e => Co2EmissionsViewSet.summary filter_queryset query table = Raise e
     | Ok queryset =>
         exists stats,
           Co2EmissionsViewSet.summary filter_queryset query table = Ok stats
           /\ In ("total_records",
                  num (Z.of_nat (length (filter_queryset query queryset)))) stats
     end)
  /\ (forall filter_queryset query table,
        match OilProductionViewSet.get_queryset query table with
        | Raise e => OilProductionViewSet.summary filter_queryset query table = Raise e
        | Ok queryset =>
            exists stats,
              OilProductionViewSet.summary filter_queryset query table = Ok stats
              /\ In ("total_records",
                     num (Z.of_nat (length (filter_queryset query queryset)))) stats
        end).
Proof.
  split; intros fq query table.
  - unfold Co2EmissionsViewSet.summary, summary_of, Co2EmissionsViewSet.get_queryset.
    destruct (get_queryset query table) as [q|e]; cbn [bind]; [|reflexivity].
    rewrite co2_aggregate. cbn [bind]. eexists. split; [reflexivity|].
    rewrite count_of_numbers. now left.
  - unfold OilProductionViewSet.summary, summary_of, OilProductionViewSet.get_queryset.
    destruct (get_queryset query table) as [q|e]; cbn [bind]; [|reflexivity].
    rewrite oil_aggregate. cbn [bind]. eexists. split; [reflexivity|].
    rewrite count_of_numbers. now left.
Qed.

Section DeclaredNames.

Lemma all_declared_spec (names declared : list string) :
  all_declared names declared = true <-> forall n, In n names -> In n declared.
Proof.
  unfold all_declared. rewrite forallb_forall. split; intros H n Hn.
  - apply existsb_eqb_In. now apply H.
  - apply existsb_eqb_In. now apply H.
Qed.

Lemma same_names (l1 l2 : list string) :
  all_declared l1 l2 = true -> all_declared l2 l1 = true ->
  forall n, In n l1 <-> In n l2.
Proof.
  intros H1 H2 n. rewrite all_declared_spec in H1, H2. split; auto.
Qed.

End DeclaredNames.

(** X19.  A summary over no row, when its field names resolve, answers with
    zero for every count and no value for every average, sum, maximum and
    minimum, for any model and any list of aggregates. *)
Theorem aggregate_over_nothing
    {pg : Postgres} {R : Type} {M : Model R} (specs : list (string * (aggregate_fn * string)))
    (stats : list (string * cell)) :
  aggregate specs (@nil R) = Ok stats ->
  stats = map (fun spec => (fst spec,
                            match fst (snd spec) with
                            | Count => num 0
                            | _ => CNull
                            end)) specs.
Proof.
  revert stats. induction specs as [|[alias [fn keyword]] rest IH]; intros stats.
  - cbn. now intros [= <-].
  - cbn [aggregate]. destruct (resolve keyword) as [f|e]; cbn [bind]; [|discriminate].
    destruct (aggregate rest []) as [stats'|e]; cbn [bind]; [|discriminate].
    intros [= <-]. cbn [map fst snd]. rewrite <- (IH stats' eq_refl).
    destruct fn; reflexivity.
Qed.

(** X20.  Each serializer lists exactly the fields its model declares. *)
Theorem serializers_list_model_fields :
  (forall n, In n Co2EmissionsSerializer.fields
             <-> In n (map field_name CleanedCo2Emissions.fields))
  /\ (forall n, In n ElectricityProductionSerializer.fields
                <-> In n (map field_name CleanedElectricityProduction.fields))
  /\ (forall n, In n EnergyProdConsSerializer.fields
                <-> In n (map field_name CleanedEnergyProdCons.fields))
  /\ (forall n, In n OilProductionSerializer.fields
                <-> In n (map field_name CleanedOilProduction.fields)).
Proof. repeat split; apply same_names; reflexivity. Qed.

(** X21.  Every field name the admin classes, the [Meta.ordering] of the
    models and the [search_fields] and [ordering_fields] of the view sets
    list is a declared field of the model concerned, with one exception:
    the energy view set offers ordering by
    [primary_energy_consumption_twh], which its model does not declare. *)
Theorem listed_names_declared :
  (forall n, In n (admin_names Co2EmissionsAdmin ++ map snd co2_meta_ordering
                   ++ search_fields ++ co2_ordering_fields) ->
             In n (map field_name CleanedCo2Emissions.fields))
  /\ (forall n, In n (admin_names ElectricityProductionAdmin
                      ++ map snd electricity_meta_ordering
                      ++ search_fields ++ electricity_ordering_fields) ->
                In n (map field_name CleanedElectricityProduction.fields))
  /\ (forall n, In n (admin_names OilProductionAdmin ++ map snd oil_meta_ordering
                      ++ search_fields ++ oil_ordering_fields) ->
                In n (map field_name CleanedOilProduction.fields))
  /\ (forall n, In n (admin_names EnergyProdConsAdmin ++ map snd energy_meta_ordering
                      ++ search_fields) ->
                In n (map field_name CleanedEnergyProdCons.fields))
  /\ (forall n, In n energy_ordering_fields ->
                In n (map field_name CleanedEnergyProdCons.fields)
                \/ n = "primary_energy_consumption_twh")
  /\ In "primary_energy_consumption_twh" energy_ordering_fields
  /\ ~ In "primary_energy_consumption_twh" (map field_name CleanedEnergyProdCons.fields).
Proof.
  split; [apply all_declared_spec; reflexivity|].
  split; [apply all_declared_spec; reflexivity|].
  split; [apply all_declared_spec; reflexivity|].
  split; [apply all_declared_spec; reflexivity|].
  split; [|split; [simpl; tauto | simpl; intuition discriminate]].
  intros n Hn. simpl in Hn. simpl. intuition.
Qed.

(* ===================================================================== *)
(** ** The further properties on the sample data *)
(* ===================================================================== *)

(** The labels of the cleaned CO2 sample. *)
Lemma clean_output_labels_sample :
  frame_wf Sample.co2_snapshot
  /\ columns Sample.co2_cleaned
     = map (normalize_column (rt := Sample.runtime)) (columns Sample.co2_snapshot)
         ++ ["data_source"; "data_quality_flag"; "last_updated"; "entity_type"]
  /\ NoDup (columns Sample.co2_cleaned)
  /\ frame_wf Sample.co2_cleaned.
Proof.
  split; [exact co2_snapshot_wf|].
  destruct (clean_output_labels Sample.runtime "co2_emissions" Sample.today
              Sample.co2_snapshot Sample.co2_cleaned co2_snapshot_wf)
    as (E & _ & _ & _ & _ & _ & Hdistinct & Hwf).
  - vm_compute. reflexivity.
  - split; [|split; [exact Hdistinct | exact Hwf]]. rewrite E. vm_compute. reflexivity.
Defined.

(** The row of [World] in the cleaned CO2 sample comes from a row of the
    snapshot, and its empty code is a missing value. *)
Lemma clean_rows_from_input_sample :
  In [CStr "World"; CNull; num 2020; num 35000;
      CStr "co2_emissions"; CStr "clean"; CDate Sample.today; CStr "aggregate"]
     (rows Sample.co2_cleaned)
  /\ (exists r, In r (rows Sample.co2_snapshot)
        /\ forall col, ~ In col assigned_labels ->
             cell_of Sample.co2_cleaned col
               [CStr "World"; CNull; num 2020; num 35000;
                CStr "co2_emissions"; CStr "clean"; CDate Sample.today;
                CStr "aggregate"]
             = option_map (cleaned_value (rt := Sample.runtime) col)
                 (cell_of (standardize_columns (rt := Sample.runtime) Sample.co2_snapshot) col r))
  /\ cell_of Sample.co2_cleaned "code"
       [CStr "World"; CNull; num 2020; num 35000;
        CStr "co2_emissions"; CStr "clean"; CDate Sample.today; CStr "aggregate"]
     <> Some (CStr "").
Proof.
  split; [simpl; tauto|].
  apply (clean_rows_from_input Sample.runtime "co2_emissions" Sample.today
           Sample.co2_snapshot Sample.co2_cleaned).
  - exact co2_snapshot_wf.
  - vm_compute. reflexivity.
  - simpl. tauto.
Defined.

(** The provenance columns of the row of [Germany]. *)
Lemma provenance_values_sample :
  In [CStr "Germany"; CStr "DEU"; num 1750; num 0;
      CStr "co2_emissions"; CStr "clean"; CDate Sample.today; CStr "country"]
     (rows Sample.co2_cleaned)
  /\ cell_of Sample.co2_cleaned "data_source"
       [CStr "Germany"; CStr "DEU"; num 1750; num 0;
        CStr "co2_emissions"; CStr "clean"; CDate Sample.today; CStr "country"]
     = Some (CStr "co2_emissions")
  /\ cell_of Sample.co2_cleaned "data_quality_flag"
       [CStr "Germany"; CStr "DEU"; num 1750; num 0;
        CStr "co2_emissions"; CStr "clean"; CDate Sample.today; CStr "country"]
     = Some (CStr "clean")
  /\ cell_of Sample.co2_cleaned "last_updated"
       [CStr "Germany"; CStr "DEU"; num 1750; num 0;
        CStr "co2_emissions"; CStr "clean"; CDate Sample.today; CStr "country"]
     = Some (CDate Sample.today).
Proof.
  split; [simpl; tauto|].
  apply (provenance_values Sample.runtime "co2_emissions" Sample.today
           Sample.co2_snapshot Sample.co2_cleaned).
  - exact co2_snapshot_wf.
  - vm_compute. reflexivity.
  - simpl. tauto.
Defined.

(** Six rows are read of the CO2 sample, three are written. *)
Lemma clean_never_adds_rows_sample :
  length (rows Sample.co2_snapshot) = 6%nat
  /\ length (rows Sample.co2_cleaned) = 3%nat
  /\ (length (rows Sample.co2_cleaned) <= length (rows Sample.co2_snapshot))%nat.
Proof.
  split; [reflexivity | split; [reflexivity|]].
  apply (clean_never_adds_rows Sample.runtime "co2_emissions" Sample.today
           Sample.co2_snapshot Sample.co2_cleaned).
  vm_compute. reflexivity.
Defined.

(** The row of [Germany], whose year is the lower bound, is kept. *)
Lemma clean_keeps_rows_sample :
  In [CStr "Germany"; CStr "DEU"; num 1750; num 0] (rows Sample.co2_snapshot)
  /\ exists r', In r' (rows Sample.co2_cleaned)
       /\ forall col, ~ In col assigned_labels ->
            same_value
              (option_map (cleaned_value (rt := Sample.runtime) col)
                 (cell_of (standardize_columns (rt := Sample.runtime) Sample.co2_snapshot) col
                    [CStr "Germany"; CStr "DEU"; num 1750; num 0]))
              (cell_of Sample.co2_cleaned col r') = true.
Proof.
  split; [simpl; tauto|].
  apply (clean_keeps_rows Sample.runtime "co2_emissions" Sample.today
           Sample.co2_snapshot Sample.co2_cleaned).
  - exact co2_snapshot_wf.
  - vm_compute. reflexivity.
  - simpl. tauto.
  - intros _. vm_compute. reflexivity.
Defined.

(** The clean stage over the CO2 sample alone: what it returns. *)
Example sample_clean_stage :
  clean_and_transform_data (rt := Sample.runtime) (fun _ => Sample.today)
    ["co2_emissions"]
    {[ parquet_path "co2_emissions" := Sample.co2_snapshot ]}
  = Some (<[ cleaned_parquet_path "co2_emissions" := Sample.co2_cleaned ]>
            {[ parquet_path "co2_emissions" := Sample.co2_snapshot ]},
          [CleaningEntry "co2_emissions" 6 3 3]).
Proof. vm_compute. reflexivity. Qed.

(** The load stage after it, into an empty database. *)
Example sample_load_stage :
  exists (db' : gmap string frame) (load_summary : list load_entry),
    load_to_postgres (pg := Sample.postgres) ["co2_emissions"]
      (<[ cleaned_parquet_path "co2_emissions" := Sample.co2_cleaned ]>
         {[ parquet_path "co2_emissions" := Sample.co2_snapshot ]})
      empty
    = Some (db', load_summary).
Proof. eexists _, _. vm_compute. reflexivity. Qed.

(** The summary of the clean stage over the CO2 sample, and the snapshot
    it leaves in place. *)
Lemma clean_stage_files_sample :
  map cleaning_dataset [CleaningEntry "co2_emissions" 6 3 3] = ["co2_emissions"]
  /\ (<[ cleaned_parquet_path "co2_emissions" := Sample.co2_cleaned ]>
        {[ parquet_path "co2_emissions" := Sample.co2_snapshot ]} : gmap string frame)
       !! parquet_path "co2_emissions"
     = ({[ parquet_path "co2_emissions" := Sample.co2_snapshot ]} : gmap string frame)
         !! parquet_path "co2_emissions".
Proof.
  destruct (clean_stage_files Sample.runtime (fun _ => Sample.today)
              ["co2_emissions"]
              {[ parquet_path "co2_emissions" := Sample.co2_snapshot ]}
              (<[ cleaned_parquet_path "co2_emissions" := Sample.co2_cleaned ]>
                 {[ parquet_path "co2_emissions" := Sample.co2_snapshot ]})
              [CleaningEntry "co2_emissions" 6 3 3] sample_clean_stage)
    as (Hk & _ & _ & Hother).
  split; [exact Hk|].
  apply Hother. intros k [<-|[]]. vm_compute. discriminate.
Defined.

(** The clean stage over the CO2 sample completes. *)
Lemma clean_stage_per_dataset_sample :
  (exists result,
     clean_and_transform_data (rt := Sample.runtime) (fun _ => Sample.today)
       ["co2_emissions"]
       {[ parquet_path "co2_emissions" := Sample.co2_snapshot ]}
     = Some result)
  /\ parquet_path "co2_emissions" <> cleaned_parquet_path "co2_emissions".
Proof.
  split; [|vm_compute; discriminate].
  apply (clean_stage_per_dataset Sample.runtime (fun _ => Sample.today)
           ["co2_emissions"]
           {[ parquet_path "co2_emissions" := Sample.co2_snapshot ]}).
  - intros k k' [<-|[]] [<-|[]]. vm_compute. discriminate.
  - intros k [<-|[]]. exists Sample.co2_snapshot.
    split; [apply lookup_singleton_eq|].
    apply (bool_decide_unpack _). vm_compute. exact I.
Defined.

(** The table made of the cleaned CO2 sample. *)
Lemma insert_id_keeps_data_sample :
  exists table : frame,
    insert_id Sample.co2_cleaned = Some table
    /\ columns table = "id" :: columns Sample.co2_cleaned
    /\ map (drop 1) (rows table) = rows Sample.co2_cleaned
    /\ (forall name, name <> "id" ->
          column_values table name = column_values Sample.co2_cleaned name)
    /\ (frame_wf Sample.co2_cleaned -> frame_wf table).
Proof.
  eexists. split; [reflexivity|].
  apply (insert_id_keeps_data Sample.co2_cleaned). reflexivity.
Defined.

(** The load of the cleaned CO2 sample into an empty database. *)
Lemma load_stage_tables_sample :
  exists (db' : gmap string frame) (load_summary : list load_entry) (table : frame),
    load_to_postgres (pg := Sample.postgres) ["co2_emissions"]
      (<[ cleaned_parquet_path "co2_emissions" := Sample.co2_cleaned ]>
         {[ parquet_path "co2_emissions" := Sample.co2_snapshot ]})
      empty
    = Some (db', load_summary)
    /\ db' !! "cleaned_co2_emissions" = Some table
    /\ columns table = "id" :: columns Sample.co2_cleaned
    /\ column_values table "id" = [Some (num 1); Some (num 2); Some (num 3)]
    /\ db' !! "another_table" = None.
Proof.
  destruct sample_load_stage as (db' & load_summary & Hl).
  destruct (load_stage_tables Sample.postgres ["co2_emissions"] _ _ db' load_summary Hl)
    as (_ & _ & Htable & Hother).
  destruct (Htable "co2_emissions") as (e & table & Hloaded & Hdb);
    [now left | now intros k' [<-|[]] _|].
  destruct Hloaded as (df & Hdf & _ & _ & _ & Hcols & Hids & _).
  assert (df = Sample.co2_cleaned) as ->.
  { rewrite lookup_insert_eq in Hdf. now injection Hdf as <-. }
  exists db', load_summary, table.
  split; [exact Hl | split; [exact Hdb | split; [exact Hcols | split; [exact Hids|]]]].
  rewrite (Hother "another_table"); [reflexivity|].
  intros k [<-|[]]. vm_compute. discriminate.
Defined.

(** The report of a run over the CO2 sample alone. *)
Lemma report_after_complete_run_sample :
  exists (db' : gmap string frame) (load_summary : list load_entry),
    load_to_postgres (pg := Sample.postgres) ["co2_emissions"]
      (<[ cleaned_parquet_path "co2_emissions" := Sample.co2_cleaned ]>
         {[ parquet_path "co2_emissions" := Sample.co2_snapshot ]})
      empty
    = Some (db', load_summary)
    /\ total_datasets
         (generate_report (RunContext "2025-11-19" "energy_data_etl_pipeline" "manual")
            [CleaningEntry "co2_emissions" 6 3 3] load_summary) = 1%nat
    /\ successful_loads
         (generate_report (RunContext "2025-11-19" "energy_data_etl_pipeline" "manual")
            [CleaningEntry "co2_emissions" 6 3 3] load_summary) = 1%nat
    /\ failed_loads
         (generate_report (RunContext "2025-11-19" "energy_data_etl_pipeline" "manual")
            [CleaningEntry "co2_emissions" 6 3 3] load_summary) = 0%nat.
Proof.
  destruct sample_load_stage as (db' & load_summary & Hl).
  exists db', load_summary. split; [exact Hl|].
  destruct (report_after_complete_run Sample.runtime Sample.postgres
              (RunContext "2025-11-19" "energy_data_etl_pipeline" "manual")
              (fun _ => Sample.today) ["co2_emissions"]
              {[ parquet_path "co2_emissions" := Sample.co2_snapshot ]}
              (<[ cleaned_parquet_path "co2_emissions" := Sample.co2_cleaned ]>
                 {[ parquet_path "co2_emissions" := Sample.co2_snapshot ]})
              empty db' [CleaningEntry "co2_emissions" 6 3 3] load_summary
              sample_clean_stage Hl)
    as (H1 & H2 & H3 & _).
  split; [exact H1 | split; [exact H2 | exact H3]].
Defined.

(** The whole run over the CO2 sample: the table it leaves. *)
Lemma pipeline_tables_sample :
  exists (db' : gmap string frame) (load_summary : list load_entry) (table : frame),
    load_to_postgres (pg := Sample.postgres) ["co2_emissions"]
      (<[ cleaned_parquet_path "co2_emissions" := Sample.co2_cleaned ]>
         {[ parquet_path "co2_emissions" := Sample.co2_snapshot ]})
      empty
    = Some (db', load_summary)
    /\ db' !! "cleaned_co2_emissions" = Some table
    /\ columns table
       = [ "id"; "entity"; "code"; "year"; "annual_co2_emissions";
           "data_source"; "data_quality_flag"; "last_updated"; "entity_type" ]
    /\ length (rows table) = 3%nat.
Proof.
  destruct sample_load_stage as (db' & load_summary & Hl).
  destruct (pipeline_tables Sample.runtime Sample.postgres (fun _ => Sample.today)
              ["co2_emissions"]
              {[ parquet_path "co2_emissions" := Sample.co2_snapshot ]}
              (<[ cleaned_parquet_path "co2_emissions" := Sample.co2_cleaned ]>
                 {[ parquet_path "co2_emissions" := Sample.co2_snapshot ]})
              empty db' [CleaningEntry "co2_emissions" 6 3 3] load_summary)
    with (k := "co2_emissions")
    as (df & out & Hdf & Hout & _ & _ & _ & Htable).
  - intros k k' [<-|[]] [<-|[]]. vm_compute. discriminate.
  - exact sample_clean_stage.
  - exact Hl.
  - now left.
  - assert (df = Sample.co2_snapshot) as ->.
    { rewrite lookup_singleton_eq in Hdf. now injection Hdf as <-. }
    assert (out = Sample.co2_cleaned) as ->.
    { rewrite sample_clean in Hout. now injection Hout as <-. }
    destruct Htable as (table & Hdb & Hcols & _ & Hlen); [now intros k' [<-|[]] _|].
    exists db', load_summary, table.
    split; [exact Hl | split; [exact Hdb | split; [exact Hcols | exact Hlen]]].
Defined.

(** A [page] parameter between two that count changes nothing, and neither
    does a year that a later one replaces. *)
Lemma other_parameters_ignored_sample :
  Co2EmissionsViewSet.get_queryset (rt := Sample.runtime) (pg := Sample.postgres)
    [("year", "2020"); ("page", "2"); ("entity", "France")] Sample.co2_table
  = Co2EmissionsViewSet.get_queryset (rt := Sample.runtime) (pg := Sample.postgres)
      [("year", "2020"); ("entity", "France")] Sample.co2_table
  /\ Co2EmissionsViewSet.get_queryset (rt := Sample.runtime) (pg := Sample.postgres)
       [("year", "1999"); ("entity", "France"); ("year", "2020")] Sample.co2_table
     = Co2EmissionsViewSet.get_queryset (rt := Sample.runtime) (pg := Sample.postgres)
         [("entity", "France"); ("year", "2020")] Sample.co2_table.
Proof.
  split.
  - apply (other_parameters_ignored Sample.runtime Sample.postgres
             (R := CleanedCo2Emissions.t)
             [("year", "2020")] [("entity", "France")] "page" "2" Sample.co2_table).
    left. simpl. intuition discriminate.
  - apply (other_parameters_ignored Sample.runtime Sample.postgres
             (R := CleanedCo2Emissions.t)
             [] [("entity", "France"); ("year", "2020")] "year" "1999"
             Sample.co2_table).
    right. discriminate.
Defined.

(** A lower bound above the upper bound. *)
Lemma conflicting_years_select_nothing_sample :
  exists rs,
    Co2EmissionsViewSet.get_queryset (rt := Sample.runtime) (pg := Sample.postgres)
      [("year_min", "2021"); ("year_max", "2019")] Sample.co2_table = Ok rs
    /\ rs = [].
Proof.
  eexists. split; [reflexivity|].
  apply (conflicting_years_select_nothing (rt := Sample.runtime) (pg := Sample.postgres)
           (R := CleanedCo2Emissions.t)
           [("year_min", "2021"); ("year_max", "2019")] Sample.co2_table _
           "2021" "2019" 2021 2019).
  - left. split; (split; [reflexivity | discriminate]).
  - reflexivity.
  - reflexivity.
  - lia.
  - reflexivity.
Defined.

(** Two spellings of France. *)
Lemma entity_parameter_case_sample :
  Sample.upper "france" = Sample.upper "FRANCE"
  /\ Co2EmissionsViewSet.get_queryset (rt := Sample.runtime) (pg := Sample.postgres)
       [("year", "2020"); ("entity", "france")] Sample.co2_table
     = Co2EmissionsViewSet.get_queryset (rt := Sample.runtime) (pg := Sample.postgres)
         [("year", "2020"); ("entity", "FRANCE")] Sample.co2_table.
Proof.
  split; [reflexivity|].
  apply (entity_parameter_case Sample.runtime Sample.postgres
           (R := CleanedCo2Emissions.t) [("year", "2020")] "france" "FRANCE"
           Sample.co2_table); [reflexivity | discriminate | discriminate].
Defined.

(** The records of France: stored as the first, third and fourth record,
    returned with the record of 2019 last. *)
Lemma get_queryset_rowwise_sample :
  exists rs,
    Co2EmissionsViewSet.get_queryset (rt := Sample.runtime) (pg := Sample.postgres)
      [("entity", "france")] Sample.co2_table = Ok rs
    /\ map CleanedCo2Emissions.id rs = [1%Z; 4%Z; 3%Z]
    /\ (forall r, In r rs -> In r Sample.co2_table)
    /\ StronglySorted
         (fun a b => (CleanedCo2Emissions.year b <= CleanedCo2Emissions.year a)%Z) rs.
Proof.
  eexists. split; [reflexivity|]. split; [reflexivity|].
  destruct (get_queryset_rowwise Sample.runtime Sample.postgres
              (R := CleanedCo2Emissions.t)
              [("entity", "france")] Sample.co2_table _ eq_refl)
    as (_ & H1 & _ & H2).
  split; [exact H1|]. apply (H2 [(true, "annual_co2_emissions")]); reflexivity.
Defined.

(** The CO2 summary of the records of France. *)
Lemma co2_summary_values_sample :
  exists queryset,
    Co2EmissionsViewSet.get_queryset (rt := Sample.runtime) (pg := Sample.postgres)
      [("entity", "france")] Sample.co2_table
    = Ok queryset
    /\ exists stats,
         Co2EmissionsViewSet.summary (rt := Sample.runtime) (pg := Sample.postgres)
           (fun _ queryset => queryset) [("entity", "france")] Sample.co2_table
         = Ok stats
         /\ map fst stats = [ "total_records"; "avg_emissions"; "max_emissions";
                              "min_emissions"; "latest_year"; "earliest_year" ]
         /\ In ("total_records", num (Z.of_nat (length queryset))) stats.
Proof.
  eexists. split; [reflexivity|].
  destruct (co2_summary_values Sample.runtime Sample.postgres
              (fun _ queryset => queryset)
              [("entity", "france")] Sample.co2_table _ eq_refl)
    as (stats & E & Hn & Ht & _).
  exists stats. split; [exact E | split; [exact Hn | exact Ht]].
Defined.

(** Two aggregates of the CO2 model over no record. *)
Lemma aggregate_over_nothing_sample :
  exists stats,
    aggregate (pg := Sample.postgres) (R := CleanedCo2Emissions.t)
      [("total_records", (Count, "id")); ("avg_emissions", (Avg, "annual_co2_emissions"))]
      [] = Ok stats
    /\ stats = [("total_records", num 0); ("avg_emissions", CNull)].
Proof.
  eexists. split; [reflexivity|].
  apply (aggregate_over_nothing (pg := Sample.postgres) (R := CleanedCo2Emissions.t)
           [("total_records", (Count, "id"));
            ("avg_emissions", (Avg, "annual_co2_emissions"))]).
  reflexivity.
Defined.

(** [South Africa] holds the aggregate name [Africa]. *)
Example south_africa_is_aggregate :
  entity_type_of "South Africa" = "aggregate"
  /\ entity_type_of "France" = "country".
Proof. split; reflexivity. Qed.
